(** * moon_days: tithi computation, moon-event scan and CSV comparison

    A shallow embedding of [generator/generator.py] and
    [one_year_table/year_moon_days.py].

    - Python [float] is IEEE binary64: it is modelled by the [spec_float]
      of the standard library at precision 53, with the operators of
      CPython ([%], [//], [int]) written out.
    - Python exceptions are modelled by the [result] monad.
    - [swisseph] and [pytz] are third-party libraries: their entry points
      are the fields of the record [Externals]. *)

From Stdlib Require Import ZArith List Lia Bool String Ascii Sorted Permutation.
From Stdlib Require Floats.SpecFloat.
From stdpp Require Import base option list list_numbers sorting gmap strings pretty.

Local Open Scope Z_scope.

(** ** Exceptions *)

Inductive exn : Type :=
  | ValueError
  | OverflowError
  | ZeroDivisionError
  | KeyError
  | LibraryError (msg : string).

Inductive result (A : Type) : Type :=
  | Ok (a : A)
  | Raise (e : exn).
Arguments Ok {A} a.
Arguments Raise {A} e.

#[global] Instance result_ret : MRet result := fun _ a => Ok a.
#[global] Instance result_bind : MBind result := fun _ _ f m =>
  match m with
  | Ok a => f a
  | Raise e => Raise e
  end.

(** ** Python floats *)

Module PyFloat.

Import SpecFloat.

Definition float : Type := spec_float.

Definition prec : Z := 53.
Definition emax : Z := 1024.

Definition add : float -> float -> float := SFadd prec emax.
Definition sub : float -> float -> float := SFsub prec emax.
Definition mul : float -> float -> float := SFmul prec emax.
Definition div : float -> float -> float := SFdiv prec emax.

(** [float(n)] for an integer [n]: rounded to nearest, ties to even. *)
Definition of_int (n : Z) : float := binary_normalize prec emax n 0 false.

(** A decimal literal [n / 10^k], correctly rounded as the parser does. *)
Definition of_decimal (n : Z) (k : Z) : float := div (of_int n) (of_int (10 ^ k)).

Definition is_zero (x : float) : bool :=
  match x with S754_zero _ => true | _ => false end.

(** C truth value of a double: everything but zero, NaN included. *)
Definition nonzero (x : float) : bool := negb (is_zero x).

(** [x < 0.0] *)
Definition is_neg (x : float) : bool := SFltb x (S754_zero false).

Definition sign_bit (x : float) : bool :=
  match x with
  | S754_zero s | S754_infinity s | S754_finite s _ _ => s
  | S754_nan => false
  end.

(** [copysign(0.0, y)] *)
Definition zero_like (y : float) : float := S754_zero (sign_bit y).

(** C [fmod]: the exact remainder of the magnitudes, with the sign of [x]. *)
Definition fmod (x y : float) : float :=
  match x, y with
  | S754_nan, _ | _, S754_nan => S754_nan
  | S754_infinity _, _ => S754_nan
  | _, S754_zero _ => S754_nan
  | S754_zero _, _ => x
  | S754_finite _ _ _, S754_infinity _ => x
  | S754_finite sx mx ex, S754_finite _ my ey =>
      let e := Z.min ex ey in
      let r := (Z.pos mx * 2 ^ (ex - e)) mod (Z.pos my * 2 ^ (ey - e)) in
      binary_normalize prec emax (cond_Zopp sx r) e sx
  end.

(** C [floor] *)
Definition floor (x : float) : float :=
  match x with
  | S754_finite s m e =>
      if 0 <=? e then x
      else
        let q := Z.pos m / 2 ^ (- e) in
        let exact := (Z.pos m mod 2 ^ (- e)) =? 0 in
        let n := if s then (if exact then - q else - (q + 1)) else q in
        binary_normalize prec emax n 0 s
  | _ => x
  end.

(** [x % y] on floats (CPython [float_rem]). *)
Definition rem (x y : float) : result float :=
  if is_zero y then Raise ZeroDivisionError
  else
    let m := fmod x y in
    Ok (if nonzero m
        then (if negb (Bool.eqb (is_neg y) (is_neg m)) then add m y else m)
        else zero_like y).

(** [x // y] on floats (CPython [float_floor_div], through [_float_div_mod]). *)
Definition floordiv (x y : float) : result float :=
  if is_zero y then Raise ZeroDivisionError
  else
    let m := fmod x y in
    let d := div (sub x m) y in
    let d := if nonzero m && negb (Bool.eqb (is_neg y) (is_neg m))
             then sub d (of_int 1) else d in
    Ok (if nonzero d
        then
          let fl := floor d in
          if SFltb (of_decimal 5 1) (sub d fl) then add fl (of_int 1) else fl
        else zero_like (div x y)).

(** [a / b] on two integers that binary64 holds exactly, [b] non-zero. *)
Definition int_truediv (a b : Z) : float := div (of_int a) (of_int b).

(** [int(x)]: truncation towards zero. *)
Definition to_int (x : float) : result Z :=
  match x with
  | S754_zero _ => Ok 0
  | S754_nan => Raise ValueError
  | S754_infinity _ => Raise OverflowError
  | S754_finite s m e =>
      Ok (cond_Zopp s (if 0 <=? e then Z.pos m * 2 ^ e else Z.pos m / 2 ^ (- e)))
  end.

(** The binary64 number with IEEE bit pattern [bits]. *)
Definition of_bits (bits : Z) : float :=
  let s := Z.testbit bits 63 in
  let be := Z.land (Z.shiftr bits 52) 2047 in
  let frac := Z.land bits (2 ^ 52 - 1) in
  if be =? 2047 then (if frac =? 0 then S754_infinity s else S754_nan)
  else if be =? 0 then
    match frac with
    | Z.pos m => S754_finite s m (-1074)
    | _ => S754_zero s
    end
  else
    match frac + 2 ^ 52 with
    | Z.pos m => S754_finite s m (be - 1075)
    | _ => S754_nan
    end.

End PyFloat.

Abbreviation float := PyFloat.float.

(** ** Calendar dates

    A [datetime.date] is represented by its proleptic Gregorian ordinal
    ([date.toordinal()]); its fields are read back as [datetime] does. *)

Module Calendar.

Definition date : Type := Z.

Definition _DAYS_IN_MONTH : list Z :=
  [-1; 31; 28; 31; 30; 31; 30; 31; 31; 30; 31; 30; 31].
Definition _DAYS_BEFORE_MONTH : list Z :=
  [-1; 0; 31; 59; 90; 120; 151; 181; 212; 243; 273; 304; 334].

Definition _MAXORDINAL : Z := 3652059.

Definition _is_leap (year : Z) : bool :=
  (year mod 4 =? 0) && (negb (year mod 100 =? 0) || (year mod 400 =? 0)).

Definition _days_before_year (year : Z) : Z :=
  let y := year - 1 in
  y * 365 + y / 4 - y / 100 + y / 400.

Definition _days_in_month (year month : Z) : Z :=
  if (month =? 2) && _is_leap year then 29
  else nth (Z.to_nat month) _DAYS_IN_MONTH 0.

Definition _days_before_month (year month : Z) : Z :=
  nth (Z.to_nat month) _DAYS_BEFORE_MONTH 0
  + (if (2 <? month) && _is_leap year then 1 else 0).

Definition _ymd2ord (year month day : Z) : Z :=
  _days_before_year year + _days_before_month year month + day.

Definition _DI400Y : Z := 146097.
Definition _DI100Y : Z := 36524.
Definition _DI4Y : Z := 1461.

Definition _ord2ymd (n : Z) : Z * Z * Z :=
  let n := n - 1 in
  let n400 := n / _DI400Y in
  let n := n mod _DI400Y in
  let year := n400 * 400 + 1 in
  let n100 := n / _DI100Y in
  let n := n mod _DI100Y in
  let n4 := n / _DI4Y in
  let n := n mod _DI4Y in
  let n1 := n / 365 in
  let n := n mod 365 in
  let year := year + (n100 * 100 + n4 * 4 + n1) in
  if (n1 =? 4) || (n100 =? 4) then (year - 1, 12, 31)
  else
    let leapyear := (n1 =? 3) && (negb (n4 =? 24) || (n100 =? 3)) in
    let month := Z.shiftr (n + 50) 5 in
    let preceding :=
      nth (Z.to_nat month) _DAYS_BEFORE_MONTH 0
      + (if (2 <? month) && leapyear then 1 else 0) in
    if n <? preceding then
      let month := month - 1 in
      let preceding :=
        preceding - (nth (Z.to_nat month) _DAYS_IN_MONTH 0
                     + (if (month =? 2) && leapyear then 1 else 0)) in
      (year, month, n - preceding + 1)
    else (year, month, n - preceding + 1).

Definition year (d : date) : Z := (_ord2ymd d).1.1.
Definition month (d : date) : Z := (_ord2ymd d).1.2.
Definition day (d : date) : Z := (_ord2ymd d).2.

Definition valid_ymd (y m d : Z) : bool :=
  (1 <=? y) && (y <=? 9999) && (1 <=? m) && (m <=? 12)
  && (1 <=? d) && (d <=? _days_in_month y m).

(** [datetime.date(y, m, d)] *)
Definition mkdate (y m d : Z) : result date :=
  if valid_ymd y m d then Ok (_ymd2ord y m d) else Raise ValueError.

(** [d + datetime.timedelta(days=n)] *)
Definition add_days (d : date) (n : Z) : result date :=
  let o := d + n in
  if (0 <? o) && (o <=? _MAXORDINAL) then Ok o else Raise OverflowError.

(** [(a - b).days] *)
Definition days_between (a b : date) : Z := a - b.

Definition valid (d : date) : Prop := 1 <= d <= _MAXORDINAL.

End Calendar.


(** ** Configuration shared by the two scripts *)

Definition TITHI_DEG : float := PyFloat.of_int 12.
Definition PURNIMA : Z := 15.
Definition AMAVASYA : Z := 30.

Record City : Type := { lat : float; lon : float; tz : string }.

Definition CITIES : list (string * City) :=
  let dec := PyFloat.of_decimal in
  [ ("Mysuru", {| lat := dec 122958 4; lon := dec 766394 4; tz := "Asia/Kolkata" |});
    ("Moscow", {| lat := dec 557558 4; lon := dec 376173 4; tz := "Europe/Moscow" |});
    ("Saint-Petersburg",
       {| lat := dec 599343 4; lon := dec 303351 4; tz := "Europe/Moscow" |});
    ("Yekaterinburg",
       {| lat := dec 568389 4; lon := dec 606057 4; tz := "Asia/Yekaterinburg" |});
    ("Krasnaya Polyana",
       {| lat := dec 436828 4; lon := dec 402596 4; tz := "Europe/Moscow" |});
    ("Novosibirsk",
       {| lat := dec 550084 4; lon := dec 829357 4; tz := "Asia/Novosibirsk" |});
    ("Minsk", {| lat := dec 539006 4; lon := dec 275590 4; tz := "Europe/Minsk" |});
    ("Kyiv", {| lat := dec 504501 4; lon := dec 305234 4; tz := "Europe/Kyiv" |});
    ("Astana", {| lat := dec 511694 4; lon := dec 714491 4; tz := "Asia/Almaty" |});
    ("Almaty", {| lat := dec 432389 4; lon := dec 768897 4; tz := "Asia/Almaty" |}) ]%string.

(** ** Date-times and the external libraries *)

Inductive tzinfo : Type :=
  | UTC
  | Zone (name : string).

Record datetime : Type := {
  dt_year : Z; dt_month : Z; dt_day : Z;
  dt_hour : Z; dt_minute : Z; dt_second : Z;
  dt_tzinfo : option tzinfo
}.

(** A Python int that fits the C [int] in which the constructor of
    [datetime] stores each of its arguments. *)
Definition fits_c_int (n : Z) : bool := (- 2 ^ 31 <=? n) && (n <? 2 ^ 31).

(** [datetime.datetime(y, m, d, hh, mm, ss, tzinfo=tzi)]: the arguments are
    first stored as C [int]s, which raises [OverflowError] for one that
    does not fit; the date and the time of day are checked afterwards. *)
Definition mkdatetime (y m d hh mm ss : Z) (tzi : option tzinfo) : result datetime :=
  if forallb fits_c_int [y; m; d; hh; mm; ss] then
    if Calendar.valid_ymd y m d
       && (0 <=? hh) && (hh <=? 23) && (0 <=? mm) && (mm <=? 59)
       && (0 <=? ss) && (ss <=? 59)
    then Ok {| dt_year := y; dt_month := m; dt_day := d;
               dt_hour := hh; dt_minute := mm; dt_second := ss; dt_tzinfo := tzi |}
    else Raise ValueError
  else Raise OverflowError.

Inductive body : Type := SUN | MOON.
Inductive rsmi : Type := CALC_RISE.
Inductive calendar : Type := GREG_CAL.

(** The entry points of [swisseph] and [pytz] that the scripts call.
    [swe_calc_ut jd b] is the ecliptic longitude [swe.calc_ut(jd, b)[0][0]];
    [swe_rise_trans] is the first time [tret[0]] of [swe.rise_trans]. *)
Record Externals : Type := {
  swe_julday : Z -> Z -> Z -> float -> result float;
  swe_calc_ut : float -> body -> result float;
  swe_rise_trans : float -> body -> rsmi -> float * float * Z -> Z -> Z -> result float;
  swe_revjul : float -> calendar -> result (Z * Z * Z * float);
  pytz_timezone : string -> result tzinfo;
  localize : tzinfo -> datetime -> result datetime;
  astimezone : datetime -> tzinfo -> result datetime
}.

(** The arithmetic of [tithi_at_jd], on the two longitudes read from the
    ephemeris:
    [diff = (moon - sun) % 360.0; return int(diff // TITHI_DEG) + 1]. *)
Definition tithi_of_longitudes (moon sun : float) : result Z :=
  diff ← PyFloat.rem (PyFloat.sub moon sun) (PyFloat.of_int 360);
  q ← PyFloat.floordiv diff TITHI_DEG;
  n ← PyFloat.to_int q;
  mret (n + 1).

(** ** Astronomy (the same three functions in both scripts) *)

Section Astronomy.

Context (X : Externals).

Definition julian_day (dt_utc : datetime) : result float :=
  swe_julday X (dt_year dt_utc) (dt_month dt_utc) (dt_day dt_utc)
    (PyFloat.add
       (PyFloat.add (PyFloat.of_int (dt_hour dt_utc))
                    (PyFloat.int_truediv (dt_minute dt_utc) 60))
       (PyFloat.int_truediv (dt_second dt_utc) 3600)).

Definition tithi_at_jd (jd : float) : result Z :=
  sun ← swe_calc_ut X jd SUN;
  moon ← swe_calc_ut X jd MOON;
  tithi_of_longitudes moon sun.

(** The hour of [swe.revjul] cut into whole hours, minutes and seconds. *)
Definition split_hour (h : float) : result (Z * Z * Z) :=
  hh ← PyFloat.to_int h;
  let frac := PyFloat.sub h (PyFloat.of_int hh) in
  mm ← PyFloat.to_int (PyFloat.mul frac (PyFloat.of_int 60));
  ss ← PyFloat.to_int
         (PyFloat.mul
            (PyFloat.sub (PyFloat.mul frac (PyFloat.of_int 60)) (PyFloat.of_int mm))
            (PyFloat.of_int 60));
  mret (hh, mm, ss).

Definition local_sunrise (date : Calendar.date) (city : City) : result datetime :=
  tzi ← pytz_timezone X (tz city);
  naive ← mkdatetime (Calendar.year date) (Calendar.month date) (Calendar.day date)
                     0 0 0 None;
  local_midnight ← localize X tzi naive;
  utc_midnight ← astimezone X local_midnight UTC;
  jd0 ← julian_day utc_midnight;
  jd_rise ← swe_rise_trans X jd0 SUN CALC_RISE (lon city, lat city, 0) 0 0;
  '(y, m, d, h) ← swe_revjul X jd_rise GREG_CAL;
  '(hh, mm, ss) ← split_hour h;
  sunrise_utc ← mkdatetime y m d hh mm ss (Some UTC);
  astimezone X sunrise_utc tzi.

End Astronomy.

(** ** Python string formatting *)

Definition zeros (n : nat) : string := Nat.iter n (String "0"%char) ""%string.

(** [format(n, "0{w}d")] *)
Definition fmt_0d (w : nat) (n : Z) : string :=
  if n <? 0
  then let s := pretty (- n) in
       ("-" +:+ zeros (Nat.pred w - String.length s) +:+ s)%string
  else let s := pretty n in
       (zeros (w - String.length s) +:+ s)%string.

(** [d.isoformat()] *)
Definition isoformat (d : Calendar.date) : string :=
  (fmt_0d 4 (Calendar.year d) +:+ "-" +:+ fmt_0d 2 (Calendar.month d)
   +:+ "-" +:+ fmt_0d 2 (Calendar.day d))%string.

(** [dict[key]] on a dictionary kept in insertion order. *)
Fixpoint dict_get {A : Type} (key : string) (items : list (string * A)) : result A :=
  match items with
  | [] => Raise KeyError
  | (k, v) :: rest => if String.eqb k key then Ok v else dict_get key rest
  end.

(** A loop that may run out of fuel: [None] is fuel exhaustion. *)
Definition outcome (A : Type) : Type := option (result A).

Definition obind {A B : Type} (m : outcome A) (f : A -> outcome B) : outcome B :=
  match m with
  | None => None
  | Some (Raise e) => Some (Raise e)
  | Some (Ok a) => f a
  end.

(** [for x in xs: ys.append(f(x))], with [f] failing or running out of fuel. *)
Fixpoint omap {A B : Type} (f : A -> outcome B) (xs : list A) : outcome (list B) :=
  match xs with
  | [] => Some (Ok [])
  | x :: rest =>
      obind (f x) (fun y => obind (omap f rest) (fun ys => Some (Ok (y :: ys))))
  end.

Fixpoint rmap {A B : Type} (f : A -> result B) (xs : list A) : result (list B) :=
  match xs with
  | [] => Ok []
  | x :: rest => y ← f x; ys ← rmap f rest; mret (y :: ys)
  end.

(** ** generator/generator.py *)

Module Generator.

Definition START_DATE : Calendar.date := Calendar._ymd2ord 2026 1 1.
Definition END_DATE : Calendar.date := Calendar._ymd2ord 2101 1 1.

Definition MASTER_CITY : string := "Mysuru".
Definition LOCAL_CITY : string := "Astana".

Definition KIND_PURNIMA : Z := 0.
Definition KIND_AMAVASYA : Z := 1.
Definition KIND_KSHAYA_PURNIMA : Z := 2.
Definition KIND_KSHAYA_AMAVASYA : Z := 3.

Record MoonEvent : Type := { index : nat; date : Calendar.date; kind : Z }.

Definition base_tithi (k : Z) : result Z :=
  if (k =? KIND_PURNIMA) || (k =? KIND_KSHAYA_PURNIMA) then Ok PURNIMA
  else if (k =? KIND_AMAVASYA) || (k =? KIND_KSHAYA_AMAVASYA) then Ok AMAVASYA
  else Raise ValueError.

(** [[(t0 + i - 1) % 30 + 1 for i in range(1, diff)]] *)
Definition skipped (t0 diff : Z) : list Z :=
  (fun i => (t0 + i - 1) mod 30 + 1) <$> seqZ 1 (diff - 1).

(** Lines 171-184 of [detect_event]: the decision on the two tithis. *)
Definition event_kind (t0 t1 : Z) : option Z :=
  if t0 =? PURNIMA then Some KIND_PURNIMA
  else if t0 =? AMAVASYA then Some KIND_AMAVASYA
  else
    let diff := (t1 - t0) mod 30 in
    if 1 <? diff then
      if bool_decide (PURNIMA ∈ skipped t0 diff) then Some KIND_KSHAYA_PURNIMA
      else if bool_decide (AMAVASYA ∈ skipped t0 diff) then Some KIND_KSHAYA_AMAVASYA
      else None
    else None.

Section Scan.

Context (X : Externals).

Definition detect_event (d : Calendar.date) (city : City) : result (option Z) :=
  sr0 ← local_sunrise X d city;
  d1 ← Calendar.add_days d 1;
  sr1 ← local_sunrise X d1 city;
  u0 ← astimezone X sr0 UTC;
  jd0 ← julian_day X u0;
  u1 ← astimezone X sr1 UTC;
  jd1 ← julian_day X u1;
  t0 ← tithi_at_jd X jd0;
  t1 ← tithi_at_jd X jd1;
  mret (event_kind t0 t1).

(** One pass through the body of the [while] loop, up to [d += 1]. *)
Definition scan_day (city : City) (d : Calendar.date)
    (st : list MoonEvent * option Calendar.date)
    : result (list MoonEvent * option Calendar.date) :=
  k ← detect_event d city;
  mret (match k with
        | Some k =>
            if match st.2 with
               | None => true
               | Some last_date => 2 <=? Calendar.days_between d last_date
               end
            then (st.1 ++ [ {| index := length st.1; date := d; kind := k |} ],
                  Some d)
            else st
        | None => st
        end).

Fixpoint scan_loop (fuel : nat) (city : City) (d : Calendar.date)
    (st : list MoonEvent * option Calendar.date) : outcome (list MoonEvent) :=
  match fuel with
  | O => None
  | S fuel' =>
      if d <=? END_DATE then
        match scan_day city d st with
        | Raise e => Some (Raise e)
        | Ok st' =>
            match Calendar.add_days d 1 with
            | Raise e => Some (Raise e)
            | Ok d' => scan_loop fuel' city d' st'
            end
        end
      else Some (Ok st.1)
  end.

Definition generate_moon_days (city : City) : outcome (list MoonEvent) :=
  scan_loop (S (Z.to_nat (END_DATE + 1 - START_DATE))) city START_DATE ([], None).

End Scan.

(** *** Header output *)

Definition newline : string := String (ascii_of_nat 10) "".


(** The line of one event in an array of [moon_events.h]:
    [f"  {{{e.index}, {e.date.year}, {e.date.month}, {e.date.day}, {e.kind}}},\n"]. *)
Definition h_entry (e : MoonEvent) : string :=
  ("  {" +:+ pretty (index e) +:+ ", " +:+ pretty (Calendar.year (date e))
   +:+ ", " +:+ pretty (Calendar.month (date e))
   +:+ ", " +:+ pretty (Calendar.day (date e))
   +:+ ", " +:+ pretty (kind e) +:+ "}," +:+ newline)%string.


(** *** CSV output *)

Definition MONTHS : list string :=
  [ ""; "Jan"; "Feb"; "Mar"; "Apr"; "May"; "Jun";
    "Jul"; "Aug"; "Sep"; "Oct"; "Nov"; "Dec" ]%string.

(** The reference mark U+203B in UTF-8. *)
Definition KSHAYA_MARK : string :=
  String (ascii_of_nat 226) (String (ascii_of_nat 128) (String (ascii_of_nat 187) "")).

Definition is_kshaya (k : Z) : bool :=
  (k =? KIND_KSHAYA_PURNIMA) || (k =? KIND_KSHAYA_AMAVASYA).

Definition kind_label (k : Z) : result string :=
  if (k =? KIND_PURNIMA) || (k =? KIND_KSHAYA_PURNIMA) then Ok "PURNIMA"%string
  else if (k =? KIND_AMAVASYA) || (k =? KIND_KSHAYA_AMAVASYA) then Ok "AMAVASYA"%string
  else Raise ValueError.

(** [MONTHS[e.date.month]] never leaves the table: a month is in 1..12. *)
Definition fmt_date (e : MoonEvent) : string :=
  (fmt_0d 2 (Calendar.day (date e)) +:+ " "
   +:+ nth (Z.to_nat (Calendar.month (date e))) MONTHS "" +:+ " "
   +:+ pretty (Calendar.year (date e)))%string.

(** [{e.index: e for e in events}]: a later event replaces an earlier one. *)
Definition index_map (events : list MoonEvent) : gmap nat MoonEvent :=
  foldl (fun m e => <[index e := e]> m) ∅ events.

(** The cell of one other city in the row of the master event whose
    formatted date is [ref_date]; [ev] is [maps[city].get(ref.index)]. *)
Definition other_cell (ref_date : string) (ev : option MoonEvent) : string :=
  match ev with
  | None => ""%string
  | Some ev =>
      let city_date := fmt_date ev in
      if is_kshaya (kind ev) then KSHAYA_MARK
      else if String.eqb city_date ref_date then ""%string
      else city_date
  end.

Definition csv_row (maps : list (string * gmap nat MoonEvent))
    (others : list string) (ref : MoonEvent) : result (list string) :=
  label ← kind_label (kind ref);
  let label := if is_kshaya (kind ref) then (label +:+ " " +:+ KSHAYA_MARK)%string
               else label in
  let ref_date := fmt_date ref in
  cells ← rmap (fun city => m ← dict_get city maps;
                            mret (other_cell ref_date (m !! index ref))) others;
  mret (label :: ref_date :: cells).

(** [generate_csv] once the events of every city are known: the header
    and the rows handed to the CSV writer. *)
Definition csv_table (city_events : list (string * list MoonEvent))
    : result (list (list string)) :=
  let ref_name := MASTER_CITY in
  ref_events ← dict_get ref_name city_events;
  let maps := (fun ne => (ne.1, index_map ne.2)) <$> city_events in
  let city_names := fst <$> CITIES in
  let header := ["Moon Phase"%string; (ref_name +:+ " Date")%string]
                ++ drop 1 city_names in
  rows ← rmap (csv_row maps (drop 1 city_names)) ref_events;
  mret (header :: rows).

Definition generate_csv (X : Externals) : outcome (list (list string)) :=
  obind
    (omap (fun nc => obind (generate_moon_days X nc.2)
                           (fun events => Some (Ok (nc.1, events)))) CITIES)
    (fun city_events => Some (csv_table city_events)).

End Generator.

(** ** one_year_table/year_moon_days.py *)

Module YearTable.

Definition YEAR : Z := 2026.

(** [sorted(results)] on a set of dates. *)
Definition sorted (results : gset Z) : list Calendar.date :=
  merge_sort Z.le (elements results).

(** [for delta in deltas: candidate = d + timedelta(days=delta); ...; break] *)
Fixpoint probe (days : gset Z) (d : Calendar.date) (deltas : list Z)
    : result (option Calendar.date) :=
  match deltas with
  | [] => Ok None
  | delta :: rest =>
      candidate ← Calendar.add_days d delta;
      if bool_decide (candidate ∈ days) then Ok (Some candidate)
      else probe days d rest
  end.

(** The cell of one other city in the row of the master moon day [d]. *)
Definition cell (days : gset Z) (d : Calendar.date) : result string :=
  found ← probe days d [0; -1; 1; -2; 2];
  mret (match found with
        | None => "NaN"%string
        | Some f => if f =? d then ""%string else isoformat f
        end).

Definition csv_row (city_days : list (string * gset Z)) (others : list string)
    (d : Calendar.date) : result (list string) :=
  cells ← rmap (fun city => days ← dict_get city city_days; cell days d) others;
  mret (isoformat d :: cells).

Section Year.

Context (X : Externals).

Definition is_moon_day (d : Calendar.date) (city : City) : result bool :=
  sr ← local_sunrise X d city;
  sr_utc ← astimezone X sr UTC;
  jd ← julian_day X sr_utc;
  t ← tithi_at_jd X jd;
  mret ((t =? AMAVASYA) || (t =? PURNIMA)).

Fixpoint days_loop (fuel : nat) (city : City) (stop d : Calendar.date)
    (results : gset Z) : outcome (gset Z) :=
  match fuel with
  | O => None
  | S fuel' =>
      if d <=? stop then
        match is_moon_day d city with
        | Raise e => Some (Raise e)
        | Ok b =>
            let results := if b then {[ d ]} ∪ results else results in
            match Calendar.add_days d 1 with
            | Raise e => Some (Raise e)
            | Ok d' => days_loop fuel' city stop d' results
            end
        end
      else Some (Ok results)
  end.

Definition moon_days_for_city (city : City) : outcome (list Calendar.date) :=
  obind (Some (Calendar.mkdate YEAR 1 1)) (fun start =>
  obind (Some (Calendar.mkdate YEAR 12 31)) (fun stop =>
  obind (days_loop (S (Z.to_nat (stop + 1 - start))) city stop start ∅)
        (fun results => Some (Ok (sorted results))))).

Definition generate_csv : outcome (list (list string)) :=
  obind (Some (dict_get "Mysuru" CITIES)) (fun master =>
  obind (moon_days_for_city master) (fun master_days =>
  obind (omap (fun nc => obind (moon_days_for_city nc.2)
                               (fun days => Some (Ok (nc.1, list_to_set days))))
              (List.filter (fun nc => negb (String.eqb nc.1 "Mysuru")) CITIES))
        (fun city_days : list (string * gset Z) =>
  let headers := "Mysuru"%string
                 :: List.filter (fun c => negb (String.eqb c "Mysuru")) (fst <$> CITIES) in
  obind (Some (rmap (csv_row city_days (drop 1 headers)) master_days)) (fun rows =>
  Some (Ok (headers :: rows)))))).

End Year.

End YearTable.

(** ** Notions used to state the properties *)

(** The tithi at the local sunrise of a date, as [is_moon_day] and
    [detect_event] compute it. *)
Definition sunrise_tithi (X : Externals) (d : Calendar.date) (city : City) : result Z :=
  sr ← local_sunrise X d city;
  sr_utc ← astimezone X sr UTC;
  jd ← julian_day X sr_utc;
  tithi_at_jd X jd.

(** [f] holds of the [n] integers from [start] on (checked by evaluation). *)
Fixpoint all_from (f : Z -> bool) (n : nat) (start : Z) : bool :=
  match n with
  | O => true
  | S n' => f start && all_from f n' (start + 1)
  end.

(** [f] takes different values at different integers among the [n] from
    [start] on. *)
Definition distinct_from (f : Z -> string) (n : nat) (start : Z) : bool :=
  all_from (fun a => all_from (fun b => implb (String.eqb (f a) (f b)) (a =? b)) n start)
           n start.

(** The day [r + 1] of the first 400 years: its fields are a valid date of
    the years 1..400 and give its ordinal back. *)
Definition cycle_ok (r : Z) : bool :=
  let '(y, m, d) := Calendar._ord2ymd (r + 1) in
  (Calendar._ymd2ord y m d =? r + 1) && (1 <=? y) && (y <=? 400)
  && (1 <=? m) && (m <=? 12) && (1 <=? d) && (d <=? Calendar._days_in_month y m).

(** [n] is the float [x] cut towards zero: [|n| <= |x| < |n| + 1], with the
    sign of [x]. *)
Definition truncates (x : float) (n : Z) : Prop :=
  match x with
  | SpecFloat.S754_zero _ => n = 0
  | SpecFloat.S754_finite s m e =>
      (if s then n <= 0 else 0 <= n)
      /\ Z.abs n * 2 ^ Z.max 0 (- e) <= Z.pos m * 2 ^ Z.max 0 e
         < (Z.abs n + 1) * 2 ^ Z.max 0 (- e)
  | _ => False
  end.

(** Tithi [x] is passed over between a sunrise at tithi [t0] and the next
    one at tithi [t1]: it lies strictly between them, counting forward
    round the cycle of 30. *)
Definition skipped_between (t0 t1 x : Z) : Prop :=
  1 <= x <= 30 /\ 0 < (x - t0) mod 30 < (t1 - t0) mod 30.




(** A library call of [local_sunrise] after [localize] raises [e]. *)
Inductive midnight_call_fails (X : Externals) (city : City) (e : exn)
    (tzi : tzinfo) (local_midnight : datetime) : Prop :=
  | fails_to_utc :
      astimezone X local_midnight UTC = Raise e ->
      midnight_call_fails X city e tzi local_midnight
  | fails_julday utc_midnight :
      astimezone X local_midnight UTC = Ok utc_midnight ->
      julian_day X utc_midnight = Raise e ->
      midnight_call_fails X city e tzi local_midnight
  | fails_rise_trans utc_midnight jd0 :
      astimezone X local_midnight UTC = Ok utc_midnight ->
      julian_day X utc_midnight = Ok jd0 ->
      swe_rise_trans X jd0 SUN CALC_RISE (lon city, lat city, 0) 0 0 = Raise e ->
      midnight_call_fails X city e tzi local_midnight
  | fails_revjul utc_midnight jd0 jd_rise :
      astimezone X local_midnight UTC = Ok utc_midnight ->
      julian_day X utc_midnight = Ok jd0 ->
      swe_rise_trans X jd0 SUN CALC_RISE (lon city, lat city, 0) 0 0 = Ok jd_rise ->
      swe_revjul X jd_rise GREG_CAL = Raise e ->
      midnight_call_fails X city e tzi local_midnight
  | fails_to_local utc_midnight jd0 jd_rise y m dd h hh mm ss sunrise_utc :
      astimezone X local_midnight UTC = Ok utc_midnight ->
      julian_day X utc_midnight = Ok jd0 ->
      swe_rise_trans X jd0 SUN CALC_RISE (lon city, lat city, 0) 0 0 = Ok jd_rise ->
      swe_revjul X jd_rise GREG_CAL = Ok (y, m, dd, h) ->
      split_hour h = Ok (hh, mm, ss) ->
      mkdatetime y m dd hh mm ss (Some UTC) = Ok sunrise_utc ->
      astimezone X sunrise_utc tzi = Raise e ->
      midnight_call_fails X city e tzi local_midnight.

(** A call that [local_sunrise d city] makes to a library raises [e], the
    calls before it having returned. *)
Inductive sunrise_call_fails (X : Externals) (d : Calendar.date) (city : City)
    (e : exn) : Prop :=
  | fails_timezone :
      pytz_timezone X (tz city) = Raise e -> sunrise_call_fails X d city e
  | fails_localize tzi naive :
      pytz_timezone X (tz city) = Ok tzi ->
      mkdatetime (Calendar.year d) (Calendar.month d) (Calendar.day d) 0 0 0 None
        = Ok naive ->
      localize X tzi naive = Raise e -> sunrise_call_fails X d city e
  | fails_later tzi naive local_midnight :
      pytz_timezone X (tz city) = Ok tzi ->
      mkdatetime (Calendar.year d) (Calendar.month d) (Calendar.day d) 0 0 0 None
        = Ok naive ->
      localize X tzi naive = Ok local_midnight ->
      midnight_call_fails X city e tzi local_midnight -> sunrise_call_fails X d city e.

(** A position query of [tithi_at_jd jd] raises [e]. *)
Inductive tithi_call_fails (X : Externals) (jd : float) (e : exn) : Prop :=
  | fails_sun : swe_calc_ut X jd SUN = Raise e -> tithi_call_fails X jd e
  | fails_moon sun :
      swe_calc_ut X jd SUN = Ok sun -> swe_calc_ut X jd MOON = Raise e ->
      tithi_call_fails X jd e.

(** A library call of [detect_event] after its two sunrises raises [e]. *)
Inductive tithis_call_fails (X : Externals) (e : exn) (sr0 sr1 : datetime) : Prop :=
  | fails_utc_today :
      astimezone X sr0 UTC = Raise e -> tithis_call_fails X e sr0 sr1
  | fails_julday_today u0 :
      astimezone X sr0 UTC = Ok u0 -> julian_day X u0 = Raise e ->
      tithis_call_fails X e sr0 sr1
  | fails_utc_tomorrow u0 jd0 :
      astimezone X sr0 UTC = Ok u0 -> julian_day X u0 = Ok jd0 ->
      astimezone X sr1 UTC = Raise e -> tithis_call_fails X e sr0 sr1
  | fails_julday_tomorrow u0 jd0 u1 :
      astimezone X sr0 UTC = Ok u0 -> julian_day X u0 = Ok jd0 ->
      astimezone X sr1 UTC = Ok u1 -> julian_day X u1 = Raise e ->
      tithis_call_fails X e sr0 sr1
  | fails_tithi_today u0 jd0 u1 jd1 :
      astimezone X sr0 UTC = Ok u0 -> julian_day X u0 = Ok jd0 ->
      astimezone X sr1 UTC = Ok u1 -> julian_day X u1 = Ok jd1 ->
      tithi_call_fails X jd0 e -> tithis_call_fails X e sr0 sr1
  | fails_tithi_tomorrow u0 jd0 u1 jd1 t0 :
      astimezone X sr0 UTC = Ok u0 -> julian_day X u0 = Ok jd0 ->
      astimezone X sr1 UTC = Ok u1 -> julian_day X u1 = Ok jd1 ->
      tithi_at_jd X jd0 = Ok t0 -> tithi_call_fails X jd1 e ->
      tithis_call_fails X e sr0 sr1.

(** A library call made in the course of [detect_event d city] raises [e],
    everything before it having returned. *)
Inductive detect_call_fails (X : Externals) (d : Calendar.date) (city : City)
    (e : exn) : Prop :=
  | fails_sunrise_today :
      sunrise_call_fails X d city e -> detect_call_fails X d city e
  | fails_sunrise_tomorrow sr0 d1 :
      local_sunrise X d city = Ok sr0 -> Calendar.add_days d 1 = Ok d1 ->
      sunrise_call_fails X d1 city e -> detect_call_fails X d city e
  | fails_after_sunrises sr0 d1 sr1 :
      local_sunrise X d city = Ok sr0 -> Calendar.add_days d 1 = Ok d1 ->
      local_sunrise X d1 city = Ok sr1 ->
      tithis_call_fails X e sr0 sr1 -> detect_call_fails X d city e.

(** What holds of the state of the scan of [generate_moon_days] when it
    started on day [d0] with no event and is about to look at day [d]. *)
Record scan_inv (X : Externals) (city : City) (d0 d : Calendar.date)
    (st : list Generator.MoonEvent * option Calendar.date) : Prop := {
  inv_index : forall i e, st.1 !! i = Some e -> Generator.index e = i;
  inv_gap : forall i j a b, (i < j)%nat -> st.1 !! i = Some a -> st.1 !! j = Some b ->
    2 <= Calendar.days_between (Generator.date b) (Generator.date a);
  inv_range : forall e, e ∈ st.1 ->
    d0 <= Generator.date e < d /\ Generator.date e <= Generator.END_DATE
    /\ Generator.detect_event X (Generator.date e) city = Ok (Some (Generator.kind e));
  inv_last : st.2 = Generator.date <$> last st.1;
  inv_complete : forall d' k, d0 <= d' < d -> d' <= Generator.END_DATE ->
    Generator.detect_event X d' city = Ok (Some k) ->
    (exists e, e ∈ st.1 /\ Generator.date e = d' /\ Generator.kind e = k)
    \/ (exists e, e ∈ st.1 /\ Generator.date e = d' - 1)
}.

(** ** A small ephemeris to run the scripts on

    The sun stays at longitude 0 and the moon is at [moon n] whole degrees
    on the day of ordinal [n]; the sun rises at 06:00 UTC, when [rises n]
    holds, and every time zone is UTC. *)

Module Toy.

Definition day_of (jd : float) : Z :=
  match PyFloat.to_int jd with Ok n => n | Raise _ => 0 end.

Definition externals (moon : Z -> Z) (rises : Z -> bool) : Externals := {|
  swe_julday := fun y m d h => Ok (PyFloat.of_int (Calendar._ymd2ord y m d));
  swe_calc_ut := fun jd b =>
    match b with
    | SUN => Ok (PyFloat.of_int 0)
    | MOON => Ok (PyFloat.of_int (moon (day_of jd)))
    end;
  swe_rise_trans := fun jd _ _ _ _ _ =>
    if rises (day_of jd) then Ok jd else Raise (LibraryError "no sunrise");
  swe_revjul := fun jd _ =>
    let '(y, m, d) := Calendar._ord2ymd (day_of jd) in Ok (y, m, d, PyFloat.of_int 6);
  pytz_timezone := fun name => Ok (Zone name);
  localize := fun tzi dt => Ok dt;
  astimezone := fun dt tzi => Ok dt
|}.

Definition always (n : Z) : bool := true.

(** The moon gains 13 degrees on the sun every day. *)
Definition steady : Externals := externals (fun n => (13 * n) mod 360) always.

(** As [steady], with the sun rising at 6.26 hours UTC. *)
Definition late : Externals := {|
  swe_julday := swe_julday steady;
  swe_calc_ut := swe_calc_ut steady;
  swe_rise_trans := swe_rise_trans steady;
  swe_revjul := fun jd _ =>
    let '(y, m, d) := Calendar._ord2ymd (day_of jd) in
    Ok (y, m, d, PyFloat.of_decimal 626 2);
  pytz_timezone := pytz_timezone steady;
  localize := localize steady;
  astimezone := astimezone steady
|}.

(** Minutes east of UTC of the zones: India at +05:30, Moscow at +03:00,
    no daylight saving. *)
Definition utc_offset (tzi : option tzinfo) : Z :=
  match tzi with
  | Some (Zone name) =>
      if String.eqb name "Asia/Kolkata" then 330
      else if String.eqb name "Europe/Moscow" then 180 else 0
  | _ => 0
  end.

(** The same instant on the clock of the zone [tzi]. *)
Definition shift_zone (dt : datetime) (tzi : tzinfo) : datetime :=
  let minutes :=
    (Calendar._ymd2ord (dt_year dt) (dt_month dt) (dt_day dt) * 24 + dt_hour dt) * 60
    + dt_minute dt - utc_offset (dt_tzinfo dt) + utc_offset (Some tzi) in
  let '(y, m, d) := Calendar._ord2ymd (minutes / 1440) in
  {| dt_year := y; dt_month := m; dt_day := d;
     dt_hour := minutes mod 1440 / 60; dt_minute := minutes mod 60;
     dt_second := dt_second dt; dt_tzinfo := Some tzi |}.

(** An ephemeris with time zones: a Julian day is the ordinal of the UTC
    day plus the hour over 24; the sun rises at 0.76 hours UTC every day,
    and the solver gives the first rise not before the time it is asked
    from; the moon is as in [steady]. *)
Definition zoned : Externals := {|
  swe_julday := fun y m d h =>
    Ok (PyFloat.add (PyFloat.of_int (Calendar._ymd2ord y m d))
                    (PyFloat.div h (PyFloat.of_int 24)));
  swe_calc_ut := swe_calc_ut steady;
  swe_rise_trans := fun jd _ _ _ _ _ =>
    let n := day_of jd in
    if SpecFloat.SFleb (PyFloat.sub jd (PyFloat.of_int n))
                       (PyFloat.div (PyFloat.of_decimal 76 2) (PyFloat.of_int 24))
    then Ok (PyFloat.of_int n) else Ok (PyFloat.of_int (n + 1));
  swe_revjul := fun jd _ =>
    let '(y, m, d) := Calendar._ord2ymd (day_of jd) in
    Ok (y, m, d, PyFloat.of_decimal 76 2);
  pytz_timezone := fun name => Ok (Zone name);
  localize := fun tzi dt =>
    Ok {| dt_year := dt_year dt; dt_month := dt_month dt; dt_day := dt_day dt;
          dt_hour := dt_hour dt; dt_minute := dt_minute dt; dt_second := dt_second dt;
          dt_tzinfo := Some tzi |};
  astimezone := fun dt tzi => Ok (shift_zone dt tzi)
|}.

(** As [steady], with [swe.revjul] giving the hour [h]. *)
Definition at_hour (h : float) : Externals := {|
  swe_julday := swe_julday steady;
  swe_calc_ut := swe_calc_ut steady;
  swe_rise_trans := swe_rise_trans steady;
  swe_revjul := fun jd _ =>
    let '(y, m, d) := Calendar._ord2ymd (day_of jd) in Ok (y, m, d, h);
  pytz_timezone := pytz_timezone steady;
  localize := localize steady;
  astimezone := astimezone steady
|}.

(** The moon is 156 degrees ahead on 2026-01-01 and level with the sun on
    every other day: tithi 14 at one sunrise, tithi 1 at the next. *)
Definition jump : Externals :=
  externals (fun n => if n =? Generator.START_DATE then 156 else 0) always.

(** Full moon at the sunrises of 2100-12-22 and of the day after, and again
    on 2100-12-27; the moon is level with the sun on every other day. *)
Definition twin : Externals :=
  externals (fun n => if (n =? Generator.END_DATE - 10) || (n =? Generator.END_DATE - 9)
                         || (n =? Generator.END_DATE - 5) then 170 else 0) always.

(** No sunrise on 2100-12-27 (a polar night); the moon gains 13 degrees a day. *)
Definition polar : Externals :=
  externals (fun n => (13 * n) mod 360) (fun n => negb (n =? Generator.END_DATE - 5)).

(** Events to fill a comparison table with: the master city has three; in
    Moscow the second one is a kshaya on the master's date and the third is
    a day late; every other city has only the first one, on the master's
    date. *)
Definition sample_events : list (string * list Generator.MoonEvent) :=
  let ev i d k := {| Generator.index := i; Generator.date := d; Generator.kind := k |} in
  (fun nc : string * City =>
     (nc.1,
      if String.eqb nc.1 "Mysuru" then
        [ev 0%nat 739633 Generator.KIND_AMAVASYA; ev 1%nat 739647 Generator.KIND_PURNIMA;
         ev 2%nat 739661 Generator.KIND_AMAVASYA]
      else if String.eqb nc.1 "Moscow" then
        [ev 0%nat 739633 Generator.KIND_AMAVASYA;
         ev 1%nat 739647 Generator.KIND_KSHAYA_PURNIMA;
         ev 2%nat 739662 Generator.KIND_AMAVASYA]
      else [ev 0%nat 739633 Generator.KIND_AMAVASYA])) <$> CITIES.

Definition sample_table : list (list string) :=
  Eval vm_compute in
    match Generator.csv_table sample_events with Ok t => t | Raise _ => [] end.

(** The moon days of 2026 under [steady], the same for every city, and the
    table of the one-year script for them: no cell differs from the
    master's. *)
Definition steady_days : list Calendar.date :=
  [739633; 739647; 739661; 739675; 739689; 739703; 739716; 739730;
   739744; 739758; 739772; 739786; 739813; 739827; 739841; 739855;
   739869; 739883; 739896; 739910; 739924; 739938; 739952; 739966].

Definition year_table : list (list string) :=
  (fst <$> CITIES) :: ((fun d => isoformat d :: replicate 9 ""%string) <$> steady_days).

(** As [steady], but the rise the solver finds is dated five days later
    for a city north of 59 degrees and one day later for a city west of 50
    degrees east: such a city sees at its sunrise the moon of that later
    day. *)
Definition staggered : Externals := {|
  swe_julday := swe_julday steady;
  swe_calc_ut := swe_calc_ut steady;
  swe_rise_trans := fun jd _ _ geopos _ _ =>
    let '(lon, lat, _) := geopos in
    if SpecFloat.SFltb (PyFloat.of_int 59) lat then Ok (PyFloat.of_int (day_of jd + 5))
    else if SpecFloat.SFltb lon (PyFloat.of_int 50) then Ok (PyFloat.of_int (day_of jd + 1))
    else Ok jd;
  swe_revjul := swe_revjul steady;
  pytz_timezone := pytz_timezone steady;
  localize := localize steady;
  astimezone := astimezone steady
|}.

(** The table of the one-year script under [staggered]: Moscow, Krasnaya
    Polyana, Minsk and Kyiv have their moon day the day before the
    master's, Saint-Petersburg has none within two days, and the other
    cities have the master's days. *)
Definition staggered_table : list (list string) :=
  (fst <$> CITIES)
  :: ((fun d => [ isoformat d; isoformat (d - 1); "NaN"; ""; isoformat (d - 1); "";
                  isoformat (d - 1); isoformat (d - 1); ""; "" ]%string) <$> steady_days).

(** Two sets of events with the same table.  The master city has three
    events.  Moscow has the first alone in [paired_events false] and, in
    [paired_events true], also an Amavasya of index 1 on the day of the
    master's Purnima; Kyiv has a kshaya of index 2, on the master's day in
    the one and nine days later in the other; every other city has the
    first event alone. *)
Definition paired_events (b : bool) : list (string * list Generator.MoonEvent) :=
  let ev i d k := {| Generator.index := i; Generator.date := d; Generator.kind := k |} in
  (fun nc : string * City =>
     (nc.1,
      if String.eqb nc.1 "Mysuru" then
        [ev 0%nat 739633 Generator.KIND_AMAVASYA; ev 1%nat 739647 Generator.KIND_PURNIMA;
         ev 2%nat 739661 Generator.KIND_AMAVASYA]
      else if String.eqb nc.1 "Moscow" then
        if b then [ev 0%nat 739633 Generator.KIND_AMAVASYA;
                   ev 1%nat 739647 Generator.KIND_AMAVASYA]
        else [ev 0%nat 739633 Generator.KIND_AMAVASYA]
      else if String.eqb nc.1 "Kyiv" then
        [ev 0%nat 739633 Generator.KIND_AMAVASYA; ev 1%nat 739647 Generator.KIND_PURNIMA;
         ev 2%nat (if b then 739670 else 739661) Generator.KIND_KSHAYA_AMAVASYA]
      else [ev 0%nat 739633 Generator.KIND_AMAVASYA])) <$> CITIES.

Definition paired_table : list (list string) :=
  Eval vm_compute in
    match Generator.csv_table (paired_events false) with Ok t => t | Raise _ => [] end.

Definition mysuru : City :=
  {| lat := PyFloat.of_decimal 122958 4; lon := PyFloat.of_decimal 766394 4;
     tz := "Asia/Kolkata" |}.

End Toy.
(** * Properties *)

(** ** The error monad *)

Lemma bind_Ok {A B} (f : A -> result B) (a : A) : (Ok a ≫= f) = f a.
Proof. reflexivity. Qed.

Lemma bind_Raise {A B} (f : A -> result B) (e : exn) : (Raise e ≫= f) = Raise e.
Proof. reflexivity. Qed.

Lemma bind_Ok_inv {A B} (m : result A) (f : A -> result B) (b : B) :
  m ≫= f = Ok b -> exists a, m = Ok a /\ f a = Ok b.
Proof. destruct m as [a|e]; simpl; [eauto | discriminate]. Qed.

Lemma bind_Raise_inv {A B} (m : result A) (f : A -> result B) (e : exn) :
  m ≫= f = Raise e -> m = Raise e \/ exists a, m = Ok a /\ f a = Raise e.
Proof. destruct m as [a|e']; simpl; [eauto | intros [= ->]; auto]. Qed.


Ltac bind_inv H :=
  repeat match type of H with
  | (_ ≫= _) = Ok _ =>
      let a := fresh "a" in let Ha := fresh "Ha" in
      apply bind_Ok_inv in H as (a & Ha & H)
  end.

(** ** Tithi arithmetic *)

Lemma all_from_spec (f : Z -> bool) (n : nat) (start z : Z) :
  all_from f n start = true -> start <= z < start + Z.of_nat n -> f z = true.
Proof.
  revert start. induction n as [|n IH]; intros start Hall Hz; [lia|].
  simpl in Hall. apply andb_prop in Hall as [Hhd Htl].
  destruct (Z.eq_dec z start) as [->|Hne]; [exact Hhd|].
  apply (IH (start + 1)); [exact Htl | lia].
Qed.

(** On whole degrees the float arithmetic is exact: the tithi is the
    number of the 12-degree band of the elongation. *)
Lemma tithi_of_whole_degrees (a : Z) :
  0 <= a < 360 ->
  tithi_of_longitudes (PyFloat.of_int a) (PyFloat.of_int 0) = Ok (a / 12 + 1).
Proof.
  intros Ha.
  set (ok := fun a => match tithi_of_longitudes (PyFloat.of_int a) (PyFloat.of_int 0) with
                      | Ok t => t =? a / 12 + 1
                      | Raise _ => false
                      end).
  assert (Hall : all_from ok 360 0 = true) by (vm_compute; reflexivity).
  pose proof (all_from_spec ok 360 0 a Hall ltac:(lia)) as H.
  unfold ok in H.
  destruct (tithi_of_longitudes _ _) as [t|e]; [|discriminate].
  apply Z.eqb_eq in H. now subst.
Qed.

(** C2. The tithi is computed as [int(((moon - sun) % 360.0) // 12.0) + 1],
    but it does not always lie in 1..30: when the moon is one unit in the
    last place behind the sun, [(moon - sun) % 360.0] rounds up to [360.0]
    and the tithi is 31.  Both longitudes below are binary64 numbers of
    [0, 360): [moon = 100.0] and [sun = 100.00000000000001]. *)
Theorem tithi_at_jd_reaches_31 :
  let moon := PyFloat.of_int 100 in
  let sun := PyFloat.of_bits 0x4059000000000001 in
  sun = SpecFloat.S754_finite false (100 * 2 ^ 46 + 1) (-46)
  /\ PyFloat.rem (PyFloat.sub moon sun) (PyFloat.of_int 360) = Ok (PyFloat.of_int 360)
  /\ tithi_of_longitudes moon sun = Ok 31
  /\ forall X jd,
       tithi_at_jd
         {| swe_julday := swe_julday X;
            swe_calc_ut := fun _ b => Ok match b with SUN => sun | MOON => moon end;
            swe_rise_trans := swe_rise_trans X; swe_revjul := swe_revjul X;
            pytz_timezone := pytz_timezone X; localize := localize X;
            astimezone := astimezone X |} jd = Ok 31.
Proof.
  cbv zeta. repeat split; intros; vm_compute; reflexivity.
Qed.

(** ** The decision of [detect_event] *)

Lemma elem_of_skipped (t0 diff x : Z) :
  x ∈ Generator.skipped t0 diff <->
  exists i, 1 <= i < diff /\ x = (t0 + i - 1) mod 30 + 1.
Proof.
  unfold Generator.skipped. rewrite list_elem_of_fmap. split.
  - intros (i & -> & Hi). apply elem_of_seqZ in Hi. exists i. split; [lia|reflexivity].
  - intros (i & Hi & ->). exists i. split; [reflexivity|]. apply elem_of_seqZ. lia.
Qed.

Lemma skipped_between_spec (t0 t1 x : Z) :
  x ∈ Generator.skipped t0 ((t1 - t0) mod 30) <-> skipped_between t0 t1 x.
Proof.
  rewrite elem_of_skipped. unfold skipped_between.
  pose proof (Z.mod_pos_bound (t1 - t0) 30 ltac:(lia)) as Hd.
  split.
  - intros (i & Hi & ->).
    pose proof (Z.mod_pos_bound (t0 + i - 1) 30 ltac:(lia)) as Hb.
    split; [lia|].
    replace ((t0 + i - 1) mod 30 + 1 - t0) with (i + (-1) * ((t0 + i - 1) / 30) * 30).
    + rewrite Z.mod_add by lia. rewrite Z.mod_small by lia. lia.
    + pose proof (Z.div_mod (t0 + i - 1) 30 ltac:(lia)). lia.
  - intros (Hx & Hlt). exists ((x - t0) mod 30). split; [lia|].
    pose proof (Z.div_mod (x - t0) 30 ltac:(lia)) as Hdm.
    replace (t0 + (x - t0) mod 30 - 1) with (x - 1 + (- ((x - t0) / 30)) * 30) by lia.
    rewrite Z.mod_add by lia. rewrite Z.mod_small by lia. lia.
Qed.

Lemma event_kind_purnima (t1 : Z) :
  Generator.event_kind PURNIMA t1 = Some Generator.KIND_PURNIMA.
Proof. reflexivity. Qed.

Lemma event_kind_amavasya (t1 : Z) :
  Generator.event_kind AMAVASYA t1 = Some Generator.KIND_AMAVASYA.
Proof. reflexivity. Qed.

Lemma event_kind_kshaya_purnima (t0 t1 : Z) :
  t0 <> PURNIMA -> t0 <> AMAVASYA -> skipped_between t0 t1 PURNIMA ->
  Generator.event_kind t0 t1 = Some Generator.KIND_KSHAYA_PURNIMA.
Proof.
  intros H15 H30 Hs. unfold Generator.event_kind.
  destruct (Z.eqb_spec t0 PURNIMA); [contradiction|].
  destruct (Z.eqb_spec t0 AMAVASYA); [contradiction|].
  assert (Hd : 1 < (t1 - t0) mod 30) by (destruct Hs; lia).
  apply Z.ltb_lt in Hd. rewrite Hd.
  rewrite bool_decide_eq_true_2; [reflexivity|].
  now apply skipped_between_spec.
Qed.

Lemma event_kind_kshaya_amavasya (t0 t1 : Z) :
  t0 <> PURNIMA -> t0 <> AMAVASYA ->
  ~ skipped_between t0 t1 PURNIMA -> skipped_between t0 t1 AMAVASYA ->
  Generator.event_kind t0 t1 = Some Generator.KIND_KSHAYA_AMAVASYA.
Proof.
  intros H15 H30 Hn Hs. unfold Generator.event_kind.
  destruct (Z.eqb_spec t0 PURNIMA); [contradiction|].
  destruct (Z.eqb_spec t0 AMAVASYA); [contradiction|].
  assert (Hd : 1 < (t1 - t0) mod 30) by (destruct Hs; lia).
  apply Z.ltb_lt in Hd. rewrite Hd.
  rewrite bool_decide_eq_false_2 by (now rewrite skipped_between_spec).
  rewrite bool_decide_eq_true_2; [reflexivity|].
  now apply skipped_between_spec.
Qed.

Lemma event_kind_none (t0 t1 : Z) :
  t0 <> PURNIMA -> t0 <> AMAVASYA ->
  ~ skipped_between t0 t1 PURNIMA -> ~ skipped_between t0 t1 AMAVASYA ->
  Generator.event_kind t0 t1 = None.
Proof.
  intros H15 H30 Hn Hm. unfold Generator.event_kind.
  destruct (Z.eqb_spec t0 PURNIMA); [contradiction|].
  destruct (Z.eqb_spec t0 AMAVASYA); [contradiction|].
  destruct (1 <? (t1 - t0) mod 30); [|reflexivity].
  rewrite !bool_decide_eq_false_2 by (now rewrite skipped_between_spec).
  reflexivity.
Qed.

Lemma event_kind_closed (t0 t1 k : Z) :
  Generator.event_kind t0 t1 = Some k ->
  k = Generator.KIND_PURNIMA \/ k = Generator.KIND_AMAVASYA
  \/ k = Generator.KIND_KSHAYA_PURNIMA \/ k = Generator.KIND_KSHAYA_AMAVASYA.
Proof.
  unfold Generator.event_kind.
  repeat case_match; intros [= <-]; auto.
Qed.

(** [detect_event] is [event_kind] on the tithis at the two sunrises. *)
Lemma detect_event_kind (X : Externals) (d d1 : Calendar.date) (city : City) (t0 t1 : Z) :
  sunrise_tithi X d city = Ok t0 ->
  Calendar.add_days d 1 = Ok d1 ->
  sunrise_tithi X d1 city = Ok t1 ->
  Generator.detect_event X d city = Ok (Generator.event_kind t0 t1).
Proof.
  unfold sunrise_tithi. intros H0 Hd H1.
  bind_inv H0. bind_inv H1.
  unfold Generator.detect_event.
  rewrite Ha, bind_Ok, Hd, bind_Ok, Ha2, bind_Ok, Ha0, bind_Ok, Ha1, bind_Ok.
  rewrite Ha3, bind_Ok, Ha4, bind_Ok, H0, bind_Ok, H1, bind_Ok.
  reflexivity.
Qed.

Ltac compute_elem := apply (bool_decide_unpack _); vm_compute; exact I.

(** C1, as the code has it.  Given the tithis [t0] and [t1] at the local
    sunrises of a day and of the next day, [detect_event] returns Purnima
    when [t0] is 15 and Amavasya when [t0] is 30; otherwise Kshaya-Purnima
    when 15 is among the tithis skipped between the two sunrises,
    Kshaya-Amavasya when 30 is among them and 15 is not, and no event when
    neither is.  The kind returned is always one of the four. *)
Theorem detect_event_rule (X : Externals) (d d1 : Calendar.date) (city : City) (t0 t1 : Z) :
  sunrise_tithi X d city = Ok t0 ->
  Calendar.add_days d 1 = Ok d1 ->
  sunrise_tithi X d1 city = Ok t1 ->
  exists r, Generator.detect_event X d city = Ok r
    /\ (t0 = PURNIMA -> r = Some Generator.KIND_PURNIMA)
    /\ (t0 = AMAVASYA -> r = Some Generator.KIND_AMAVASYA)
    /\ (t0 <> PURNIMA -> t0 <> AMAVASYA -> skipped_between t0 t1 PURNIMA ->
        r = Some Generator.KIND_KSHAYA_PURNIMA)
    /\ (t0 <> PURNIMA -> t0 <> AMAVASYA -> ~ skipped_between t0 t1 PURNIMA ->
        skipped_between t0 t1 AMAVASYA -> r = Some Generator.KIND_KSHAYA_AMAVASYA)
    /\ (t0 <> PURNIMA -> t0 <> AMAVASYA -> ~ skipped_between t0 t1 PURNIMA ->
        ~ skipped_between t0 t1 AMAVASYA -> r = None)
    /\ (forall k, r = Some k -> k ∈ [Generator.KIND_PURNIMA; Generator.KIND_AMAVASYA;
                                     Generator.KIND_KSHAYA_PURNIMA;
                                     Generator.KIND_KSHAYA_AMAVASYA]).
Proof.
  intros H0 Hd H1. exists (Generator.event_kind t0 t1).
  split; [now apply detect_event_kind with d1|].
  repeat split.
  - intros ->. apply event_kind_purnima.
  - intros ->. apply event_kind_amavasya.
  - apply event_kind_kshaya_purnima.
  - apply event_kind_kshaya_amavasya.
  - apply event_kind_none.
  - intros k Hk. apply event_kind_closed in Hk.
    rewrite !elem_of_cons. tauto.
Qed.

Lemma detect_event_rule_witness :
  exists r, Generator.detect_event Toy.steady 739619 Toy.mysuru = Ok r
    /\ (14 = PURNIMA -> r = Some Generator.KIND_PURNIMA)
    /\ (14 = AMAVASYA -> r = Some Generator.KIND_AMAVASYA)
    /\ (14 <> PURNIMA -> 14 <> AMAVASYA -> skipped_between 14 16 PURNIMA ->
        r = Some Generator.KIND_KSHAYA_PURNIMA)
    /\ (14 <> PURNIMA -> 14 <> AMAVASYA -> ~ skipped_between 14 16 PURNIMA ->
        skipped_between 14 16 AMAVASYA -> r = Some Generator.KIND_KSHAYA_AMAVASYA)
    /\ (14 <> PURNIMA -> 14 <> AMAVASYA -> ~ skipped_between 14 16 PURNIMA ->
        ~ skipped_between 14 16 AMAVASYA -> r = None)
    /\ (forall k, r = Some k -> k ∈ [Generator.KIND_PURNIMA; Generator.KIND_AMAVASYA;
                                     Generator.KIND_KSHAYA_PURNIMA;
                                     Generator.KIND_KSHAYA_AMAVASYA]).
Proof.
  apply (detect_event_rule Toy.steady 739619 739620 Toy.mysuru 14 16);
    vm_compute; reflexivity.
Defined.

(** C1 as stated fails: on a day whose sunrise tithi is 14 and whose next
    sunrise tithi is 1, the tithi advanced by 17 steps and 30 is among the
    skipped tithis, yet the detector returns Kshaya-Purnima, not
    Kshaya-Amavasya. *)
Lemma detect_event_rule_counterexample :
  sunrise_tithi Toy.jump Generator.START_DATE Toy.mysuru = Ok 14
  /\ sunrise_tithi Toy.jump (Generator.START_DATE + 1) Toy.mysuru = Ok 1
  /\ 14 <> PURNIMA /\ 14 <> AMAVASYA /\ 1 < (1 - 14) mod 30
  /\ AMAVASYA ∈ Generator.skipped 14 ((1 - 14) mod 30)
  /\ Generator.detect_event Toy.jump Generator.START_DATE Toy.mysuru
     <> Ok (Some Generator.KIND_KSHAYA_AMAVASYA).
Proof.
  repeat split; try (vm_compute; reflexivity); try (vm_compute; discriminate).
  compute_elem.
Qed.

(** C8.  A sunrise tithi of 15 gives Purnima whatever the next sunrise
    brings; and when both 15 and 30 are skipped between two sunrises, the
    detector returns Kshaya-Purnima, so the skipped Amavasya is not
    reported. *)
Theorem purnima_takes_priority (X : Externals) (d d1 : Calendar.date) (city : City)
    (t0 t1 : Z) :
  sunrise_tithi X d city = Ok t0 ->
  Calendar.add_days d 1 = Ok d1 ->
  sunrise_tithi X d1 city = Ok t1 ->
  (t0 = PURNIMA -> Generator.detect_event X d city = Ok (Some Generator.KIND_PURNIMA))
  /\ (t0 <> PURNIMA -> t0 <> AMAVASYA ->
      skipped_between t0 t1 PURNIMA -> skipped_between t0 t1 AMAVASYA ->
      Generator.detect_event X d city = Ok (Some Generator.KIND_KSHAYA_PURNIMA)
      /\ Generator.detect_event X d city <> Ok (Some Generator.KIND_KSHAYA_AMAVASYA)).
Proof.
  intros H0 Hd H1.
  rewrite (detect_event_kind X d d1 city t0 t1 H0 Hd H1).
  split.
  - intros ->. now rewrite event_kind_purnima.
  - intros H15 H30 Hp _.
    rewrite (event_kind_kshaya_purnima t0 t1 H15 H30 Hp).
    split; [reflexivity | discriminate].
Qed.

Lemma purnima_takes_priority_witness :
  Generator.detect_event Toy.jump Generator.START_DATE Toy.mysuru
  = Ok (Some Generator.KIND_KSHAYA_PURNIMA).
Proof.
  refine (proj1 (proj2 (purnima_takes_priority Toy.jump Generator.START_DATE
                          (Generator.START_DATE + 1) Toy.mysuru 14 1 _ _ _) _ _ _ _));
    try (vm_compute; reflexivity); try (vm_compute; discriminate);
    (split; [vm_compute; split; discriminate | vm_compute; split; reflexivity]).
Defined.

(** ** The scan of [generate_moon_days] *)

Lemma add_days_Ok (d n d' : Z) : Calendar.add_days d n = Ok d' -> d' = d + n.
Proof. unfold Calendar.add_days. case_match; congruence. Qed.

Lemma add_days_valid (d n : Z) :
  0 < d + n <= Calendar._MAXORDINAL -> Calendar.add_days d n = Ok (d + n).
Proof.
  intros H. unfold Calendar.add_days.
  destruct (Z.ltb_spec 0 (d + n)); [|lia].
  destruct (Z.leb_spec (d + n) Calendar._MAXORDINAL); [reflexivity|lia].
Qed.

Lemma START_DATE_ord : Generator.START_DATE = 739617.
Proof. reflexivity. Qed.

Lemma END_DATE_ord : Generator.END_DATE = 767010.
Proof. reflexivity. Qed.

Section ScanFacts.

Context (X : Externals) (city : City).

Lemma scan_inv_init (d0 : Calendar.date) : scan_inv X city d0 d0 ([], None).
Proof.
  split; simpl.
  - intros i e H. now rewrite lookup_nil in H.
  - intros i j a b _ H. now rewrite lookup_nil in H.
  - intros e H. now apply elem_of_nil in H.
  - reflexivity.
  - intros d' k H. lia.
Qed.

Lemma scan_inv_last_date (d0 d : Calendar.date) st l i a :
  scan_inv X city d0 d st -> st.2 = Some l -> st.1 !! i = Some a ->
  Generator.date a <= l /\ exists e, e ∈ st.1 /\ Generator.date e = l.
Proof.
  intros Hinv Hl Ha. destruct st as [events last_date]. simpl in *.
  pose proof (inv_last _ _ _ _ _ Hinv) as Hlast. simpl in Hlast.
  rewrite Hl in Hlast.
  destruct (last events) as [e|] eqn:He; [|discriminate].
  injection Hlast as ->.
  rewrite last_lookup in He.
  split; [|exists e; split; [now apply list_elem_of_lookup_2 in He|reflexivity]].
  pose proof (lookup_lt_Some _ _ _ Ha) as Hi.
  destruct (decide (i = Nat.pred (length events))) as [->|Hne].
  - rewrite Ha in He. injection He as ->. lia.
  - pose proof (inv_gap _ _ _ _ _ Hinv i (Nat.pred (length events)) a e
                  ltac:(lia) Ha He) as Hg.
    unfold Calendar.days_between in Hg. lia.
Qed.

Lemma scan_day_inv (d0 d : Calendar.date) st st' :
  scan_inv X city d0 d st -> d0 <= d -> d <= Generator.END_DATE ->
  Generator.scan_day X city d st = Ok st' ->
  scan_inv X city d0 (d + 1) st'.
Proof.
  intros Hinv Hd0 Hend Hday. unfold Generator.scan_day in Hday.
  apply bind_Ok_inv in Hday as (k & Hk & Hst). injection Hst as <-.
  destruct Hinv as [Hidx Hgap Hrng Hlast Hcomp].
  assert (Hkeep : scan_inv X city d0 d st ->
                  (forall k', k = Some k' -> exists e, e ∈ st.1 /\ Generator.date e = d - 1) ->
                  scan_inv X city d0 (d + 1) st).
  { intros _ Hprev. split; auto.
    - intros e He. destruct (Hrng e He) as (? & ? & ?). repeat split; auto; lia.
    - intros d' k' Hd' Hle Hdet.
      destruct (decide (d' = d)) as [->|Hne].
      + right. apply (Hprev k'). congruence.
      + apply Hcomp; auto. lia. }
  destruct k as [k|]; [|apply Hkeep; [now split|intros ? [=]]].
  destruct st as [events last_date]. simpl in *.
  destruct last_date as [l|].
  - destruct (Z.leb_spec 2 (Calendar.days_between d l)) as [Hge|Hlt].
    + (* appended, two days or more after the last event *)
      split; simpl.
      * intros i e He. apply lookup_snoc_Some in He as [[Hi He]|[-> <-]]; auto.
      * intros i j a b Hij Ha Hb.
        apply lookup_snoc_Some in Hb as [[Hj Hb]|[-> <-]].
        -- apply lookup_snoc_Some in Ha as [[Hi Ha]|[-> _]]; [eauto|lia].
        -- apply lookup_snoc_Some in Ha as [[Hi Ha]|[-> _]]; [|lia]. simpl.
           destruct (scan_inv_last_date d0 d (events, Some l) l i a) as [Hal _]; auto.
           { now split. }
           unfold Calendar.days_between in *. lia.
      * intros e He. apply elem_of_app in He as [He|He].
        -- destruct (Hrng e He) as (? & ? & ?). repeat split; auto; lia.
        -- apply list_elem_of_singleton in He as ->. simpl. repeat split; auto; lia.
      * now rewrite last_snoc.
      * intros d' k' Hd' Hle Hdet.
        destruct (decide (d' = d)) as [->|Hne].
        -- left. eexists. split; [apply elem_of_app; right; apply list_elem_of_singleton; reflexivity|].
           simpl. split; congruence.
        -- destruct (Hcomp d' k' ltac:(lia) Hle Hdet) as [(e & He & ?)|(e & He & ?)];
             [left|right]; exists e; (split; [apply elem_of_app; now left|auto]).
    + (* suppressed: the last event is one day old *)
      apply Hkeep; [now split|]. intros k' _.
      destruct events as [|e0 events'] eqn:Hev; [discriminate|].
      destruct (scan_inv_last_date d0 d (events, Some l) l 0%nat e0) as [_ (e & He & Hel)];
        subst events; auto.
      { now split. }
      exists e. split; [exact He|].
      destruct (Hrng e He) as (Hr & _). unfold Calendar.days_between in Hlt. lia.
  - (* first event *)
    assert (events = []) as ->.
    { destruct (last events) eqn:E; [discriminate|]. now apply last_None in E. }
    split; simpl.
    + intros [|i] e He; simpl in He; [now injection He as <-|now rewrite lookup_nil in He].
    + intros i [|j] a b Hij Ha Hb; [lia|]. simpl in Hb. now rewrite lookup_nil in Hb.
    + intros e He. apply list_elem_of_singleton in He as ->. simpl. repeat split; auto; lia.
    + reflexivity.
    + intros d' k' Hd' Hle Hdet.
      destruct (decide (d' = d)) as [->|Hne].
      * left. eexists. split; [apply list_elem_of_singleton; reflexivity|].
        simpl. split; congruence.
      * destruct (Hcomp d' k' ltac:(lia) Hle Hdet) as [(e & He & ?)|(e & He & ?)];
          now apply elem_of_nil in He.
Qed.

Lemma scan_loop_inv (d0 : Calendar.date) (fuel : nat) :
  forall d st events,
  scan_inv X city d0 d st -> d0 <= d ->
  Generator.scan_loop X fuel city d st = Some (Ok events) ->
  exists d' last_date,
    Generator.END_DATE < d' /\ scan_inv X city d0 d' (events, last_date).
Proof.
  induction fuel as [|fuel IH]; intros d st events Hinv Hd Hrun; [discriminate|].
  simpl in Hrun. destruct (Z.leb_spec d Generator.END_DATE) as [Hle|Hgt].
  - destruct (Generator.scan_day X city d st) as [st'|e] eqn:Hday; [|discriminate].
    destruct (Calendar.add_days d 1) as [d'|e] eqn:Hadd; [|discriminate].
    apply add_days_Ok in Hadd as ->.
    apply (IH (d + 1) st' events); [|lia|exact Hrun].
    now apply scan_day_inv with st.
  - injection Hrun as <-. exists d, st.2. split; [exact Hgt|]. now destruct st.
Qed.

(** The loop stops by its own test, not for lack of fuel. *)
Lemma scan_loop_total (fuel : nat) :
  forall d st, (0 < fuel)%nat -> Generator.END_DATE + 1 - d < Z.of_nat fuel ->
  exists r, Generator.scan_loop X fuel city d st = Some r.
Proof.
  induction fuel as [|fuel IH]; intros d st Hpos Hfuel; [lia|].
  simpl. destruct (Z.leb_spec d Generator.END_DATE) as [Hle|Hgt]; [|eauto].
  destruct (Generator.scan_day X city d st) as [st'|e]; [|eauto].
  destruct (Calendar.add_days d 1) as [d'|e] eqn:Hadd; [|eauto].
  apply add_days_Ok in Hadd as ->. apply IH; lia.
Qed.

Lemma generate_moon_days_total :
  exists r, Generator.generate_moon_days X city = Some r.
Proof.
  unfold Generator.generate_moon_days. apply scan_loop_total; [lia|].
  rewrite START_DATE_ord, END_DATE_ord. lia.
Qed.

(** What the invariant says of the list the scan returns. *)
Lemma scan_inv_final (d0 d' : Calendar.date) events last_date :
  Generator.END_DATE < d' -> scan_inv X city d0 d' (events, last_date) ->
  (forall i e, events !! i = Some e -> Generator.index e = i)
  /\ (forall i a b, events !! i = Some a -> events !! S i = Some b ->
       2 <= Calendar.days_between (Generator.date b) (Generator.date a))
  /\ (forall i j a b, (i < j)%nat -> events !! i = Some a -> events !! j = Some b ->
       Generator.date a < Generator.date b)
  /\ (forall a b, a ∈ events -> b ∈ events -> Generator.date b <> Generator.date a + 1)
  /\ (forall e, e ∈ events ->
       d0 <= Generator.date e <= Generator.END_DATE
       /\ Generator.detect_event X (Generator.date e) city = Ok (Some (Generator.kind e)))
  /\ (forall d k, d0 <= d <= Generator.END_DATE ->
       Generator.detect_event X d city = Ok (Some k) ->
       (exists e, e ∈ events /\ Generator.date e = d /\ Generator.kind e = k)
       \/ (exists e, e ∈ events /\ Generator.date e = d - 1)).
Proof.
  intros Hd' [Hidx Hgap Hrng Hlast Hcomp]. simpl in *.
  repeat split.
  - exact Hidx.
  - intros i a b Ha Hb. apply (Hgap i (S i)); auto.
  - intros i j a b Hij Ha Hb. pose proof (Hgap i j a b Hij Ha Hb) as H.
    unfold Calendar.days_between in H. lia.
  - intros a b Ha Hb Heq.
    apply list_elem_of_lookup in Ha as [i Ha]. apply list_elem_of_lookup in Hb as [j Hb].
    destruct (lt_eq_lt_dec i j) as [[Hlt| ->]|Hlt].
    + pose proof (Hgap i j a b Hlt Ha Hb) as H. unfold Calendar.days_between in H. lia.
    + rewrite Ha in Hb. injection Hb as ->. lia.
    + pose proof (Hgap j i b a Hlt Hb Ha) as H. unfold Calendar.days_between in H. lia.
  - destruct (Hrng e H) as (? & ? & ?). lia.
  - destruct (Hrng e H) as (? & ? & ?). lia.
  - destruct (Hrng e H) as (? & ? & ?). assumption.
  - intros d k Hd Hdet. apply Hcomp; auto; lia.
Qed.

Lemma generate_moon_days_invariant (events : list Generator.MoonEvent) :
  Generator.generate_moon_days X city = Some (Ok events) ->
  (forall i e, events !! i = Some e -> Generator.index e = i)
  /\ (forall i a b, events !! i = Some a -> events !! S i = Some b ->
       2 <= Calendar.days_between (Generator.date b) (Generator.date a))
  /\ (forall i j a b, (i < j)%nat -> events !! i = Some a -> events !! j = Some b ->
       Generator.date a < Generator.date b).
Proof.
  intros Hrun. unfold Generator.generate_moon_days in Hrun.
  destruct (scan_loop_inv Generator.START_DATE _ Generator.START_DATE _ events
              (scan_inv_init _) ltac:(lia) Hrun) as (d' & l & Hd' & Hinv).
  destruct (scan_inv_final _ _ _ _ Hd' Hinv) as (H1 & H2 & H3 & _). auto.
Qed.

End ScanFacts.

(** C3.  The events the scan returns, from whatever day it starts with an
    empty list ([generate_moon_days] is the scan started on [START_DATE],
    last clause): the index
    of an event is its position in the list; two consecutive events are two
    days or more apart; dates increase strictly along the list; no event is
    dated the day after another event; every event is a detection made on
    its date, within the range; and a detection is left out only when an
    event was appended the day before. *)
Theorem scan_events_spaced (X : Externals) (city : City) (fuel : nat)
    (d0 : Calendar.date) (events : list Generator.MoonEvent) :
  Generator.scan_loop X fuel city d0 ([], None) = Some (Ok events) ->
  (forall i e, events !! i = Some e -> Generator.index e = i)
  /\ (forall i a b, events !! i = Some a -> events !! S i = Some b ->
       2 <= Calendar.days_between (Generator.date b) (Generator.date a))
  /\ (forall i j a b, (i < j)%nat -> events !! i = Some a -> events !! j = Some b ->
       Generator.date a < Generator.date b)
  /\ (forall a b, a ∈ events -> b ∈ events -> Generator.date b <> Generator.date a + 1)
  /\ (forall e, e ∈ events ->
       d0 <= Generator.date e <= Generator.END_DATE
       /\ Generator.detect_event X (Generator.date e) city = Ok (Some (Generator.kind e)))
  /\ (forall d k, d0 <= d <= Generator.END_DATE ->
       Generator.detect_event X d city = Ok (Some k) ->
       (exists e, e ∈ events /\ Generator.date e = d /\ Generator.kind e = k)
       \/ (exists e, e ∈ events /\ Generator.date e = d - 1))
  /\ (d0 = Generator.START_DATE ->
      fuel = S (Z.to_nat (Generator.END_DATE + 1 - Generator.START_DATE)) ->
      Generator.generate_moon_days X city = Some (Ok events)).
Proof.
  intros Hrun.
  destruct (scan_loop_inv X city d0 fuel d0 _ events (scan_inv_init X city d0)
              ltac:(lia) Hrun) as (d' & l & Hd' & Hinv).
  destruct (scan_inv_final X city d0 d' events l Hd' Hinv) as (H1 & H2 & H3 & H4 & H5 & H6).
  repeat (split; [assumption|]).
  intros -> ->. exact Hrun.
Qed.

Lemma scan_events_spaced_witness :
  let events := [ {| Generator.index := 0; Generator.date := 767000;
                     Generator.kind := Generator.KIND_PURNIMA |};
                  {| Generator.index := 1; Generator.date := 767005;
                     Generator.kind := Generator.KIND_PURNIMA |} ] in
  Generator.detect_event Toy.twin 767001 Toy.mysuru = Ok (Some Generator.KIND_PURNIMA)
  /\ (forall i e, events !! i = Some e -> Generator.index e = i)
  /\ (forall i a b, events !! i = Some a -> events !! S i = Some b ->
       2 <= Calendar.days_between (Generator.date b) (Generator.date a))
  /\ (forall i j a b, (i < j)%nat -> events !! i = Some a -> events !! j = Some b ->
       Generator.date a < Generator.date b)
  /\ (forall a b, a ∈ events -> b ∈ events -> Generator.date b <> Generator.date a + 1)
  /\ (forall e, e ∈ events ->
       Generator.END_DATE - 40 <= Generator.date e <= Generator.END_DATE
       /\ Generator.detect_event Toy.twin (Generator.date e) Toy.mysuru
          = Ok (Some (Generator.kind e)))
  /\ (forall d k, Generator.END_DATE - 40 <= d <= Generator.END_DATE ->
       Generator.detect_event Toy.twin d Toy.mysuru = Ok (Some k) ->
       (exists e, e ∈ events /\ Generator.date e = d /\ Generator.kind e = k)
       \/ (exists e, e ∈ events /\ Generator.date e = d - 1))
  /\ (Generator.END_DATE - 40 = Generator.START_DATE ->
      50%nat = S (Z.to_nat (Generator.END_DATE + 1 - Generator.START_DATE)) ->
      Generator.generate_moon_days Toy.twin Toy.mysuru = Some (Ok events)).
Proof.
  split; [vm_compute; reflexivity|].
  apply (scan_events_spaced Toy.twin Toy.mysuru 50 (Generator.END_DATE - 40)).
  vm_compute. reflexivity.
Defined.

(** ** Failures of the libraries *)

Section Failures.

Context (X : Externals) (city : City).

Lemma julian_day_raises (dt : datetime) (e : exn) :
  swe_julday X (dt_year dt) (dt_month dt) (dt_day dt)
    (PyFloat.add
       (PyFloat.add (PyFloat.of_int (dt_hour dt)) (PyFloat.int_truediv (dt_minute dt) 60))
       (PyFloat.int_truediv (dt_second dt) 3600)) = Raise e ->
  julian_day X dt = Raise e.
Proof. intros H. exact H. Qed.

Lemma tithi_at_jd_raises (jd : float) (e : exn) :
  tithi_call_fails X jd e -> tithi_at_jd X jd = Raise e.
Proof.
  unfold tithi_at_jd. intros [H|sun Hs Hm].
  - now rewrite H.
  - now rewrite Hs, bind_Ok, Hm.
Qed.

Lemma local_sunrise_raises (d : Calendar.date) (e : exn) :
  sunrise_call_fails X d city e -> local_sunrise X d city = Raise e.
Proof.
  unfold local_sunrise. intros [H|tzi naive Ht Hn H|tzi naive lm Ht Hn Hl Hrest].
  - now rewrite H.
  - now rewrite Ht, bind_Ok, Hn, bind_Ok, H.
  - rewrite Ht, bind_Ok, Hn, bind_Ok, Hl, bind_Ok.
    destruct Hrest as [H|um Hu H|um jd0 Hu Hj H|um jd0 jdr Hu Hj Hr H
                       |um jd0 jdr y m dd h hh mm ss su Hu Hj Hr Hv Hs Hm H].
    + now rewrite H.
    + now rewrite Hu, bind_Ok, H.
    + now rewrite Hu, bind_Ok, Hj, bind_Ok, H.
    + now rewrite Hu, bind_Ok, Hj, bind_Ok, Hr, bind_Ok, H.
    + rewrite Hu, bind_Ok, Hj, bind_Ok, Hr, bind_Ok, Hv, bind_Ok. cbn beta iota.
      rewrite Hs, bind_Ok. cbn beta iota. now rewrite Hm, bind_Ok, H.
Qed.

Lemma detect_event_raises (d : Calendar.date) (e : exn) :
  detect_call_fails X d city e -> Generator.detect_event X d city = Raise e.
Proof.
  unfold Generator.detect_event.
  intros [H|sr0 d1 H0 Hd H|sr0 d1 sr1 H0 Hd H1 Hrest].
  - now rewrite (local_sunrise_raises d e H).
  - now rewrite H0, bind_Ok, Hd, bind_Ok, (local_sunrise_raises d1 e H).
  - rewrite H0, bind_Ok, Hd, bind_Ok, H1, bind_Ok.
    destruct Hrest as [H|u0 Hu0 H|u0 jd0 Hu0 Hj0 H|u0 jd0 u1 Hu0 Hj0 Hu1 H
                       |u0 jd0 u1 jd1 Hu0 Hj0 Hu1 Hj1 H
                       |u0 jd0 u1 jd1 t0 Hu0 Hj0 Hu1 Hj1 Ht0 H].
    + now rewrite H.
    + now rewrite Hu0, bind_Ok, H.
    + now rewrite Hu0, bind_Ok, Hj0, bind_Ok, H.
    + now rewrite Hu0, bind_Ok, Hj0, bind_Ok, Hu1, bind_Ok, H.
    + now rewrite Hu0, bind_Ok, Hj0, bind_Ok, Hu1, bind_Ok, Hj1, bind_Ok,
        (tithi_at_jd_raises jd0 e H).
    + now rewrite Hu0, bind_Ok, Hj0, bind_Ok, Hu1, bind_Ok, Hj1, bind_Ok,
        Ht0, bind_Ok, (tithi_at_jd_raises jd1 e H).
Qed.

Lemma scan_day_raises (d : Calendar.date) st (e : exn) :
  Generator.detect_event X d city = Raise e -> Generator.scan_day X city d st = Raise e.
Proof. unfold Generator.scan_day. now intros ->. Qed.

Lemma scan_day_Ok (d : Calendar.date) st k :
  Generator.detect_event X d city = Ok k -> exists st', Generator.scan_day X city d st = Ok st'.
Proof. unfold Generator.scan_day. intros ->. rewrite bind_Ok. eauto. Qed.

Lemma scan_loop_raises (e : exn) (dfail : Calendar.date) (fuel : nat) :
  forall d0 st,
  0 < d0 <= dfail -> dfail <= Generator.END_DATE ->
  Generator.END_DATE + 1 - d0 < Z.of_nat fuel ->
  (forall d, d0 <= d < dfail -> exists k, Generator.detect_event X d city = Ok k) ->
  Generator.detect_event X dfail city = Raise e ->
  Generator.scan_loop X fuel city d0 st = Some (Raise e).
Proof.
  induction fuel as [|fuel IH]; intros d0 st Hd0 Hend Hfuel Hok Hfail; [lia|].
  simpl. destruct (Z.leb_spec d0 Generator.END_DATE) as [_|Hgt]; [|lia].
  destruct (Z.eq_dec d0 dfail) as [->|Hne].
  - now rewrite (scan_day_raises dfail st e Hfail).
  - destruct (Hok d0 ltac:(lia)) as [k Hk].
    destruct (scan_day_Ok d0 st k Hk) as [st' ->].
    rewrite add_days_valid by (rewrite END_DATE_ord in *; unfold Calendar._MAXORDINAL; lia).
    apply IH; try lia; [|exact Hfail].
    intros d Hd. apply Hok. lia.
Qed.

End Failures.

(** C5.  Nothing between a library call and the caller of the scan catches
    or changes an exception: a call that raises [e] inside [local_sunrise]
    makes [local_sunrise] raise [e]; a call that raises [e] inside
    [detect_event] (in either sunrise, in a Julian-day conversion or in a
    position query) makes [detect_event] raise [e]; the day's pass through
    the loop then raises [e] whatever the events gathered so far, so it
    appends nothing; and the scan raises [e] as soon as it reaches the
    first such day. *)
Theorem failure_propagates (X : Externals) (city : City) (e : exn)
    (fuel : nat) (d0 dfail : Calendar.date) (st : list Generator.MoonEvent * option Calendar.date) :
  0 < d0 <= dfail -> dfail <= Generator.END_DATE ->
  Generator.END_DATE + 1 - d0 < Z.of_nat fuel ->
  (forall d, d0 <= d < dfail -> exists k, Generator.detect_event X d city = Ok k) ->
  detect_call_fails X dfail city e ->
  (forall d, sunrise_call_fails X d city e -> local_sunrise X d city = Raise e)
  /\ Generator.detect_event X dfail city = Raise e
  /\ (forall st', Generator.scan_day X city dfail st' = Raise e)
  /\ Generator.scan_loop X fuel city d0 st = Some (Raise e)
  /\ (d0 = Generator.START_DATE -> Generator.generate_moon_days X city = Some (Raise e)).
Proof.
  intros Hd0 Hend Hfuel Hok Hfail.
  pose proof (detect_event_raises X city dfail e Hfail) as Hdet.
  split; [intros d; apply local_sunrise_raises|].
  split; [exact Hdet|].
  split; [intros st'; now apply scan_day_raises|].
  split; [now apply scan_loop_raises with dfail|].
  intros ->. unfold Generator.generate_moon_days.
  apply scan_loop_raises with dfail; [exact Hd0|exact Hend| |exact Hok|exact Hdet].
  rewrite START_DATE_ord, END_DATE_ord. lia.
Qed.

Lemma failure_propagates_witness :
  let e := LibraryError "no sunrise" in
  let dfail := Generator.END_DATE - 6 in
  (forall d, sunrise_call_fails Toy.polar d Toy.mysuru e ->
             local_sunrise Toy.polar d Toy.mysuru = Raise e)
  /\ Generator.detect_event Toy.polar dfail Toy.mysuru = Raise e
  /\ (forall st', Generator.scan_day Toy.polar Toy.mysuru dfail st' = Raise e)
  /\ Generator.scan_loop Toy.polar 50 Toy.mysuru (Generator.END_DATE - 40) ([], None)
     = Some (Raise e)
  /\ (Generator.END_DATE - 40 = Generator.START_DATE ->
      Generator.generate_moon_days Toy.polar Toy.mysuru = Some (Raise e)).
Proof.
  cbv zeta.
  apply (failure_propagates Toy.polar Toy.mysuru (LibraryError "no sunrise") 50
           (Generator.END_DATE - 40) (Generator.END_DATE - 6) ([], None)).
  - vm_compute. split; [reflexivity | discriminate].
  - vm_compute. discriminate.
  - vm_compute. reflexivity.
  - intros d Hd.
    set (ok := fun d => match Generator.detect_event Toy.polar d Toy.mysuru with
                        | Ok _ => true
                        | Raise _ => false
                        end).
    assert (Hall : all_from ok 34 (Generator.END_DATE - 40) = true)
      by (vm_compute; reflexivity).
    pose proof (all_from_spec ok 34 (Generator.END_DATE - 40) d Hall ltac:(lia)) as H.
    unfold ok in H.
    destruct (Generator.detect_event Toy.polar d Toy.mysuru) as [k|]; [eauto|discriminate].
  - pose (midnight := {| dt_year := 2100; dt_month := 12; dt_day := 27;
                           dt_hour := 0; dt_minute := 0; dt_second := 0;
                           dt_tzinfo := None |}).
    apply (fails_sunrise_tomorrow _ _ _ _
             {| dt_year := 2100; dt_month := 12; dt_day := 26;
                dt_hour := 6; dt_minute := 0; dt_second := 0; dt_tzinfo := Some UTC |}
             (Generator.END_DATE - 5)); [vm_compute; reflexivity | vm_compute; reflexivity |].
    apply (fails_later _ _ _ _ (Zone "Asia/Kolkata") midnight midnight);
      [vm_compute; reflexivity | vm_compute; reflexivity | vm_compute; reflexivity |].
    apply (fails_rise_trans _ _ _ _ _ midnight (PyFloat.of_int (Generator.END_DATE - 5)));
      vm_compute; reflexivity.
Defined.

(** ** The local sunrise *)

Lemma to_int_truncates (x : float) (n : Z) :
  PyFloat.to_int x = Ok n -> truncates x n.
Proof.
  destruct x as [s|s| |s m e]; simpl; try discriminate.
  - now intros [= <-].
  - intros [= <-]. destruct (Z.leb_spec 0 e) as [He|He].
    + rewrite (Z.max_r 0 e), (Z.max_l 0 (- e)) by lia. simpl (2 ^ 0).
      assert (0 < Z.pos m * 2 ^ e) by (apply Z.mul_pos_pos; [lia|now apply Z.pow_pos_nonneg]).
      destruct s; simpl; split; lia.
    + rewrite (Z.max_l 0 e), (Z.max_r 0 (- e)) by lia. simpl (2 ^ 0).
      assert (Hp : 0 < 2 ^ (- e)) by (apply Z.pow_pos_nonneg; lia).
      pose proof (Z.div_pos (Z.pos m) (2 ^ (- e)) ltac:(lia) Hp) as Hq.
      pose proof (Z.mul_div_le (Z.pos m) (2 ^ (- e)) Hp) as Hlo.
      pose proof (Z.mul_succ_div_gt (Z.pos m) (2 ^ (- e)) Hp) as Hhi.
      destruct s; simpl; (split; [lia|]).
      * rewrite Z.abs_opp, Z.abs_eq by lia. nia.
      * rewrite Z.abs_eq by lia. nia.
Qed.

Lemma mkdatetime_Ok (y m d hh mm ss : Z) (tzi : option tzinfo) (dt : datetime) :
  mkdatetime y m d hh mm ss tzi = Ok dt ->
  dt = {| dt_year := y; dt_month := m; dt_day := d;
          dt_hour := hh; dt_minute := mm; dt_second := ss; dt_tzinfo := tzi |}
  /\ 0 <= hh <= 23 /\ 0 <= mm <= 59 /\ 0 <= ss <= 59.
Proof.
  unfold mkdatetime. case_match; [|discriminate].
  case_match eqn:Hv; [|discriminate]. intros [= <-].
  repeat (apply andb_prop in Hv as [Hv ?]). split; [reflexivity|lia].
Qed.

(** C6.  [local_sunrise] on a date and a city: the naive date-time of the
    date at 00:00:00 is localized in the city's zone and converted to UTC;
    [julian_day] hands the year, month and day of that UTC date-time to
    [swe.julday] with the hour [hour + minute / 60 + second / 3600], and
    the Julian day it gives goes to the rise solver, asked for the rise of
    the sun at the city's longitude and latitude; the Julian day the solver
    returns is turned back into a calendar day and an hour, the hour is cut
    into whole hours, minutes and seconds, each by truncation, and the UTC
    date-time so built is returned in the city's zone. *)
Theorem local_sunrise_steps (X : Externals) (d : Calendar.date) (city : City)
    (tzi : tzinfo) (naive local_midnight utc_midnight : datetime) (jd0 jd_rise : float)
    (y m dd : Z) (h : float) (hh mm ss : Z) (sunrise_utc r : datetime) :
  pytz_timezone X (tz city) = Ok tzi ->
  mkdatetime (Calendar.year d) (Calendar.month d) (Calendar.day d) 0 0 0 None = Ok naive ->
  localize X tzi naive = Ok local_midnight ->
  astimezone X local_midnight UTC = Ok utc_midnight ->
  swe_julday X (dt_year utc_midnight) (dt_month utc_midnight) (dt_day utc_midnight)
    (PyFloat.add
       (PyFloat.add (PyFloat.of_int (dt_hour utc_midnight))
                    (PyFloat.int_truediv (dt_minute utc_midnight) 60))
       (PyFloat.int_truediv (dt_second utc_midnight) 3600)) = Ok jd0 ->
  swe_rise_trans X jd0 SUN CALC_RISE (lon city, lat city, 0) 0 0 = Ok jd_rise ->
  swe_revjul X jd_rise GREG_CAL = Ok (y, m, dd, h) ->
  split_hour h = Ok (hh, mm, ss) ->
  mkdatetime y m dd hh mm ss (Some UTC) = Ok sunrise_utc ->
  astimezone X sunrise_utc tzi = Ok r ->
  local_sunrise X d city = Ok r
  /\ julian_day X utc_midnight = Ok jd0
  /\ naive = {| dt_year := Calendar.year d; dt_month := Calendar.month d;
                dt_day := Calendar.day d; dt_hour := 0; dt_minute := 0; dt_second := 0;
                dt_tzinfo := None |}
  /\ sunrise_utc = {| dt_year := y; dt_month := m; dt_day := dd;
                      dt_hour := hh; dt_minute := mm; dt_second := ss;
                      dt_tzinfo := Some UTC |}
  /\ truncates h hh
  /\ truncates (PyFloat.mul (PyFloat.sub h (PyFloat.of_int hh)) (PyFloat.of_int 60)) mm
  /\ truncates
       (PyFloat.mul
          (PyFloat.sub (PyFloat.mul (PyFloat.sub h (PyFloat.of_int hh)) (PyFloat.of_int 60))
                       (PyFloat.of_int mm))
          (PyFloat.of_int 60)) ss.
Proof.
  intros Ht Hn Hl Hu Hj Hr Hv Hs Hm Ha.
  assert (Hjd : julian_day X utc_midnight = Ok jd0) by exact Hj.
  split.
  { unfold local_sunrise.
    rewrite Ht, bind_Ok, Hn, bind_Ok, Hl, bind_Ok, Hu, bind_Ok, Hjd, bind_Ok, Hr, bind_Ok.
    rewrite Hv, bind_Ok. cbn beta iota. rewrite Hs, bind_Ok. cbn beta iota.
    now rewrite Hm, bind_Ok. }
  split; [exact Hjd|].
  split; [now apply mkdatetime_Ok in Hn|].
  split; [now apply mkdatetime_Ok in Hm|].
  unfold split_hour in Hs.
  apply bind_Ok_inv in Hs as (hh' & Hhh & Hs).
  apply bind_Ok_inv in Hs as (mm' & Hmm & Hs).
  apply bind_Ok_inv in Hs as (ss' & Hss & Hs).
  injection Hs as -> -> ->.
  repeat split; now apply to_int_truncates.
Qed.

(** In Mysuru, at +05:30, on 2026-01-01: local midnight is 18:30 UTC of
    the day before, Julian day 739616 + 18.5 / 24 of [Toy.zoned]; the next
    rise is at 0.76 hours UTC on 2026-01-01, that is 00:45:36 UTC and
    06:15:36 on the clock of Mysuru. *)
Lemma local_sunrise_steps_witness :
  let utc_midnight := {| dt_year := 2025; dt_month := 12; dt_day := 31;
                         dt_hour := 18; dt_minute := 30; dt_second := 0;
                         dt_tzinfo := Some UTC |} in
  let jd0 := PyFloat.add (PyFloat.of_int 739616)
                         (PyFloat.div (PyFloat.of_decimal 185 1) (PyFloat.of_int 24)) in
  let su := {| dt_year := 2026; dt_month := 1; dt_day := 1;
               dt_hour := 0; dt_minute := 45; dt_second := 36; dt_tzinfo := Some UTC |} in
  let h := PyFloat.of_decimal 76 2 in
  local_sunrise Toy.zoned Generator.START_DATE Toy.mysuru
  = Ok {| dt_year := 2026; dt_month := 1; dt_day := 1;
          dt_hour := 6; dt_minute := 15; dt_second := 36;
          dt_tzinfo := Some (Zone "Asia/Kolkata") |}
  /\ julian_day Toy.zoned utc_midnight = Ok jd0
  /\ {| dt_year := 2026; dt_month := 1; dt_day := 1;
        dt_hour := 0; dt_minute := 0; dt_second := 0; dt_tzinfo := None |}
     = {| dt_year := Calendar.year Generator.START_DATE;
          dt_month := Calendar.month Generator.START_DATE;
          dt_day := Calendar.day Generator.START_DATE;
          dt_hour := 0; dt_minute := 0; dt_second := 0; dt_tzinfo := None |}
  /\ su = su
  /\ truncates h 0
  /\ truncates (PyFloat.mul (PyFloat.sub h (PyFloat.of_int 0)) (PyFloat.of_int 60)) 45
  /\ truncates
       (PyFloat.mul
          (PyFloat.sub (PyFloat.mul (PyFloat.sub h (PyFloat.of_int 0)) (PyFloat.of_int 60))
                       (PyFloat.of_int 45))
          (PyFloat.of_int 60)) 36.
Proof.
  cbv zeta.
  apply (local_sunrise_steps Toy.zoned Generator.START_DATE Toy.mysuru
           (Zone "Asia/Kolkata")
           {| dt_year := 2026; dt_month := 1; dt_day := 1;
              dt_hour := 0; dt_minute := 0; dt_second := 0; dt_tzinfo := None |}
           {| dt_year := 2026; dt_month := 1; dt_day := 1;
              dt_hour := 0; dt_minute := 0; dt_second := 0;
              dt_tzinfo := Some (Zone "Asia/Kolkata") |}
           {| dt_year := 2025; dt_month := 12; dt_day := 31;
              dt_hour := 18; dt_minute := 30; dt_second := 0; dt_tzinfo := Some UTC |}
           (PyFloat.add (PyFloat.of_int 739616)
                        (PyFloat.div (PyFloat.of_decimal 185 1) (PyFloat.of_int 24)))
           (PyFloat.of_int 739617)
           2026 1 1 (PyFloat.of_decimal 76 2) 0 45 36);
    vm_compute; reflexivity.
Defined.

(** Had the hour not been handed over, the search would have started at
    0 hours of 2025-12-31 and found the rise of that day instead. *)
Lemma julday_hour_matters :
  swe_rise_trans Toy.zoned (PyFloat.of_int 739616) SUN CALC_RISE
    (lon Toy.mysuru, lat Toy.mysuru, 0) 0 0 = Ok (PyFloat.of_int 739616)
  /\ swe_rise_trans Toy.zoned
       (PyFloat.add (PyFloat.of_int 739616)
                    (PyFloat.div (PyFloat.of_decimal 185 1) (PyFloat.of_int 24)))
       SUN CALC_RISE (lon Toy.mysuru, lat Toy.mysuru, 0) 0 0 = Ok (PyFloat.of_int 739617).
Proof. vm_compute. split; reflexivity. Qed.

(** With the sun rising at 6.26 hours the seconds are cut to 35: the
    products are rounded before [int] truncates them. *)
Lemma local_sunrise_truncation_example :
  local_sunrise Toy.late Generator.START_DATE Toy.mysuru
  = Ok {| dt_year := 2026; dt_month := 1; dt_day := 1;
          dt_hour := 6; dt_minute := 15; dt_second := 35; dt_tzinfo := Some UTC |}.
Proof. vm_compute. reflexivity. Qed.

(** ** The one-year table *)

Lemma YEAR_first : Calendar.mkdate YearTable.YEAR 1 1 = Ok 739617.
Proof. reflexivity. Qed.

Lemma YEAR_last : Calendar.mkdate YearTable.YEAR 12 31 = Ok 739981.
Proof. reflexivity. Qed.

Lemma is_moon_day_tithi (X : Externals) (d : Calendar.date) (city : City) :
  YearTable.is_moon_day X d city
  = (t ← sunrise_tithi X d city; mret ((t =? AMAVASYA) || (t =? PURNIMA))).
Proof.
  unfold YearTable.is_moon_day, sunrise_tithi.
  destruct (local_sunrise X d city) as [sr|e]; [|reflexivity]. rewrite !bind_Ok.
  destruct (astimezone X sr UTC) as [u|e]; [|reflexivity]. rewrite !bind_Ok.
  destruct (julian_day X u) as [jd|e]; reflexivity.
Qed.

Lemma is_moon_day_true (X : Externals) (d : Calendar.date) (city : City) :
  YearTable.is_moon_day X d city = Ok true
  <-> exists t, sunrise_tithi X d city = Ok t /\ (t = PURNIMA \/ t = AMAVASYA).
Proof.
  rewrite is_moon_day_tithi. split.
  - intros H. apply bind_Ok_inv in H as (t & Ht & H). exists t. split; [exact Ht|].
    injection H as H. apply orb_prop in H as [H|H]; apply Z.eqb_eq in H; auto.
  - intros (t & -> & Ht). rewrite bind_Ok. simpl. f_equal.
    destruct Ht as [->| ->]; reflexivity.
Qed.

Lemma days_loop_spec (X : Externals) (city : City) (stop : Calendar.date) (fuel : nat) :
  forall d results res,
  YearTable.days_loop X fuel city stop d results = Some (Ok res) ->
  (forall x, x ∈ res <->
     x ∈ results \/ (d <= x <= stop /\ YearTable.is_moon_day X x city = Ok true))
  /\ (forall x, d <= x <= stop -> exists b, YearTable.is_moon_day X x city = Ok b).
Proof.
  induction fuel as [|fuel IH]; intros d results res Hrun; [discriminate|].
  simpl in Hrun. destruct (Z.leb_spec d stop) as [Hle|Hgt].
  - destruct (YearTable.is_moon_day X d city) as [b|e] eqn:Hb; [|discriminate].
    destruct (Calendar.add_days d 1) as [d'|e] eqn:Hadd; [|discriminate].
    apply add_days_Ok in Hadd as ->.
    apply IH in Hrun as [Hmem Hok]. split.
    + intros x. rewrite Hmem. destruct b.
      * rewrite elem_of_union, elem_of_singleton. split.
        -- intros [[->|Hx]|[Hx Hm]]; [right; split; [lia|exact Hb]|now left|right; split; [lia|exact Hm]].
        -- intros [Hx|[Hx Hm]]; [left; now right|].
           destruct (Z.eq_dec x d) as [->|Hne]; [left; now left|right; split; [lia|exact Hm]].
      * split.
        -- intros [Hx|[Hx Hm]]; [now left|right; split; [lia|exact Hm]].
        -- intros [Hx|[Hx Hm]]; [now left|].
           destruct (Z.eq_dec x d) as [->|Hne]; [congruence|right; split; [lia|exact Hm]].
    + intros x Hx. destruct (Z.eq_dec x d) as [->|Hne]; [eauto|apply Hok; lia].
  - injection Hrun as <-. split.
    + intros x. split; [now left|]. intros [Hx|[Hx _]]; [exact Hx|lia].
    + intros x Hx. lia.
Qed.

Lemma days_loop_total (X : Externals) (city : City) (stop : Calendar.date) (fuel : nat) :
  forall d results, (0 < fuel)%nat -> stop + 1 - d < Z.of_nat fuel ->
  exists r, YearTable.days_loop X fuel city stop d results = Some r.
Proof.
  induction fuel as [|fuel IH]; intros d results Hpos Hfuel; [lia|].
  simpl. destruct (Z.leb_spec d stop) as [Hle|Hgt]; [|eauto].
  destruct (YearTable.is_moon_day X d city) as [b|e]; [|eauto].
  destruct (Calendar.add_days d 1) as [d'|e] eqn:Hadd; [|eauto].
  apply add_days_Ok in Hadd as ->. apply IH; lia.
Qed.

Lemma sorted_spec (results : gset Z) :
  StronglySorted Z.lt (YearTable.sorted results)
  /\ forall x, x ∈ YearTable.sorted results <-> x ∈ results.
Proof.
  unfold YearTable.sorted. split.
  - assert (Hs : StronglySorted Z.le (merge_sort Z.le (elements results)))
      by (apply StronglySorted_merge_sort; apply _).
    assert (Hn : NoDup (merge_sort Z.le (elements results)))
      by (rewrite merge_sort_Permutation; apply NoDup_elements).
    induction Hs as [|x l Hs IH Hall]; [constructor|].
    apply NoDup_cons in Hn as [Hx Hn]. constructor; [now apply IH|].
    rewrite Forall_forall in *. intros y Hy. specialize (Hall y Hy).
    destruct (Z.eq_dec x y) as [->|Hne]; [contradiction|lia].
  - intros x. now rewrite merge_sort_Permutation, elem_of_elements.
Qed.

(** C7.  The list [moon_days_for_city] returns is in strictly ascending
    order and holds exactly the dates of 2026 on which [is_moon_day] answers
    yes, that is the dates whose tithi at local sunrise is 15 or 30.  A date
    whose sunrise tithi is neither is left out whatever the tithi of the
    next sunrise: a skipped tithi is not seen. *)
Theorem moon_days_for_city_spec (X : Externals) (city : City) (days : list Calendar.date) :
  YearTable.moon_days_for_city X city = Some (Ok days) ->
  StronglySorted Z.lt days
  /\ (forall d, d ∈ days <->
        Calendar._ymd2ord YearTable.YEAR 1 1 <= d <= Calendar._ymd2ord YearTable.YEAR 12 31
        /\ YearTable.is_moon_day X d city = Ok true)
  /\ (forall d, d ∈ days <->
        Calendar._ymd2ord YearTable.YEAR 1 1 <= d <= Calendar._ymd2ord YearTable.YEAR 12 31
        /\ exists t, sunrise_tithi X d city = Ok t /\ (t = PURNIMA \/ t = AMAVASYA))
  /\ (forall d t, sunrise_tithi X d city = Ok t -> t <> PURNIMA -> t <> AMAVASYA ->
        d ∉ days).
Proof.
  unfold YearTable.moon_days_for_city. rewrite YEAR_first, YEAR_last. cbn [obind].
  intros Hrun.
  destruct (YearTable.days_loop X _ city 739981 739617 ∅) as [[res|e]|] eqn:Hloop;
    try discriminate.
  injection Hrun as <-.
  apply days_loop_spec in Hloop as [Hmem _].
  destruct (sorted_spec res) as [Hsorted Hin].
  assert (Hchar : forall d, d ∈ YearTable.sorted res <->
            739617 <= d <= 739981 /\ YearTable.is_moon_day X d city = Ok true).
  { intros d. rewrite Hin, Hmem. split; [|auto]. intros [H|H]; [|exact H].
    now apply not_elem_of_empty in H. }
  split; [exact Hsorted|]. split; [exact Hchar|]. split.
  - intros d. rewrite Hchar. now rewrite is_moon_day_true.
  - intros d t Ht H15 H30 Hd. apply Hchar in Hd as [_ Hd].
    apply is_moon_day_true in Hd as (t' & Ht' & Hor). rewrite Ht in Ht'.
    injection Ht' as <-. tauto.
Qed.

Lemma moon_days_for_city_spec_witness :
  let days := [739633; 739647; 739661; 739675; 739689; 739703; 739716; 739730;
               739744; 739758; 739772; 739786; 739813; 739827; 739841; 739855;
               739869; 739883; 739896; 739910; 739924; 739938; 739952; 739966] in
  StronglySorted Z.lt days
  /\ (forall d, d ∈ days <->
        Calendar._ymd2ord YearTable.YEAR 1 1 <= d <= Calendar._ymd2ord YearTable.YEAR 12 31
        /\ YearTable.is_moon_day Toy.steady d Toy.mysuru = Ok true)
  /\ (forall d, d ∈ days <->
        Calendar._ymd2ord YearTable.YEAR 1 1 <= d <= Calendar._ymd2ord YearTable.YEAR 12 31
        /\ exists t, sunrise_tithi Toy.steady d Toy.mysuru = Ok t
                     /\ (t = PURNIMA \/ t = AMAVASYA))
  /\ (forall d t, sunrise_tithi Toy.steady d Toy.mysuru = Ok t ->
        t <> PURNIMA -> t <> AMAVASYA -> d ∉ days).
Proof.
  cbv zeta. apply (moon_days_for_city_spec Toy.steady Toy.mysuru).
  vm_compute. reflexivity.
Defined.

(** ** Formatting *)

Lemma length_append (s1 s2 : string) :
  String.length (s1 +:+ s2) = (String.length s1 + String.length s2)%nat.
Proof. induction s1 as [|c s1 IH]; simpl; [reflexivity|now rewrite IH]. Qed.

Lemma append_inj_length (s1 s2 r1 r2 : string) :
  String.length s1 = String.length s2 -> s1 +:+ r1 = s2 +:+ r2 -> s1 = s2 /\ r1 = r2.
Proof.
  revert s2. induction s1 as [|c s1 IH]; intros [|c2 s2] Hlen Heq;
    simpl in *; try discriminate.
  - auto.
  - injection Hlen as Hlen. injection Heq as -> Heq.
    destruct (IH s2 Hlen Heq) as [-> ->]. auto.
Qed.

Lemma length_zeros (n : nat) : String.length (zeros n) = n.
Proof. unfold zeros. induction n as [|n IH]; simpl; [reflexivity|now rewrite IH]. Qed.

Lemma length_fmt_0d (w : nat) (n : Z) : (w <= String.length (fmt_0d w n))%nat.
Proof.
  unfold fmt_0d. destruct (n <? 0); simpl; rewrite ?length_append, length_zeros; simpl; lia.
Qed.

Lemma length_isoformat (d : Calendar.date) : (10 <= String.length (isoformat d))%nat.
Proof.
  unfold isoformat. rewrite !length_append. simpl.
  pose proof (length_fmt_0d 4 (Calendar.year d)).
  pose proof (length_fmt_0d 2 (Calendar.month d)).
  pose proof (length_fmt_0d 2 (Calendar.day d)). lia.
Qed.

Lemma rmap_Ok {A B : Type} (f : A -> result B) (xs : list A) (ys : list B) :
  rmap f xs = Ok ys <-> Forall2 (fun x y => f x = Ok y) xs ys.
Proof.
  revert ys. induction xs as [|x xs IH]; intros ys; simpl.
  - split; [intros [= <-]; constructor|intros H; now inversion H].
  - split.
    + intros H. apply bind_Ok_inv in H as (y & Hy & H).
      apply bind_Ok_inv in H as (ys' & Hys & H). injection H as <-.
      constructor; [exact Hy|now apply IH].
    + intros H. inversion H as [|? y ? ys' Hy Hys]; subst.
      rewrite Hy, bind_Ok. apply IH in Hys. now rewrite Hys, bind_Ok.
Qed.

(** ** The cells of the one-year table *)

Lemma probe_cons (days : gset Z) (d delta : Z) (rest : list Z) :
  0 < d + delta <= Calendar._MAXORDINAL ->
  YearTable.probe days d (delta :: rest)
  = if bool_decide (d + delta ∈ days) then Ok (Some (d + delta))
    else YearTable.probe days d rest.
Proof. intros H. simpl. now rewrite add_days_valid, bind_Ok by exact H. Qed.

Lemma cell_eq (days : gset Z) (d : Calendar.date) :
  2 < d -> d + 2 <= Calendar._MAXORDINAL ->
  YearTable.cell days d
  = Ok (if bool_decide (d ∈ days) then ""%string
        else if bool_decide (d - 1 ∈ days) then isoformat (d - 1)
        else if bool_decide (d + 1 ∈ days) then isoformat (d + 1)
        else if bool_decide (d - 2 ∈ days) then isoformat (d - 2)
        else if bool_decide (d + 2 ∈ days) then isoformat (d + 2)
        else "NaN"%string).
Proof.
  intros Hlo Hhi. unfold YearTable.cell.
  rewrite !probe_cons by lia. cbn [YearTable.probe].
  replace (d + 0) with d by lia.
  replace (d + -1) with (d - 1) by lia. replace (d + -2) with (d - 2) by lia.
  repeat case_bool_decide; rewrite bind_Ok; cbv beta iota;
    rewrite ?Z.eqb_refl;
    repeat match goal with
    | |- context [?a =? d] =>
        let H := fresh in destruct (Z.eqb_spec a d) as [H|H]; [exfalso; lia|]
    end; first [reflexivity | exfalso; tauto].
Qed.

Lemma isoformat_not_blank (x : Calendar.date) :
  isoformat x <> ""%string /\ isoformat x <> "NaN"%string.
Proof.
  pose proof (length_isoformat x) as H.
  split; intros E; rewrite E in H; simpl in H; lia.
Qed.

(** The cell worked out from a set of moon days for a day [d]: the set is
    probed at [d], [d - 1], [d + 1], [d - 2], [d + 2], in that order, and the
    first hit decides: the cell is empty when [d] itself is in the set, the
    ISO date of the first hit otherwise, and ["NaN"] when none of the five
    dates is in the set. *)
Lemma cell_spec (days : gset Z) (d : Calendar.date) :
  2 < d -> d + 2 <= Calendar._MAXORDINAL ->
  exists s, YearTable.cell days d = Ok s
    /\ (d ∈ days -> s = ""%string)
    /\ (d ∉ days -> d - 1 ∈ days -> s = isoformat (d - 1))
    /\ (d ∉ days -> d - 1 ∉ days -> d + 1 ∈ days -> s = isoformat (d + 1))
    /\ (d ∉ days -> d - 1 ∉ days -> d + 1 ∉ days -> d - 2 ∈ days -> s = isoformat (d - 2))
    /\ (d ∉ days -> d - 1 ∉ days -> d + 1 ∉ days -> d - 2 ∉ days -> d + 2 ∈ days ->
        s = isoformat (d + 2))
    /\ (d ∉ days -> d - 1 ∉ days -> d + 1 ∉ days -> d - 2 ∉ days -> d + 2 ∉ days ->
        s = "NaN"%string)
    /\ (s = ""%string <-> d ∈ days)
    /\ (s = "NaN"%string <-> forall k, -2 <= k <= 2 -> d + k ∉ days).
Proof.
  intros Hlo Hhi. eexists. split; [now apply cell_eq|].
  assert (Hall : (forall k, -2 <= k <= 2 -> d + k ∉ days) <->
                 (d ∉ days) /\ (d - 1 ∉ days) /\ (d + 1 ∉ days)
                 /\ (d - 2 ∉ days) /\ (d + 2 ∉ days)).
  { split.
    - intros H. pose proof (H 0 ltac:(lia)) as H0. replace (d + 0) with d in H0 by lia.
      pose proof (H (-1) ltac:(lia)) as H1. replace (d + -1) with (d - 1) in H1 by lia.
      pose proof (H (-2) ltac:(lia)) as H2. replace (d + -2) with (d - 2) in H2 by lia.
      pose proof (H 1 ltac:(lia)). pose proof (H 2 ltac:(lia)). tauto.
    - intros (H0 & H1 & H2 & H3 & H4) k Hk.
      assert (k = 0 \/ k = -1 \/ k = 1 \/ k = -2 \/ k = 2) as [->|[->|[->|[->| ->]]]] by lia.
      + now replace (d + 0) with d by lia.
      + now replace (d + -1) with (d - 1) by lia.
      + assumption.
      + now replace (d + -2) with (d - 2) by lia.
      + assumption. }
  rewrite Hall.
  destruct (isoformat_not_blank (d - 1)) as [? ?].
  destruct (isoformat_not_blank (d + 1)) as [? ?].
  destruct (isoformat_not_blank (d - 2)) as [? ?].
  destruct (isoformat_not_blank (d + 2)) as [? ?].
  generalize dependent (isoformat (d - 1)). generalize dependent (isoformat (d + 1)).
  generalize dependent (isoformat (d - 2)). generalize dependent (isoformat (d + 2)).
  intros s1 ? ? s2 ? ? s3 ? ? s4 ? ?.
  repeat case_bool_decide; repeat split; intros; try tauto; try congruence.
Qed.

Lemma cell_spec_witness :
  let days : gset Z := {[ 739634; 739650 ]} in
  let d := 739633 in
  exists s, YearTable.cell days d = Ok s
    /\ (d ∈ days -> s = ""%string)
    /\ (d ∉ days -> d - 1 ∈ days -> s = isoformat (d - 1))
    /\ (d ∉ days -> d - 1 ∉ days -> d + 1 ∈ days -> s = isoformat (d + 1))
    /\ (d ∉ days -> d - 1 ∉ days -> d + 1 ∉ days -> d - 2 ∈ days -> s = isoformat (d - 2))
    /\ (d ∉ days -> d - 1 ∉ days -> d + 1 ∉ days -> d - 2 ∉ days -> d + 2 ∈ days ->
        s = isoformat (d + 2))
    /\ (d ∉ days -> d - 1 ∉ days -> d + 1 ∉ days -> d - 2 ∉ days -> d + 2 ∉ days ->
        s = "NaN"%string)
    /\ (s = ""%string <-> d ∈ days)
    /\ (s = "NaN"%string <-> forall k, -2 <= k <= 2 -> d + k ∉ days).
Proof.
  cbv zeta. apply (cell_spec {[ 739634; 739650 ]} 739633); vm_compute; [reflexivity|discriminate].
Defined.

Lemma cell_example :
  YearTable.cell {[ 739634; 739650 ]} 739633 = Ok "2026-01-18"%string
  /\ YearTable.cell {[ 739634; 739650 ]} 739650 = Ok ""%string
  /\ YearTable.cell {[ 739634; 739650 ]} 739640 = Ok "NaN"%string.
Proof. repeat split; vm_compute; reflexivity. Qed.

(** A row of the one-year table: the master date, then one cell per other
    city, made from that city's set of moon days. *)
Lemma year_csv_row_spec (city_days : list (string * gset Z)) (others : list string)
    (d : Calendar.date) (row : list string) :
  YearTable.csv_row city_days others d = Ok row ->
  exists cells, row = isoformat d :: cells
    /\ Forall2 (fun city c => exists days, dict_get city city_days = Ok days
                                           /\ YearTable.cell days d = Ok c) others cells.
Proof.
  unfold YearTable.csv_row. intros H.
  apply bind_Ok_inv in H as (cells & Hcells & H). injection H as <-.
  exists cells. split; [reflexivity|].
  apply rmap_Ok in Hcells. eapply Forall2_impl; [exact Hcells|].
  intros city c Hc. simpl in Hc. apply bind_Ok_inv in Hc as (days & Hd & Hc). eauto.
Qed.

(** ** The calendar: an ordinal and its fields determine each other *)

Lemma distinct_from_spec (f : Z -> string) (n : nat) (start a b : Z) :
  distinct_from f n start = true ->
  start <= a < start + Z.of_nat n -> start <= b < start + Z.of_nat n ->
  f a = f b -> a = b.
Proof.
  intros Hall Ha Hb Heq. unfold distinct_from in Hall.
  pose proof (all_from_spec _ n start a Hall Ha) as H1. simpl in H1.
  pose proof (all_from_spec _ n start b H1 Hb) as H2. simpl in H2.
  rewrite Heq, String.eqb_refl in H2. simpl in H2. now apply Z.eqb_eq in H2.
Qed.

Lemma ord2ymd_cycle (n : Z) :
  Calendar._ord2ymd n =
  let '(y, m, d) := Calendar._ord2ymd ((n - 1) mod 146097 + 1) in
  (y + 400 * ((n - 1) / 146097), m, d).
Proof.
  pose proof (Z.mod_pos_bound (n - 1) 146097 ltac:(lia)) as Hr.
  unfold Calendar._ord2ymd, Calendar._DI400Y. cbv zeta.
  replace ((n - 1) mod 146097 + 1 - 1) with ((n - 1) mod 146097) by lia.
  rewrite (Z.div_small ((n - 1) mod 146097) 146097) by lia.
  rewrite (Z.mod_small ((n - 1) mod 146097) 146097) by lia.
  set (q := (n - 1) / 146097). set (r := (n - 1) mod 146097).
  repeat case_match; simplify_eq; f_equal; try f_equal; lia.
Qed.

Lemma is_leap_shift (y q : Z) : Calendar._is_leap (y + 400 * q) = Calendar._is_leap y.
Proof.
  unfold Calendar._is_leap.
  replace ((y + 400 * q) mod 4) with (y mod 4)
    by (replace (y + 400 * q) with (y + (100 * q) * 4) by lia; now rewrite Z.mod_add).
  replace ((y + 400 * q) mod 100) with (y mod 100)
    by (replace (y + 400 * q) with (y + (4 * q) * 100) by lia; now rewrite Z.mod_add).
  replace ((y + 400 * q) mod 400) with (y mod 400)
    by (replace (y + 400 * q) with (y + q * 400) by lia; now rewrite Z.mod_add).
  reflexivity.
Qed.

Lemma ymd2ord_shift (y m d q : Z) :
  Calendar._ymd2ord (y + 400 * q) m d = Calendar._ymd2ord y m d + 146097 * q.
Proof.
  unfold Calendar._ymd2ord, Calendar._days_before_month, Calendar._days_before_year.
  rewrite is_leap_shift. cbv zeta.
  replace (y + 400 * q - 1) with (y - 1 + 400 * q) by lia.
  replace ((y - 1 + 400 * q) / 4) with ((y - 1) / 4 + 100 * q)
    by (replace (y - 1 + 400 * q) with (y - 1 + (100 * q) * 4) by lia;
        now rewrite Z.div_add).
  replace ((y - 1 + 400 * q) / 100) with ((y - 1) / 100 + 4 * q)
    by (replace (y - 1 + 400 * q) with (y - 1 + (4 * q) * 100) by lia;
        now rewrite Z.div_add).
  replace ((y - 1 + 400 * q) / 400) with ((y - 1) / 400 + q)
    by (replace (y - 1 + 400 * q) with (y - 1 + q * 400) by lia;
        now rewrite Z.div_add).
  lia.
Qed.

Lemma days_in_month_shift (y m q : Z) :
  Calendar._days_in_month (y + 400 * q) m = Calendar._days_in_month y m.
Proof. unfold Calendar._days_in_month. now rewrite is_leap_shift. Qed.

Lemma cycle_ok_all : all_from cycle_ok (Z.to_nat 146097) 0 = true.
Proof. vm_cast_no_check (eq_refl true). Qed.

(** The fields of an ordinal give the ordinal back, and are a month of
    1..12 and a day of that month. *)
Lemma ymd2ord_ord2ymd (n : Z) :
  Calendar._ymd2ord (Calendar.year n) (Calendar.month n) (Calendar.day n) = n
  /\ 1 <= Calendar.month n <= 12
  /\ 1 <= Calendar.day n <= Calendar._days_in_month (Calendar.year n) (Calendar.month n).
Proof.
  unfold Calendar.year, Calendar.month, Calendar.day.
  rewrite (ord2ymd_cycle n).
  pose proof (Z.mod_pos_bound (n - 1) 146097 ltac:(lia)) as Hr.
  pose proof (all_from_spec cycle_ok (Z.to_nat 146097) 0 ((n - 1) mod 146097)
                cycle_ok_all ltac:(lia)) as Hok.
  unfold cycle_ok in Hok.
  destruct (Calendar._ord2ymd ((n - 1) mod 146097 + 1)) as [[y m] d]. simpl.
  repeat (apply andb_prop in Hok as [Hok ?]).
  rewrite ymd2ord_shift, days_in_month_shift.
  pose proof (Z.div_mod (n - 1) 146097 ltac:(lia)). lia.
Qed.

Lemma ord2ymd_inj (n1 n2 : Z) :
  Calendar.year n1 = Calendar.year n2 -> Calendar.month n1 = Calendar.month n2 ->
  Calendar.day n1 = Calendar.day n2 -> n1 = n2.
Proof.
  intros Hy Hm Hd.
  destruct (ymd2ord_ord2ymd n1) as [H1 _]. destruct (ymd2ord_ord2ymd n2) as [H2 _].
  rewrite <- H1, <- H2. congruence.
Qed.

Lemma days_in_month_le (y m : Z) : 1 <= m <= 12 -> Calendar._days_in_month y m <= 31.
Proof.
  intros Hm. unfold Calendar._days_in_month.
  destruct ((m =? 2) && Calendar._is_leap y); [lia|].
  assert (m = 1 \/ m = 2 \/ m = 3 \/ m = 4 \/ m = 5 \/ m = 6 \/ m = 7 \/ m = 8
          \/ m = 9 \/ m = 10 \/ m = 11 \/ m = 12) as H by lia.
  repeat (destruct H as [->|H]; [simpl; lia|]). subst. simpl. lia.
Qed.

(** ** The comparison table of [generator.py] *)

Lemma day_fmt_length (a : Z) : 1 <= a <= 31 -> String.length (fmt_0d 2 a) = 2%nat.
Proof.
  intros Ha.
  assert (Hall : all_from (fun a => Nat.eqb (String.length (fmt_0d 2 a)) 2) 31 1 = true)
    by (vm_compute; reflexivity).
  pose proof (all_from_spec _ 31 1 a Hall ltac:(lia)) as H. simpl in H.
  now apply Nat.eqb_eq in H.
Qed.

Lemma day_fmt_inj (a b : Z) :
  1 <= a <= 31 -> 1 <= b <= 31 -> fmt_0d 2 a = fmt_0d 2 b -> a = b.
Proof.
  intros Ha Hb. apply (distinct_from_spec (fmt_0d 2) 31 1); [vm_compute; reflexivity|lia|lia].
Qed.

Lemma month_name_length (m : Z) :
  1 <= m <= 12 -> String.length (nth (Z.to_nat m) Generator.MONTHS ""%string) = 3%nat.
Proof.
  intros Hm.
  assert (Hall : all_from (fun m => Nat.eqb (String.length
                    (nth (Z.to_nat m) Generator.MONTHS ""%string)) 3) 12 1 = true)
    by (vm_compute; reflexivity).
  pose proof (all_from_spec _ 12 1 m Hall ltac:(lia)) as H. simpl in H.
  now apply Nat.eqb_eq in H.
Qed.

Lemma month_name_inj (a b : Z) :
  1 <= a <= 12 -> 1 <= b <= 12 ->
  nth (Z.to_nat a) Generator.MONTHS ""%string = nth (Z.to_nat b) Generator.MONTHS ""%string ->
  a = b.
Proof.
  intros Ha Hb.
  apply (distinct_from_spec (fun m => nth (Z.to_nat m) Generator.MONTHS ""%string) 12 1);
    [vm_compute; reflexivity|lia|lia].
Qed.

(** Two events are printed alike only when they fall on the same date. *)
Lemma fmt_date_inj (e1 e2 : Generator.MoonEvent) :
  Generator.fmt_date e1 = Generator.fmt_date e2 -> Generator.date e1 = Generator.date e2.
Proof.
  unfold Generator.fmt_date. intros H.
  destruct (ymd2ord_ord2ymd (Generator.date e1)) as (_ & Hm1 & Hd1).
  destruct (ymd2ord_ord2ymd (Generator.date e2)) as (_ & Hm2 & Hd2).
  pose proof (days_in_month_le (Calendar.year (Generator.date e1)) _ Hm1).
  pose proof (days_in_month_le (Calendar.year (Generator.date e2)) _ Hm2).
  pose proof (month_name_length _ Hm1) as Hl1.
  pose proof (month_name_length _ Hm2) as Hl2.
  pose proof (month_name_inj _ _ Hm1 Hm2) as Hminj.
  set (M1 := nth _ Generator.MONTHS ""%string) in *.
  set (M2 := nth _ Generator.MONTHS ""%string) in *.
  apply append_inj_length in H as [Hday H];
    [|rewrite !day_fmt_length by lia; reflexivity].
  apply (append_inj_length " " " ") in H as [_ H]; [|reflexivity].
  apply append_inj_length in H as [Hmonth H]; [|congruence].
  apply (append_inj_length " " " ") in H as [_ H]; [|reflexivity].
  apply day_fmt_inj in Hday; [|lia|lia].
  apply Hminj in Hmonth.
  apply (inj pretty) in H.
  now apply ord2ymd_inj.
Qed.

Lemma index_map_snoc (events : list Generator.MoonEvent) (e : Generator.MoonEvent) :
  Generator.index_map (events ++ [e])
  = <[Generator.index e := e]> (Generator.index_map events).
Proof. unfold Generator.index_map. now rewrite foldl_app. Qed.

(** When the index of every event is its position, the map from index to
    event is the list itself. *)
Lemma index_map_lookup (events : list Generator.MoonEvent) :
  (forall i e, events !! i = Some e -> Generator.index e = i) ->
  forall i, Generator.index_map events !! i = events !! i.
Proof.
  induction events as [|e events IH] using rev_ind; intros Hidx i.
  - unfold Generator.index_map. simpl. now rewrite lookup_empty.
  - rewrite index_map_snoc.
    assert (He : Generator.index e = length events).
    { apply Hidx. now rewrite lookup_app_r, Nat.sub_diag by lia. }
    assert (IH' : forall j, Generator.index_map events !! j = events !! j).
    { apply IH. intros j x Hj. apply Hidx. now apply lookup_app_l_Some. }
    rewrite He. destruct (decide (i = length events)) as [->|Hne].
    + rewrite lookup_insert_eq. now rewrite lookup_app_r, Nat.sub_diag by lia.
    + rewrite lookup_insert_ne by congruence. rewrite IH'.
      destruct (decide (i < length events)%nat) as [Hlt|Hge].
      * now rewrite lookup_app_l by lia.
      * rewrite (lookup_ge_None_2 events i) by lia.
        symmetry. apply lookup_ge_None_2. rewrite length_app. simpl. lia.
Qed.

Lemma dict_get_fmap {A B : Type} (f : A -> B) (key : string) (items : list (string * A)) :
  dict_get key ((fun kv => (kv.1, f kv.2)) <$> items)
  = (v ← dict_get key items; mret (f v)).
Proof.
  induction items as [|[k v] items IH]; simpl; [reflexivity|].
  destruct (String.eqb k key); [reflexivity|exact IH].
Qed.

Lemma other_cell_cases (ref_date : string) (ev : option Generator.MoonEvent) :
  (ev = None -> Generator.other_cell ref_date ev = ""%string)
  /\ (forall e, ev = Some e -> Generator.is_kshaya (Generator.kind e) = true ->
        Generator.other_cell ref_date ev = Generator.KSHAYA_MARK)
  /\ (forall e, ev = Some e -> Generator.is_kshaya (Generator.kind e) = false ->
        Generator.fmt_date e = ref_date -> Generator.other_cell ref_date ev = ""%string)
  /\ (forall e, ev = Some e -> Generator.is_kshaya (Generator.kind e) = false ->
        Generator.fmt_date e <> ref_date ->
        Generator.other_cell ref_date ev = Generator.fmt_date e).
Proof.
  repeat split.
  - now intros ->.
  - intros e -> Hk. simpl. now rewrite Hk.
  - intros e -> Hk Heq. simpl. rewrite Hk. apply String.eqb_eq in Heq. now rewrite Heq.
  - intros e -> Hk Hne. simpl. rewrite Hk. apply String.eqb_neq in Hne. now rewrite Hne.
Qed.




(** The rows of the sample table: an empty cell for the same date and for a
    missing event, the mark for a kshaya, the date when it differs. *)
Lemma sample_table_rows :
  drop 1 Toy.sample_table
  = [ ["AMAVASYA"; "17 Jan 2026"; ""; ""; ""; ""; ""; ""; ""; ""; ""];
      ["PURNIMA"; "31 Jan 2026"; Generator.KSHAYA_MARK; ""; ""; ""; ""; ""; ""; ""; ""];
      ["AMAVASYA"; "14 Feb 2026"; "15 Feb 2026"; ""; ""; ""; ""; ""; ""; ""; ""] ]%string.
Proof. vm_compute. reflexivity. Qed.



(** A missing event and an event that is no kshaya and falls on the
    master's date give the same, empty, cell; a kshaya gives the mark alone,
    whatever its date. *)
Lemma other_cell_blank (ref ev : Generator.MoonEvent) :
  Generator.is_kshaya (Generator.kind ev) = false ->
  Generator.date ev = Generator.date ref ->
  Generator.other_cell (Generator.fmt_date ref) None = ""%string
  /\ Generator.other_cell (Generator.fmt_date ref) (Some ev) = ""%string
  /\ (forall ks, Generator.is_kshaya (Generator.kind ks) = true ->
        Generator.other_cell (Generator.fmt_date ref) (Some ks) = Generator.KSHAYA_MARK)
  /\ (forall ks, Generator.is_kshaya (Generator.kind ks) = true ->
        Generator.other_cell (Generator.fmt_date ref) (Some ks)
        <> Generator.fmt_date ks).
Proof.
  intros Hk Hd.
  destruct (other_cell_cases (Generator.fmt_date ref) (Some ev)) as (_ & _ & Hsame & _).
  split; [reflexivity|]. split.
  { apply (Hsame ev eq_refl Hk). unfold Generator.fmt_date. now rewrite Hd. }
  split.
  - intros ks Hks. simpl. now rewrite Hks.
  - intros ks Hks. simpl. rewrite Hks. intros Heq.
    pose proof (f_equal String.length Heq) as Hlen.
    unfold Generator.fmt_date in Hlen. rewrite !length_append in Hlen.
    pose proof (length_fmt_0d 2 (Calendar.day (Generator.date ks))).
    simpl in Hlen. lia.
Qed.

Lemma other_cell_blank_example :
  let ref := {| Generator.index := 1; Generator.date := 739647;
                Generator.kind := Generator.KIND_PURNIMA |} in
  let ev := {| Generator.index := 1; Generator.date := 739647;
               Generator.kind := Generator.KIND_AMAVASYA |} in
  Generator.other_cell (Generator.fmt_date ref) None = ""%string
  /\ Generator.other_cell (Generator.fmt_date ref) (Some ev) = ""%string.
Proof. vm_compute. split; reflexivity. Qed.
(** * Further properties *)

(** ** Kinds *)

Lemma detect_event_event_kind (X : Externals) (d : Calendar.date) (city : City)
    (r : option Z) :
  Generator.detect_event X d city = Ok r ->
  exists t0 t1, sunrise_tithi X d city = Ok t0
    /\ sunrise_tithi X (d + 1) city = Ok t1
    /\ r = Generator.event_kind t0 t1.
Proof.
  unfold Generator.detect_event. intros H. bind_inv H.
  injection H as <-.
  apply add_days_Ok in Ha0 as ->.
  exists a6, a7. unfold sunrise_tithi.
  rewrite Ha, Ha1. simpl. rewrite Ha2, Ha4. simpl. rewrite Ha3, Ha5. simpl.
  auto.
Qed.

(** X2. When the decision of [detect_event] on the tithis [t0] and [t1] of
    two sunrises is a kind [k], [base_tithi k] is defined: it is [t0]
    itself for the two plain kinds, and for the two kshaya kinds a tithi
    passed over between the sunrises, [t0] being neither 15 nor 30. *)
Theorem base_tithi_of_event_kind (t0 t1 k : Z) :
  Generator.event_kind t0 t1 = Some k ->
  exists t, Generator.base_tithi k = Ok t
    /\ (t = PURNIMA \/ t = AMAVASYA)
    /\ (Generator.is_kshaya k = false -> t = t0)
    /\ (Generator.is_kshaya k = true ->
        t0 <> PURNIMA /\ t0 <> AMAVASYA /\ skipped_between t0 t1 t).
Proof.
  unfold Generator.event_kind.
  destruct (Z.eqb_spec t0 PURNIMA) as [->|H15].
  { intros [= <-]. exists PURNIMA. repeat split; auto; discriminate. }
  destruct (Z.eqb_spec t0 AMAVASYA) as [->|H30].
  { intros [= <-]. exists AMAVASYA. repeat split; auto; discriminate. }
  destruct (1 <? (t1 - t0) mod 30); [|discriminate].
  case_bool_decide as Hp.
  { intros [= <-]. exists PURNIMA.
    split; [reflexivity|]. split; [auto|]. split; [discriminate|].
    intros _. split; [assumption|]. split; [assumption|].
    now apply skipped_between_spec. }
  case_bool_decide as Ha; [|discriminate].
  intros [= <-]. exists AMAVASYA.
  split; [reflexivity|]. split; [auto|]. split; [discriminate|].
  intros _. split; [assumption|]. split; [assumption|].
  now apply skipped_between_spec.
Qed.

Lemma base_tithi_of_event_kind_witness :
  exists t, Generator.base_tithi Generator.KIND_KSHAYA_AMAVASYA = Ok t
    /\ (t = PURNIMA \/ t = AMAVASYA)
    /\ (Generator.is_kshaya Generator.KIND_KSHAYA_AMAVASYA = false -> t = 29)
    /\ (Generator.is_kshaya Generator.KIND_KSHAYA_AMAVASYA = true ->
        29 <> PURNIMA /\ 29 <> AMAVASYA /\ skipped_between 29 1 t).
Proof. apply (base_tithi_of_event_kind 29 1). vm_compute. reflexivity. Defined.

(** X3. A kind that [detect_event] returns is one that [kind_label] and
    [base_tithi] accept: the label is "PURNIMA" when the base tithi is 15
    and "AMAVASYA" when it is 30, and [is_kshaya] holds of the kinds 2 and
    3 only.  Neither function can raise [ValueError] on a detected kind. *)
Theorem detected_kind_has_label (X : Externals) (d : Calendar.date) (city : City) (k : Z) :
  Generator.detect_event X d city = Ok (Some k) ->
  0 <= k <= 3
  /\ Generator.is_kshaya k = (2 <=? k)
  /\ ((Generator.kind_label k = Ok "PURNIMA"%string
       /\ Generator.base_tithi k = Ok PURNIMA)
      \/ (Generator.kind_label k = Ok "AMAVASYA"%string
          /\ Generator.base_tithi k = Ok AMAVASYA)).
Proof.
  intros H. apply detect_event_event_kind in H as (t0 & t1 & _ & _ & H).
  symmetry in H. apply event_kind_closed in H as [-> | [-> | [-> | ->]]];
    vm_compute; intuition congruence.
Qed.

Lemma detected_kind_has_label_witness :
  0 <= 2 <= 3
  /\ Generator.is_kshaya 2 = (2 <=? 2)
  /\ ((Generator.kind_label 2 = Ok "PURNIMA"%string
       /\ Generator.base_tithi 2 = Ok PURNIMA)
      \/ (Generator.kind_label 2 = Ok "AMAVASYA"%string
          /\ Generator.base_tithi 2 = Ok AMAVASYA)).
Proof.
  apply (detected_kind_has_label Toy.jump Generator.START_DATE Toy.mysuru 2).
  vm_compute. reflexivity.
Defined.

(** Outside the four kinds both helpers raise [ValueError]. *)
Lemma kind_helpers_reject (k : Z) :
  ~ 0 <= k <= 3 ->
  Generator.kind_label k = Raise ValueError /\ Generator.base_tithi k = Raise ValueError.
Proof.
  intros H. unfold Generator.kind_label, Generator.base_tithi,
    Generator.KIND_PURNIMA, Generator.KIND_AMAVASYA,
    Generator.KIND_KSHAYA_PURNIMA, Generator.KIND_KSHAYA_AMAVASYA.
  destruct (Z.eqb_spec k 0), (Z.eqb_spec k 1), (Z.eqb_spec k 2), (Z.eqb_spec k 3);
    try lia; auto.
Qed.

Lemma kind_label_Ok (k : Z) :
  (exists l, Generator.kind_label k = Ok l) <-> 0 <= k <= 3.
Proof.
  split.
  - intros [l Hl]. destruct (decide (0 <= k <= 3)) as [|Hn]; [assumption|].
    apply kind_helpers_reject in Hn as [Hn _]. congruence.
  - intros H. assert (k = 0 \/ k = 1 \/ k = 2 \/ k = 3) as [-> | [-> | [-> | ->]]] by lia;
      vm_compute; eauto.
Qed.

(** ** The comparison table of the generator *)


(** X4. Two events are printed by [fmt_date] as the same string exactly when
    they fall on the same day: comparing the formatted dates, as
    [generate_csv] does, is comparing the dates. *)
Theorem fmt_date_eq_iff (e1 e2 : Generator.MoonEvent) :
  (Generator.fmt_date e1 = Generator.fmt_date e2 <-> Generator.date e1 = Generator.date e2)
  /\ (String.eqb (Generator.fmt_date e1) (Generator.fmt_date e2)
      = (Generator.date e1 =? Generator.date e2)).
Proof.
  assert (Hiff : Generator.fmt_date e1 = Generator.fmt_date e2
                 <-> Generator.date e1 = Generator.date e2).
  { split; [apply fmt_date_inj|].
    unfold Generator.fmt_date. now intros ->. }
  split; [exact Hiff|].
  destruct (String.eqb_spec (Generator.fmt_date e1) (Generator.fmt_date e2)) as [H|H],
           (Z.eqb_spec (Generator.date e1) (Generator.date e2)) as [H'|H'];
    try reflexivity; exfalso; tauto.
Qed.


(** X6. The dictionary [{e.index: e for e in events}] holds, under an index,
    the last event of the list that carries it; when every event carries
    its position, as in a list made by [generate_moon_days], looking an
    index up is taking the element at that position. *)
Theorem index_map_last_wins (events : list Generator.MoonEvent) (i : nat) :
  Generator.index_map events !! i
  = last (List.filter (fun e => Nat.eqb (Generator.index e) i) events)
  /\ ((forall k e, events !! k = Some e -> Generator.index e = k) ->
      Generator.index_map events !! i = events !! i).
Proof.
  split; [|intros H; now apply index_map_lookup].
  induction events as [|e events IH] using rev_ind; [reflexivity|].
  rewrite index_map_snoc, List.filter_app. simpl List.filter.
  destruct (Nat.eqb_spec (Generator.index e) i) as [->|Hne].
  - rewrite lookup_insert_eq, last_snoc. reflexivity.
  - rewrite lookup_insert_ne by assumption. rewrite app_nil_r. exact IH.
Qed.

Lemma index_map_last_wins_example :
  let ev i d := {| Generator.index := i; Generator.date := d;
                   Generator.kind := Generator.KIND_PURNIMA |} in
  Generator.index_map [ev 0%nat 739633; ev 1%nat 739647; ev 0%nat 739661] !! 0%nat
  = Some (ev 0%nat 739661).
Proof. vm_compute. reflexivity. Qed.

Lemma rmap_total {A B : Type} (f : A -> result B) (xs : list A) :
  (exists ys, rmap f xs = Ok ys) <-> Forall (fun x => exists y, f x = Ok y) xs.
Proof.
  split.
  - intros [ys H]. apply rmap_Ok in H.
    induction H; constructor; eauto.
  - induction 1 as [|x xs [y Hy] _ [ys Hys]]; [now exists []|].
    exists (y :: ys). simpl. rewrite Hy. simpl. rewrite Hys. reflexivity.
Qed.

Lemma rmap_Raise {A B : Type} (f : A -> result B) (xs : list A) (e : exn) :
  rmap f xs = Raise e -> exists x, x ∈ xs /\ f x = Raise e.
Proof.
  induction xs as [|x xs IH]; [discriminate|]. simpl. intros H.
  apply bind_Raise_inv in H as [H|(y & Hy & H)].
  - exists x. split; [constructor|assumption].
  - apply bind_Raise_inv in H as [H|(ys & Hys & H)]; [|discriminate].
    destruct (IH H) as (x' & Hin & Hx'). exists x'. split; [now constructor|assumption].
Qed.

Lemma dict_get_Ok {A : Type} (key : string) (items : list (string * A)) :
  (exists v, dict_get key items = Ok v) <-> key ∈ fst <$> items.
Proof.
  induction items as [|[k v] items IH]; simpl.
  - split; [intros [? [=]] | intros H; inversion H].
  - destruct (String.eqb_spec k key) as [->|Hne].
    + split; [intros _; constructor | eauto].
    + rewrite IH. split; [now constructor|].
      intros H. inversion H; subst; [contradiction|assumption].
Qed.

Lemma dict_get_Raise {A : Type} (key : string) (items : list (string * A)) (e : exn) :
  dict_get key items = Raise e -> e = KeyError /\ key ∉ fst <$> items.
Proof.
  intros H. split.
  - induction items as [|[k v] items IH]; simpl in H; [congruence|].
    destruct (String.eqb k key); [discriminate|auto].
  - intros Hin. apply dict_get_Ok in Hin as [v Hv]. congruence.
Qed.

Lemma csv_row_total (city_events : list (string * list Generator.MoonEvent))
    (others : list string) (ref : Generator.MoonEvent) :
  (exists row, Generator.csv_row ((fun ne => (ne.1, Generator.index_map ne.2)) <$> city_events)
                 others ref = Ok row)
  <-> 0 <= Generator.kind ref <= 3
      /\ forall city, city ∈ others -> city ∈ fst <$> city_events.
Proof.
  unfold Generator.csv_row. split.
  - intros [row H]. bind_inv H. split; [apply kind_label_Ok; eauto|].
    assert (Hex : exists ys, rmap (fun city =>
        m ← dict_get city ((fun ne => (ne.1, Generator.index_map ne.2)) <$> city_events);
        mret (Generator.other_cell (Generator.fmt_date ref) (m !! Generator.index ref)))
      others = Ok ys) by eauto.
    apply rmap_total in Hex. rewrite Forall_forall in Hex.
    intros city Hin. destruct (Hex city Hin) as [c Hc].
    rewrite dict_get_fmap in Hc. bind_inv Hc. bind_inv Ha1. apply dict_get_Ok. eauto.
  - intros [Hk Hall]. apply kind_label_Ok in Hk as [l Hl]. rewrite Hl. simpl.
    assert (Hex : exists ys, rmap (fun city =>
        m ← dict_get city ((fun ne => (ne.1, Generator.index_map ne.2)) <$> city_events);
        mret (Generator.other_cell (Generator.fmt_date ref) (m !! Generator.index ref)))
      others = Ok ys).
    { apply rmap_total, Forall_forall. intros city Hin.
      apply Hall, dict_get_Ok in Hin as [v Hv].
      rewrite dict_get_fmap, Hv. simpl. eauto. }
    destruct Hex as [ys Hys]. rewrite Hys. simpl. eauto.
Qed.

Lemma csv_row_error (city_events : list (string * list Generator.MoonEvent))
    (others : list string) (ref : Generator.MoonEvent) (e : exn) :
  Generator.csv_row ((fun ne => (ne.1, Generator.index_map ne.2)) <$> city_events)
    others ref = Raise e ->
  e = KeyError \/ e = ValueError.
Proof.
  unfold Generator.csv_row. intros H.
  apply bind_Raise_inv in H as [H|(l & _ & H)].
  - right. unfold Generator.kind_label in H.
    repeat (destruct (_ || _) in H; [discriminate|]). congruence.
  - left. apply bind_Raise_inv in H as [H|(ys & _ & H)]; [|discriminate].
    apply rmap_Raise in H as (city & _ & H). rewrite dict_get_fmap in H.
    apply bind_Raise_inv in H as [H|(v & _ & H)]; [|discriminate].
    apply bind_Raise_inv in H as [H|(v & _ & H)]; [|discriminate].
    now apply dict_get_Raise in H.
Qed.

Lemma csv_table_Ok_iff (city_events : list (string * list Generator.MoonEvent)) :
  (exists table, Generator.csv_table city_events = Ok table)
  <-> exists ref_events,
        dict_get Generator.MASTER_CITY city_events = Ok ref_events
        /\ (forall e, e ∈ ref_events -> 0 <= Generator.kind e <= 3)
        /\ (ref_events <> [] ->
            forall city, city ∈ drop 1 (fst <$> CITIES) -> city ∈ fst <$> city_events).
Proof.
  unfold Generator.csv_table. cbv zeta. split.
  - intros [table H]. bind_inv H. exists a. split; [assumption|].
    assert (Hex : exists rows, rmap
      (Generator.csv_row ((fun ne => (ne.1, Generator.index_map ne.2)) <$> city_events)
         (drop 1 (fst <$> CITIES))) a = Ok rows) by eauto.
    apply rmap_total in Hex. rewrite Forall_forall in Hex.
    split.
    + intros e He. now apply Hex, csv_row_total in He.
    + intros Hne. destruct a as [|r a]; [congruence|].
      assert (Hr : r ∈ r :: a) by constructor.
      now apply Hex, csv_row_total in Hr.
  - intros (ref_events & Hget & Hk & Hc). rewrite Hget, bind_Ok.
    assert (Hex : exists rows, rmap
      (Generator.csv_row ((fun ne => (ne.1, Generator.index_map ne.2)) <$> city_events)
         (drop 1 (fst <$> CITIES))) ref_events = Ok rows).
    { apply rmap_total, Forall_forall. intros r Hr. apply csv_row_total.
      split; [now apply Hk|]. apply Hc. intros ->. inversion Hr. }
    destruct Hex as [rows Hrows]. rewrite Hrows, bind_Ok. eexists. reflexivity.
Qed.

Lemma csv_table_Raise (city_events : list (string * list Generator.MoonEvent)) (e : exn) :
  Generator.csv_table city_events = Raise e -> e = KeyError \/ e = ValueError.
Proof.
  unfold Generator.csv_table. cbv zeta. intros H.
  apply bind_Raise_inv in H as [H|(ref_events & _ & H)].
  - left. now apply dict_get_Raise in H.
  - apply bind_Raise_inv in H as [H|(rows & _ & H)]; [|discriminate].
    apply rmap_Raise in H as (r & _ & H). now apply csv_row_error in H.
Qed.

(** X7. When [generate_csv] can build its table from the events of the
    cities: the master city must be a key of [city_events], every master
    event must have one of the four kinds, and, if there is a master event
    at all, every other city of [CITIES] must be a key too.  Otherwise it
    raises [KeyError] (a city is missing) or [ValueError] (an unknown
    kind), and nothing else; without the master city it is [KeyError]. *)
Theorem csv_table_succeeds_iff (city_events : list (string * list Generator.MoonEvent)) :
  ((exists table, Generator.csv_table city_events = Ok table)
   <-> exists ref_events,
         dict_get Generator.MASTER_CITY city_events = Ok ref_events
         /\ (forall e, e ∈ ref_events -> 0 <= Generator.kind e <= 3)
         /\ (ref_events <> [] ->
             forall city, city ∈ drop 1 (fst <$> CITIES) -> city ∈ fst <$> city_events))
  /\ (forall e, Generator.csv_table city_events = Raise e -> e = KeyError \/ e = ValueError)
  /\ (Generator.MASTER_CITY ∉ fst <$> city_events ->
      Generator.csv_table city_events = Raise KeyError).
Proof.
  split; [apply csv_table_Ok_iff|]. split; [apply csv_table_Raise|].
  intros Hno. unfold Generator.csv_table. cbv zeta.
  destruct (dict_get Generator.MASTER_CITY city_events) as [v|e] eqn:Hget.
  - exfalso. apply Hno, dict_get_Ok. eauto.
  - apply dict_get_Raise in Hget as [-> _]. reflexivity.
Qed.

Lemma csv_table_failures :
  Generator.csv_table [] = Raise KeyError
  /\ Generator.csv_table
       [("Mysuru"%string, [ {| Generator.index := 0; Generator.date := 739633;
                               Generator.kind := Generator.KIND_AMAVASYA |} ])]
     = Raise KeyError
  /\ Generator.csv_table [("Mysuru"%string, [])]
     = Ok [ ["Moon Phase"; "Mysuru Date"]%string ++ drop 1 (fst <$> CITIES) ]
  /\ Generator.csv_table
       ((fun nc : string * City =>
           (nc.1, [ {| Generator.index := 0; Generator.date := 739633; Generator.kind := 7 |} ]))
        <$> CITIES)
     = Raise ValueError.
Proof. vm_compute. repeat split. Qed.

(** ** The scan, continued *)

Section ScanMore.

Context (X : Externals) (city : City).

Lemma scan_day_Raise_inv (d : Calendar.date) st (e : exn) :
  Generator.scan_day X city d st = Raise e -> Generator.detect_event X d city = Raise e.
Proof.
  unfold Generator.scan_day. intros H.
  apply bind_Raise_inv in H as [H|(k & _ & H)]; [assumption|discriminate].
Qed.

Lemma scan_day_Ok_inv (d : Calendar.date) st st' :
  Generator.scan_day X city d st = Ok st' ->
  exists k, Generator.detect_event X d city = Ok k.
Proof. unfold Generator.scan_day. intros H. bind_inv H. eauto. Qed.

Lemma scan_loop_Raise_inv (e : exn) (fuel : nat) :
  forall d0 st, 0 < d0 ->
  Generator.scan_loop X fuel city d0 st = Some (Raise e) ->
  exists d, d0 <= d <= Generator.END_DATE
    /\ Generator.detect_event X d city = Raise e
    /\ forall d', d0 <= d' < d -> exists k, Generator.detect_event X d' city = Ok k.
Proof.
  induction fuel as [|fuel IH]; intros d0 st Hpos Hrun; [discriminate|].
  simpl in Hrun. destruct (Z.leb_spec d0 Generator.END_DATE) as [Hle|Hgt]; [|discriminate].
  destruct (Generator.scan_day X city d0 st) as [st'|e'] eqn:Hday.
  - rewrite add_days_valid in Hrun
      by (rewrite END_DATE_ord in *; unfold Calendar._MAXORDINAL; lia).
    apply IH in Hrun as (d & Hd & Hfail & Hok); [|lia].
    exists d. split; [lia|]. split; [assumption|].
    intros d' Hd'. destruct (Z.eq_dec d' d0) as [->|Hne].
    + now apply scan_day_Ok_inv in Hday.
    + apply Hok. lia.
  - injection Hrun as ->. exists d0. split; [lia|].
    split; [now apply scan_day_Raise_inv in Hday|]. intros d' Hd'. lia.
Qed.

Lemma scan_loop_Ok_inv (fuel : nat) :
  forall d0 st events,
  Generator.scan_loop X fuel city d0 st = Some (Ok events) ->
  forall d, d0 <= d <= Generator.END_DATE ->
  exists k, Generator.detect_event X d city = Ok k.
Proof.
  induction fuel as [|fuel IH]; intros d0 st events Hrun d Hd; [discriminate|].
  simpl in Hrun. destruct (Z.leb_spec d0 Generator.END_DATE) as [Hle|Hgt]; [|lia].
  destruct (Generator.scan_day X city d0 st) as [st'|e'] eqn:Hday; [|discriminate].
  destruct (Calendar.add_days d0 1) as [d1|e'] eqn:Hadd; [|discriminate].
  apply add_days_Ok in Hadd as ->.
  destruct (Z.eq_dec d d0) as [->|Hne].
  - now apply scan_day_Ok_inv in Hday.
  - apply (IH _ _ _ Hrun). lia.
Qed.

Lemma scan_events_from (fuel : nat) (d0 : Calendar.date)
    (events : list Generator.MoonEvent) :
  Generator.scan_loop X fuel city d0 ([], None) = Some (Ok events) ->
  forall i e, events !! i = Some e ->
  Generator.index e = i
  /\ d0 + 2 * Z.of_nat i <= Generator.date e <= Generator.END_DATE
  /\ Generator.detect_event X (Generator.date e) city = Ok (Some (Generator.kind e)).
Proof.
  intros Hrun.
  destruct (scan_loop_inv X city d0 fuel d0 ([], None) events) as (d' & l & Hd' & Hinv);
    [apply scan_inv_init|lia|exact Hrun|].
  destruct (scan_inv_final X city d0 d' events l Hd' Hinv)
    as (Hidx & Hgap & _ & _ & Hrange & _).
  assert (Hin : forall i e, events !! i = Some e -> e ∈ events)
    by (intros i e H; now apply list_elem_of_lookup_2 in H).
  intros i. induction i as [|i IH]; intros e He.
  - destruct (Hrange e (Hin _ _ He)) as [? ?]. split; [now apply Hidx|]. split; [lia|assumption].
  - destruct (events !! i) as [a|] eqn:Ha.
    + destruct (IH a eq_refl) as (_ & Hlo & _).
      pose proof (Hgap i a e Ha He) as Hg. unfold Calendar.days_between in Hg.
      destruct (Hrange e (Hin _ _ He)) as [? ?].
      split; [now apply Hidx|]. split; [lia|assumption].
    + apply lookup_ge_None in Ha. apply lookup_lt_Some in He. lia.
Qed.

End ScanMore.

(** X8. How many events a scan can find: the event of index [i] falls at
    least [2 * i] days after the first day scanned and not after
    [END_DATE], so that a scan of [n] days gives at most [(n + 1) / 2]
    events; [generate_moon_days] gives at most 13697. *)
Theorem scan_event_count (X : Externals) (city : City) (fuel : nat)
    (d0 : Calendar.date) (events : list Generator.MoonEvent) :
  Generator.scan_loop X fuel city d0 ([], None) = Some (Ok events) ->
  (forall i e, events !! i = Some e ->
     d0 + 2 * Z.of_nat i <= Generator.date e <= Generator.END_DATE)
  /\ 2 * Z.of_nat (length events) <= Z.max 0 (Generator.END_DATE - d0 + 2)
  /\ (d0 = Generator.START_DATE -> Z.of_nat (length events) <= 13697).
Proof.
  intros Hrun. pose proof (scan_events_from X city fuel d0 events Hrun) as H.
  assert (Hlen : 2 * Z.of_nat (length events) <= Z.max 0 (Generator.END_DATE - d0 + 2)).
  { destruct (length events) as [|n] eqn:Hn; [lia|].
    destruct (lookup_lt_is_Some_2 events n ltac:(lia)) as [e He].
    destruct (H n e He) as (_ & Hr & _). lia. }
  split; [|split].
  - intros i e He. now destruct (H i e He) as (_ & Hr & _).
  - exact Hlen.
  - intros ->. rewrite START_DATE_ord, END_DATE_ord in Hlen. lia.
Qed.

Lemma scan_event_count_witness :
  let events := [ {| Generator.index := 0; Generator.date := 767000;
                     Generator.kind := Generator.KIND_PURNIMA |};
                  {| Generator.index := 1; Generator.date := 767005;
                     Generator.kind := Generator.KIND_PURNIMA |} ] in
  (forall i e, events !! i = Some e ->
     Generator.END_DATE - 40 + 2 * Z.of_nat i <= Generator.date e <= Generator.END_DATE)
  /\ 2 * Z.of_nat (length events) <= Z.max 0 (Generator.END_DATE - (Generator.END_DATE - 40) + 2)
  /\ (Generator.END_DATE - 40 = Generator.START_DATE -> Z.of_nat (length events) <= 13697).
Proof.
  apply (scan_event_count Toy.twin Toy.mysuru 50 (Generator.END_DATE - 40)).
  vm_compute. reflexivity.
Defined.

(** X9. An exception that comes out of the scan was raised by
    [detect_event] on a day of the range, the first day on which
    [detect_event] does not return; the loop itself raises nothing. *)
Theorem scan_failure_origin (X : Externals) (city : City) (e : exn) (fuel : nat)
    (d0 : Calendar.date) :
  0 < d0 ->
  Generator.scan_loop X fuel city d0 ([], None) = Some (Raise e) ->
  (exists d, d0 <= d <= Generator.END_DATE
     /\ Generator.detect_event X d city = Raise e
     /\ forall d', d0 <= d' < d -> exists k, Generator.detect_event X d' city = Ok k)
  /\ (d0 = Generator.START_DATE ->
      fuel = S (Z.to_nat (Generator.END_DATE + 1 - Generator.START_DATE)) ->
      Generator.generate_moon_days X city = Some (Raise e)).
Proof.
  intros Hpos Hrun. split; [now apply scan_loop_Raise_inv with fuel ([], None)|].
  intros -> ->. exact Hrun.
Qed.

Lemma scan_failure_origin_witness :
  (exists d, Generator.END_DATE - 40 <= d <= Generator.END_DATE
     /\ Generator.detect_event Toy.polar d Toy.mysuru = Raise (LibraryError "no sunrise")
     /\ forall d', Generator.END_DATE - 40 <= d' < d ->
          exists k, Generator.detect_event Toy.polar d' Toy.mysuru = Ok k)
  /\ (Generator.END_DATE - 40 = Generator.START_DATE ->
      50%nat = S (Z.to_nat (Generator.END_DATE + 1 - Generator.START_DATE)) ->
      Generator.generate_moon_days Toy.polar Toy.mysuru
      = Some (Raise (LibraryError "no sunrise"))).
Proof.
  apply (scan_failure_origin Toy.polar Toy.mysuru (LibraryError "no sunrise") 50
           (Generator.END_DATE - 40)).
  - vm_compute. reflexivity.
  - vm_compute. reflexivity.
Defined.

(** X10. The scan returns a list exactly when [detect_event] returns on
    every day from the first day scanned to [END_DATE]: the day after
    [END_DATE] is looked at too, by the last call, for its sunrise. *)
Theorem scan_succeeds_iff (X : Externals) (city : City) (fuel : nat)
    (d0 : Calendar.date) :
  0 < d0 -> (0 < fuel)%nat -> Generator.END_DATE + 1 - d0 < Z.of_nat fuel ->
  ((exists events, Generator.scan_loop X fuel city d0 ([], None) = Some (Ok events))
   <-> forall d, d0 <= d <= Generator.END_DATE ->
         exists k, Generator.detect_event X d city = Ok k)
  /\ (d0 <= Generator.END_DATE ->
      forall e, sunrise_tithi X (Generator.END_DATE + 1) city = Raise e ->
      exists e', Generator.scan_loop X fuel city d0 ([], None) = Some (Raise e'))
  /\ (d0 = Generator.START_DATE ->
      fuel = S (Z.to_nat (Generator.END_DATE + 1 - Generator.START_DATE)) ->
      ((exists events, Generator.generate_moon_days X city = Some (Ok events))
       <-> forall d, Generator.START_DATE <= d <= Generator.END_DATE ->
             exists k, Generator.detect_event X d city = Ok k)).
Proof.
  intros Hpos Hfpos Hfuel.
  assert (Hiff : (exists events, Generator.scan_loop X fuel city d0 ([], None) = Some (Ok events))
                 <-> forall d, d0 <= d <= Generator.END_DATE ->
                       exists k, Generator.detect_event X d city = Ok k).
  { split.
    - intros [events Hrun]. now apply scan_loop_Ok_inv with fuel ([], None) events.
    - intros Hall.
      destruct (scan_loop_total X city fuel d0 ([], None)) as [[events|e] Hr]; [lia|lia|eauto|].
      apply scan_loop_Raise_inv in Hr as (d & Hd & Hfail & _); [|assumption].
      destruct (Hall d Hd) as [k Hk]. congruence. }
  split; [exact Hiff|]. split; [|intros -> ->; exact Hiff].
  intros Hle e Hlast.
  destruct (scan_loop_total X city fuel d0 ([], None)) as [[events|e'] Hr]; [lia|lia| |eauto].
  exfalso. assert (Hex : exists events, Generator.scan_loop X fuel city d0 ([], None) = Some (Ok events))
    by eauto.
  apply Hiff with (d := Generator.END_DATE) in Hex as [k Hk]; [|lia].
  apply detect_event_event_kind in Hk as (t0 & t1 & _ & Ht1 & _). congruence.
Qed.

Lemma scan_succeeds_iff_witness :
  ((exists events, Generator.scan_loop Toy.twin 50 Toy.mysuru (Generator.END_DATE - 40)
                     ([], None) = Some (Ok events))
   <-> forall d, Generator.END_DATE - 40 <= d <= Generator.END_DATE ->
         exists k, Generator.detect_event Toy.twin d Toy.mysuru = Ok k)
  /\ (Generator.END_DATE - 40 <= Generator.END_DATE ->
      forall e, sunrise_tithi Toy.twin (Generator.END_DATE + 1) Toy.mysuru = Raise e ->
      exists e', Generator.scan_loop Toy.twin 50 Toy.mysuru (Generator.END_DATE - 40)
                   ([], None) = Some (Raise e'))
  /\ (Generator.END_DATE - 40 = Generator.START_DATE ->
      50%nat = S (Z.to_nat (Generator.END_DATE + 1 - Generator.START_DATE)) ->
      ((exists events, Generator.generate_moon_days Toy.twin Toy.mysuru = Some (Ok events))
       <-> forall d, Generator.START_DATE <= d <= Generator.END_DATE ->
             exists k, Generator.detect_event Toy.twin d Toy.mysuru = Ok k)).
Proof.
  apply (scan_succeeds_iff Toy.twin Toy.mysuru 50 (Generator.END_DATE - 40)).
  - vm_compute. reflexivity.
  - lia.
  - vm_compute. reflexivity.
Defined.

(** X11. The one-year script and the generator look at a day in the same
    way: when both return, [is_moon_day] holds exactly when [detect_event]
    finds a plain Purnima or Amavasya; the days on which the generator
    finds a kshaya are not moon days of the one-year table. *)
Theorem year_table_agrees_with_generator (X : Externals) (d : Calendar.date)
    (city : City) (b : bool) (r : option Z) :
  YearTable.is_moon_day X d city = Ok b ->
  Generator.detect_event X d city = Ok r ->
  (b = true <-> r = Some Generator.KIND_PURNIMA \/ r = Some Generator.KIND_AMAVASYA)
  /\ (forall k, r = Some k -> Generator.is_kshaya k = negb b)
  /\ (r = None -> b = false).
Proof.
  rewrite is_moon_day_tithi. intros Hb Hr.
  apply detect_event_event_kind in Hr as (t0 & t1 & Ht0 & _ & ->).
  rewrite Ht0 in Hb. injection Hb as <-.
  unfold Generator.event_kind.
  destruct (Z.eqb_spec t0 PURNIMA) as [->|H15].
  { split; [|split]; [intuition | intros k [= <-]; reflexivity | discriminate]. }
  destruct (Z.eqb_spec t0 AMAVASYA) as [->|H30].
  { split; [|split]; [intuition | intros k [= <-]; reflexivity | discriminate]. }
  simpl.
  assert (Hno : forall k, Some k = Some Generator.KIND_PURNIMA
                          \/ Some k = Some Generator.KIND_AMAVASYA ->
                          Generator.is_kshaya k = true -> False).
  { intros k [[= ->]|[= ->]]; discriminate. }
  destruct (1 <? (t1 - t0) mod 30); [|split; [|split]; [intuition congruence|discriminate|reflexivity]].
  destruct (bool_decide (PURNIMA ∈ Generator.skipped t0 ((t1 - t0) mod 30))).
  { split; [|split]; [split; [discriminate|intros [?|?]; discriminate]
                     | intros k [= <-]; reflexivity | discriminate]. }
  destruct (bool_decide (AMAVASYA ∈ Generator.skipped t0 ((t1 - t0) mod 30))).
  { split; [|split]; [split; [discriminate|intros [?|?]; discriminate]
                     | intros k [= <-]; reflexivity | discriminate]. }
  split; [|split]; [split; [discriminate|intros [?|?]; discriminate]
                   | discriminate | reflexivity].
Qed.

Lemma year_table_agrees_with_generator_witness :
  (false = true <-> Some Generator.KIND_KSHAYA_PURNIMA = Some Generator.KIND_PURNIMA
                    \/ Some Generator.KIND_KSHAYA_PURNIMA = Some Generator.KIND_AMAVASYA)
  /\ (forall k, Some Generator.KIND_KSHAYA_PURNIMA = Some k ->
        Generator.is_kshaya k = negb false)
  /\ (Some Generator.KIND_KSHAYA_PURNIMA = None -> false = false).
Proof.
  apply (year_table_agrees_with_generator Toy.jump Generator.START_DATE Toy.mysuru).
  - vm_compute. reflexivity.
  - vm_compute. reflexivity.
Defined.

Lemma year_table_agrees_with_generator_example :
  YearTable.is_moon_day Toy.steady 739633 Toy.mysuru = Ok true
  /\ Generator.detect_event Toy.steady 739633 Toy.mysuru = Ok (Some Generator.KIND_AMAVASYA).
Proof. vm_compute. split; reflexivity. Qed.

(** ** The header file *)

(** The day of the year of a calendar date: at most 365, or 366 in a year
    divisible by 4. *)
Lemma day_of_year_bound (y m dd : Z) :
  1 <= m <= 12 -> 1 <= dd <= Calendar._days_in_month y m ->
  1 <= Calendar._days_before_month y m + dd
  /\ (Calendar._days_before_month y m + dd <= 365
      \/ (y mod 4 = 0 /\ Calendar._days_before_month y m + dd <= 366)).
Proof.
  intros Hm Hd. unfold Calendar._days_before_month, Calendar._days_in_month in *.
  assert (Hleap : Calendar._is_leap y = true -> y mod 4 = 0).
  { unfold Calendar._is_leap. intros H. apply andb_true_iff in H as [H _]. lia. }
  assert (m = 1 \/ m = 2 \/ m = 3 \/ m = 4 \/ m = 5 \/ m = 6 \/ m = 7 \/ m = 8
          \/ m = 9 \/ m = 10 \/ m = 11 \/ m = 12) as Hcases by lia.
  destruct (Calendar._is_leap y);
    [specialize (Hleap eq_refl)|clear Hleap];
    repeat (destruct Hcases as [-> | Hcases]); try subst m; simpl in *; lia.
Qed.

Lemma year_bounds (y b d : Z) :
  Calendar._days_before_year y + b = d ->
  1 <= b -> b <= 365 \/ (y mod 4 = 0 /\ b <= 366) ->
  739617 <= d <= 767010 -> 2026 <= y <= 2101.
Proof.
  unfold Calendar._days_before_year. cbv zeta. intros Hord Hb1 Hb2 Hd.
  Z.div_mod_to_equations. lia.
Qed.

Lemma year_of_scanned (d : Calendar.date) :
  Generator.START_DATE <= d <= Generator.END_DATE -> 2026 <= Calendar.year d <= 2101.
Proof.
  rewrite START_DATE_ord, END_DATE_ord. intros Hd.
  destruct (ymd2ord_ord2ymd d) as (Hord & Hm & Hdd). revert Hord Hm Hdd.
  generalize (Calendar.year d) (Calendar.month d) (Calendar.day d).
  intros y m dd Hord Hm Hdd.
  destruct (day_of_year_bound _ _ _ Hm Hdd) as [Hb1 Hb2].
  apply (year_bounds y (Calendar._days_before_month y m + dd) d);
    [|exact Hb1|exact Hb2|exact Hd].
  unfold Calendar._ymd2ord in Hord. rewrite <- Hord. apply Z.add_assoc.
Qed.

Lemma scanned_entry (X : Externals) (city : City) (fuel : nat) (d0 : Calendar.date)
    (events : list Generator.MoonEvent) (i : nat) (e : Generator.MoonEvent) :
  Generator.scan_loop X fuel city d0 ([], None) = Some (Ok events) ->
  Generator.START_DATE <= d0 ->
  events !! i = Some e ->
  Generator.index e = i /\ Z.of_nat i < 13697
  /\ 2026 <= Calendar.year (Generator.date e) <= 2101
  /\ 1 <= Calendar.month (Generator.date e) <= 12
  /\ 1 <= Calendar.day (Generator.date e) <= 31
  /\ 0 <= Generator.kind e <= 3.
Proof.
  intros Hrun Hd0 He.
  destruct (scan_events_from X city fuel d0 events Hrun i e He) as (Hi & Hr & Hk).
  destruct (ymd2ord_ord2ymd (Generator.date e)) as (_ & Hm & Hd).
  pose proof (days_in_month_le (Calendar.year (Generator.date e)) _ Hm).
  apply detect_event_event_kind in Hk as (t0 & t1 & _ & _ & Hk). symmetry in Hk.
  apply event_kind_closed in Hk.
  unfold Generator.KIND_PURNIMA, Generator.KIND_AMAVASYA,
    Generator.KIND_KSHAYA_PURNIMA, Generator.KIND_KSHAYA_AMAVASYA in Hk.
  split; [assumption|]. split; [rewrite START_DATE_ord, END_DATE_ord in *; lia|].
  split; [apply year_of_scanned; lia|]. repeat split; lia.
Qed.



Lemma h_entry_example :
  Generator.h_entry {| Generator.index := 1; Generator.date := 767005;
                       Generator.kind := Generator.KIND_PURNIMA |}
  = ("  {1, 2100, 12, 27, 0}," +:+ Generator.newline)%string.
Proof. vm_compute. reflexivity. Qed.

(** ** The table of the one-year script *)

Lemma omap_Ok {A B : Type} (f : A -> outcome B) (xs : list A) (ys : list B) :
  omap f xs = Some (Ok ys) <-> Forall2 (fun x y => f x = Some (Ok y)) xs ys.
Proof.
  revert ys. induction xs as [|x xs IH]; intros ys; simpl.
  - split; [intros [= <-]; constructor | intros H; inversion H; reflexivity].
  - split.
    + intros H. destruct (f x) as [[y|e]|] eqn:Hy; simpl in H; try discriminate.
      destruct (omap f xs) as [[zs|e]|] eqn:Hzs; simpl in H; try discriminate.
      injection H as <-. constructor; [exact Hy|now apply IH].
    + intros H. inversion H as [|? y ? zs Hy Hzs]; subst.
      rewrite Hy. simpl. apply IH in Hzs. rewrite Hzs. reflexivity.
Qed.

Lemma omap_total {A B : Type} (f : A -> outcome B) (xs : list A) :
  (exists ys, omap f xs = Some (Ok ys)) <-> Forall (fun x => exists y, f x = Some (Ok y)) xs.
Proof.
  split.
  - intros [ys H]. apply omap_Ok in H. induction H; constructor; eauto.
  - induction 1 as [|x xs [y Hy] _ [ys Hys]]; [now exists []|].
    exists (y :: ys). simpl. rewrite Hy. simpl. rewrite Hys. reflexivity.
Qed.

Lemma moon_days_for_city_range (X : Externals) (city : City) (days : list Calendar.date) :
  YearTable.moon_days_for_city X city = Some (Ok days) ->
  forall d, d ∈ days -> 739617 <= d <= 739981.
Proof.
  unfold YearTable.moon_days_for_city. rewrite YEAR_first, YEAR_last. cbn [obind].
  intros Hrun.
  destruct (YearTable.days_loop X _ city 739981 739617 ∅) as [[res|e]|] eqn:Hloop;
    try discriminate.
  injection Hrun as <-.
  apply days_loop_spec in Hloop as [Hmem _].
  intros d Hd. apply sorted_spec, Hmem in Hd as [Hd|[Hd _]]; [|exact Hd].
  now apply not_elem_of_empty in Hd.
Qed.

(** The days of the other cities, as [generate_csv] keeps them. *)
Lemma year_city_days (X : Externals) (cs : list (string * City))
    (city_days : list (string * gset Z)) :
  omap (fun nc : string * City =>
          obind (YearTable.moon_days_for_city X nc.2)
                (fun days => Some (Ok (nc.1, list_to_set days)))) cs
  = Some (Ok city_days) ->
  Forall2 (fun (nc : string * City) (nd : string * gset Z) =>
             nd.1 = nc.1
             /\ exists days, YearTable.moon_days_for_city X nc.2 = Some (Ok days)
                             /\ nd.2 = list_to_set days) cs city_days.
Proof.
  intros H. apply omap_Ok in H. eapply Forall2_impl; [exact H|].
  intros nc nd Hnd. simpl in Hnd.
  destruct (YearTable.moon_days_for_city X nc.2) as [[days|e]|]; simpl in Hnd;
    try discriminate.
  injection Hnd as <-. simpl. eauto.
Qed.

Lemma dict_get_Forall2 {A B : Type} (P : A -> B -> Prop)
    (cs : list (string * A)) (ds : list (string * B)) :
  NoDup (fst <$> cs) ->
  Forall2 (fun c d => d.1 = c.1 /\ P c.2 d.2) cs ds ->
  forall name a, (name, a) ∈ cs -> exists b, dict_get name ds = Ok b /\ P a b.
Proof.
  intros Hnd H. induction H as [|[n a'] [n' b'] cs ds [Hn HP] _ IH]; intros name a Hin.
  - inversion Hin.
  - simpl in Hn, HP. subst n'. apply NoDup_cons in Hnd as [Hnotin Hnd].
    simpl. apply elem_of_cons in Hin as [[= -> ->]|Hin].
    + rewrite String.eqb_refl. eauto.
    + destruct (String.eqb_spec n name) as [->|Hne].
      * exfalso. apply Hnotin. apply list_elem_of_fmap. now exists (name, a).
      * now apply IH.
Qed.

Lemma year_generate_csv_eq (X : Externals) :
  YearTable.generate_csv X
  = obind (YearTable.moon_days_for_city X Toy.mysuru) (fun master_days =>
    obind (omap (fun nc : string * City =>
                   obind (YearTable.moon_days_for_city X nc.2)
                         (fun days => Some (Ok (nc.1, list_to_set days))))
                (drop 1 CITIES))
          (fun city_days : list (string * gset Z) =>
    obind (Some (rmap (YearTable.csv_row city_days (fst <$> drop 1 CITIES)) master_days))
          (fun rows => Some (Ok ((fst <$> CITIES) :: rows))))).
Proof.
  unfold YearTable.generate_csv.
  assert (Hm : dict_get "Mysuru" CITIES = Ok Toy.mysuru) by (vm_compute; reflexivity).
  assert (Ho : List.filter (fun nc : string * City => negb (String.eqb nc.1 "Mysuru")) CITIES
               = drop 1 CITIES) by (vm_compute; reflexivity).
  assert (Hh : List.filter (fun c => negb (String.eqb c "Mysuru")) (fst <$> CITIES)
               = fst <$> drop 1 CITIES) by (vm_compute; reflexivity).
  assert (Hc : ("Mysuru"%string :: (fst <$> drop 1 CITIES)) = fst <$> CITIES)
    by (vm_compute; reflexivity).
  rewrite Hm, Ho, Hh. cbn [obind drop]. rewrite Hc. reflexivity.
Qed.

Lemma Forall2_impl_elem {A B : Type} (P Q : A -> B -> Prop) (l : list A) (k : list B) :
  Forall2 P l k -> (forall x y, x ∈ l -> P x y -> Q x y) -> Forall2 Q l k.
Proof.
  induction 1 as [|x y l k Hxy _ IH]; intros Himp; constructor.
  - apply Himp; [constructor|assumption].
  - apply IH. intros x' y' Hin. apply Himp. now constructor.
Qed.

Lemma other_cities_NoDup : NoDup (fst <$> drop 1 CITIES).
Proof. apply (bool_decide_unpack _). vm_compute. exact I. Qed.

(** X13. The table of the one-year script: its header is the names of
    [CITIES], Mysuru first; after it comes one row for each moon day of
    Mysuru, in the order of [moon_days_for_city], that is by date; a row
    starts with the ISO date of the master's day and has one cell for each
    other city, in the order of [CITIES], worked out by the probing of
    nearby days from that city's own moon days. *)
Theorem year_table_spec (X : Externals) (table : list (list string)) :
  YearTable.generate_csv X = Some (Ok table) ->
  exists master master_days rows,
    dict_get "Mysuru" CITIES = Ok master
    /\ YearTable.moon_days_for_city X master = Some (Ok master_days)
    /\ StronglySorted Z.lt master_days
    /\ table = (fst <$> CITIES) :: rows
    /\ Forall2 (fun d row => exists cells,
         row = isoformat d :: cells
         /\ Forall2 (fun (nc : string * City) c => exists days,
              YearTable.moon_days_for_city X nc.2 = Some (Ok days)
              /\ YearTable.cell (list_to_set days) d = Ok c) (drop 1 CITIES) cells)
         master_days rows.
Proof.
  rewrite year_generate_csv_eq. intros H.
  destruct (YearTable.moon_days_for_city X Toy.mysuru) as [[master_days|e]|] eqn:Hmaster;
    cbn [obind] in H; try discriminate.
  destruct (omap _ (drop 1 CITIES)) as [[city_days|e]|] eqn:Hmap;
    cbn [obind] in H; try discriminate.
  destruct (rmap _ master_days) as [rows|e] eqn:Hrows; cbn [obind] in H; try discriminate.
  injection H as <-.
  exists Toy.mysuru, master_days, rows.
  split; [vm_compute; reflexivity|]. split; [exact Hmaster|].
  split.
  { revert Hmaster. unfold YearTable.moon_days_for_city.
    rewrite YEAR_first, YEAR_last. cbn [obind].
    destruct (YearTable.days_loop X _ Toy.mysuru 739981 739617 ∅) as [[res|e]|];
      try discriminate.
    intros [= <-]. apply sorted_spec. }
  split; [reflexivity|].
  apply year_city_days in Hmap. apply rmap_Ok in Hrows.
  eapply Forall2_impl; [exact Hrows|]. intros d row Hrow.
  apply year_csv_row_spec in Hrow as (cells & -> & Hcells).
  exists cells. split; [reflexivity|].
  apply Forall2_fmap_l in Hcells.
  eapply Forall2_impl_elem; [exact Hcells|].
  intros [name c] cell Hin (days' & Hget & Hcell). simpl in Hget, Hcell |- *.
  destruct (dict_get_Forall2
              (fun (c : City) (s : gset Z) =>
                 exists days, YearTable.moon_days_for_city X c = Some (Ok days)
                              /\ s = list_to_set days)
              _ _ other_cities_NoDup Hmap name c Hin)
    as (b & Hb & days & Hdays & ->).
  rewrite Hb in Hget. injection Hget as <-. eauto.
Qed.

Lemma year_table_spec_witness :
  exists master master_days rows,
    dict_get "Mysuru" CITIES = Ok master
    /\ YearTable.moon_days_for_city Toy.steady master = Some (Ok master_days)
    /\ StronglySorted Z.lt master_days
    /\ Toy.year_table = (fst <$> CITIES) :: rows
    /\ Forall2 (fun d row => exists cells,
         row = isoformat d :: cells
         /\ Forall2 (fun (nc : string * City) c => exists days,
              YearTable.moon_days_for_city Toy.steady nc.2 = Some (Ok days)
              /\ YearTable.cell (list_to_set days) d = Ok c) (drop 1 CITIES) cells)
         master_days rows.
Proof.
  apply (year_table_spec Toy.steady Toy.year_table).
  vm_compute. reflexivity.
Defined.

Lemma omap_Raise {A B : Type} (f : A -> outcome B) (xs : list A) (e : exn) :
  omap f xs = Some (Raise e) -> exists x, x ∈ xs /\ f x = Some (Raise e).
Proof.
  induction xs as [|x xs IH]; [discriminate|]. simpl. intros H.
  destruct (f x) as [[y|e']|] eqn:Hx; simpl in H; try discriminate.
  - destruct (omap f xs) as [[ys|e']|]; simpl in H; try discriminate.
    injection H as ->. destruct (IH eq_refl) as (x' & Hin & Hx').
    exists x'. split; [now constructor|assumption].
  - injection H as ->. exists x. split; [constructor|assumption].
Qed.

(** Writing the rows raises nothing once every city has its days. *)
Lemma year_rows_total (X : Externals) (city_days : list (string * gset Z))
    (master_days : list Calendar.date) :
  Forall2 (fun (nc : string * City) (nd : string * gset Z) =>
             nd.1 = nc.1
             /\ exists days, YearTable.moon_days_for_city X nc.2 = Some (Ok days)
                             /\ nd.2 = list_to_set days) (drop 1 CITIES) city_days ->
  (forall d, d ∈ master_days -> 739617 <= d <= 739981) ->
  exists rows, rmap (YearTable.csv_row city_days (fst <$> drop 1 CITIES)) master_days
               = Ok rows.
Proof.
  intros Hmap Hrange. apply rmap_total, Forall_forall. intros d Hd.
  apply Hrange in Hd. unfold YearTable.csv_row.
  assert (Hex : exists cells,
            rmap (fun city => days ← dict_get city city_days; YearTable.cell days d)
                 (fst <$> drop 1 CITIES) = Ok cells).
  { apply rmap_total, Forall_forall. intros name Hin.
    apply list_elem_of_fmap in Hin as ([name' c] & -> & Hin). simpl.
    destruct (dict_get_Forall2
                (fun (c : City) (s : gset Z) =>
                   exists days, YearTable.moon_days_for_city X c = Some (Ok days)
                                /\ s = list_to_set days)
                _ _ other_cities_NoDup Hmap name' c Hin) as (b & -> & _).
    rewrite bind_Ok, cell_eq by (unfold Calendar._MAXORDINAL; lia). eauto. }
  destruct Hex as [cells ->]. rewrite bind_Ok. eexists. reflexivity.
Qed.

(** X14. The one-year script writes its table exactly when the scan of the
    year returns a list for every city of [CITIES]; writing the rows
    raises nothing, so that an exception of [generate_csv] is one that
    [moon_days_for_city] raised for some city. *)
Theorem year_table_succeeds_iff (X : Externals) :
  ((exists table, YearTable.generate_csv X = Some (Ok table))
   <-> forall nc, nc ∈ CITIES ->
         exists days, YearTable.moon_days_for_city X nc.2 = Some (Ok days))
  /\ (forall e, YearTable.generate_csv X = Some (Raise e) ->
        exists nc, nc ∈ CITIES /\ YearTable.moon_days_for_city X nc.2 = Some (Raise e)).
Proof.
  assert (HC : CITIES = ("Mysuru"%string, Toy.mysuru) :: drop 1 CITIES)
    by (vm_compute; reflexivity).
  rewrite year_generate_csv_eq. split; [split|].
  - intros [table H].
    destruct (YearTable.moon_days_for_city X Toy.mysuru) as [[master_days|e]|] eqn:Hmaster;
      cbn [obind] in H; [|discriminate H|discriminate H].
    destruct (omap _ (drop 1 CITIES)) as [[city_days|e]|] eqn:Hmap;
      cbn [obind] in H; [|discriminate H|discriminate H].
    apply year_city_days in Hmap.
    intros nc Hnc. rewrite HC in Hnc. apply elem_of_cons in Hnc as [->|Hnc];
      [exists master_days; exact Hmaster|].
    apply list_elem_of_lookup in Hnc as [i Hi].
    destruct (Forall2_lookup_l _ _ _ _ _ Hmap Hi) as (nd & _ & _ & days & Hdays & _).
    exists days. exact Hdays.
  - intros Hall.
    destruct (Hall ("Mysuru"%string, Toy.mysuru)) as [master_days Hmaster];
      [rewrite HC; constructor|].
    cbn [snd] in Hmaster. rewrite Hmaster. cbn [obind].
    assert (Hex : exists city_days : list (string * gset Z),
              omap (fun nc : string * City =>
                      obind (YearTable.moon_days_for_city X nc.2)
                            (fun days => Some (Ok (nc.1, list_to_set days))))
                   (drop 1 CITIES) = Some (Ok city_days)).
    { apply omap_total, Forall_forall. intros nc Hnc.
      destruct (Hall nc) as [days Hdays]; [rewrite HC; now constructor|].
      rewrite Hdays. cbn [obind]. eauto. }
    destruct Hex as [city_days Hmap]. rewrite Hmap. cbn [obind].
    apply year_city_days in Hmap.
    destruct (year_rows_total X city_days master_days Hmap
                (moon_days_for_city_range X _ _ Hmaster)) as [rows ->].
    cbn [obind]. eauto.
  - intros e H.
    destruct (YearTable.moon_days_for_city X Toy.mysuru) as [[master_days|e']|] eqn:Hmaster;
      cbn [obind] in H; [| |discriminate H].
    + destruct (omap _ (drop 1 CITIES)) as [[city_days|e']|] eqn:Hmap;
        cbn [obind] in H; [| |discriminate H].
      * exfalso. apply year_city_days in Hmap.
        destruct (year_rows_total X city_days master_days Hmap
                    (moon_days_for_city_range X _ _ Hmaster)) as [rows Hrows].
        rewrite Hrows in H. cbn [obind] in H. discriminate H.
      * injection H as ->. apply omap_Raise in Hmap as (nc & Hnc & Hr).
        exists nc. split; [rewrite HC; now constructor|].
        destruct (YearTable.moon_days_for_city X nc.2) as [[days|e']|];
          cbn [obind] in Hr; [discriminate Hr|congruence|discriminate Hr].
    + injection H as ->. exists ("Mysuru"%string, Toy.mysuru).
      split; [rewrite HC; constructor|exact Hmaster].
Qed.

(** ** Tithis on whole degrees *)

Lemma tithi_of_difference (k : Z) :
  -360 < k < 360 ->
  (diff ← PyFloat.rem (PyFloat.of_int k) (PyFloat.of_int 360);
   q ← PyFloat.floordiv diff TITHI_DEG;
   n ← PyFloat.to_int q; mret (n + 1)) = Ok (k mod 360 / 12 + 1).
Proof.
  intros Hk.
  set (ok := fun k => match (diff ← PyFloat.rem (PyFloat.of_int k) (PyFloat.of_int 360);
                              q ← PyFloat.floordiv diff TITHI_DEG;
                              n ← PyFloat.to_int q; mret (n + 1)) with
                      | Ok t => t =? k mod 360 / 12 + 1
                      | Raise _ => false
                      end).
  assert (Hall : all_from ok 719 (-359) = true) by (vm_compute; reflexivity).
  pose proof (all_from_spec ok 719 (-359) k Hall ltac:(lia)) as H.
  unfold ok in H.
  destruct (_ ≫= _) as [t|e]; [|discriminate].
  apply Z.eqb_eq in H. now subst.
Qed.

(** X1. When the difference [moon - sun] of the two longitudes that
    [tithi_at_jd] reads is a whole number [k] of degrees, [-360 < k < 360],
    the tithi is exact: it is [k] taken modulo 360, divided by 12 and
    rounded down, plus one, and this is a tithi of 1..30. *)
Theorem tithi_whole_degrees (X : Externals) (jd moon sun : float) (k : Z) :
  swe_calc_ut X jd SUN = Ok sun ->
  swe_calc_ut X jd MOON = Ok moon ->
  PyFloat.sub moon sun = PyFloat.of_int k ->
  -360 < k < 360 ->
  tithi_at_jd X jd = Ok (k mod 360 / 12 + 1)
  /\ 1 <= k mod 360 / 12 + 1 <= 30.
Proof.
  intros Hsun Hmoon Hsub Hk. split.
  - unfold tithi_at_jd. rewrite Hsun, bind_Ok, Hmoon, bind_Ok.
    unfold tithi_of_longitudes. rewrite Hsub.
    now apply tithi_of_difference.
  - pose proof (Z.mod_pos_bound k 360 ltac:(lia)) as Hb.
    assert (0 <= k mod 360 / 12) by (apply Z.div_pos; lia).
    assert (k mod 360 / 12 < 30) by (apply Z.div_lt_upper_bound; lia).
    lia.
Qed.

Lemma tithi_whole_degrees_witness :
  tithi_at_jd Toy.steady (PyFloat.of_int 739619) = Ok (167 mod 360 / 12 + 1)
  /\ 1 <= 167 mod 360 / 12 + 1 <= 30.
Proof.
  apply (tithi_whole_degrees Toy.steady (PyFloat.of_int 739619)
           (PyFloat.of_int 167) (PyFloat.of_int 0) 167).
  - vm_compute. reflexivity.
  - vm_compute. reflexivity.
  - vm_compute. reflexivity.
  - lia.
Defined.

(** The moon 20 degrees past the sun across the zero of longitude. *)
Lemma tithi_wraps_example :
  PyFloat.sub (PyFloat.of_int 10) (PyFloat.of_int 350) = PyFloat.of_int (-340)
  /\ tithi_of_longitudes (PyFloat.of_int 10) (PyFloat.of_int 350) = Ok 2.
Proof. vm_compute. split; reflexivity. Qed.

(** ** Hours that are no time of day *)

(** X15. What [local_sunrise] does with the hour [h] that [swe.revjul]
    returns, the calls before it having returned: a NaN makes [int(h)]
    raise [ValueError] and an infinite hour [OverflowError]; when the hour
    can be cut into [hh], [mm] and [ss], [datetime] raises [OverflowError]
    if the year, month, day, [hh], [mm] or [ss] does not fit a C [int],
    and otherwise [ValueError] if [hh], [mm] or [ss] is no hour, minute or
    second of a day (an hour of 24 or more, or a negative part) or the day
    returned is no calendar day.  Nothing is returned in any of these
    cases. *)
Theorem local_sunrise_bad_hour (X : Externals) (d : Calendar.date) (city : City)
    (tzi : tzinfo) (naive local_midnight utc_midnight : datetime) (jd0 jd_rise : float)
    (y m dd : Z) (h : float) :
  pytz_timezone X (tz city) = Ok tzi ->
  mkdatetime (Calendar.year d) (Calendar.month d) (Calendar.day d) 0 0 0 None = Ok naive ->
  localize X tzi naive = Ok local_midnight ->
  astimezone X local_midnight UTC = Ok utc_midnight ->
  julian_day X utc_midnight = Ok jd0 ->
  swe_rise_trans X jd0 SUN CALC_RISE (lon city, lat city, 0) 0 0 = Ok jd_rise ->
  swe_revjul X jd_rise GREG_CAL = Ok (y, m, dd, h) ->
  (h = SpecFloat.S754_nan -> local_sunrise X d city = Raise ValueError)
  /\ (forall s, h = SpecFloat.S754_infinity s -> local_sunrise X d city = Raise OverflowError)
  /\ (forall hh mm ss, split_hour h = Ok (hh, mm, ss) ->
        forallb fits_c_int [y; m; dd; hh; mm; ss] = false ->
        local_sunrise X d city = Raise OverflowError)
  /\ (forall hh mm ss, split_hour h = Ok (hh, mm, ss) ->
        forallb fits_c_int [y; m; dd; hh; mm; ss] = true ->
        ~ (0 <= hh <= 23 /\ 0 <= mm <= 59 /\ 0 <= ss <= 59) ->
        local_sunrise X d city = Raise ValueError)
  /\ (forall hh mm ss, split_hour h = Ok (hh, mm, ss) ->
        forallb fits_c_int [y; m; dd; hh; mm; ss] = true ->
        Calendar.valid_ymd y m dd = false ->
        local_sunrise X d city = Raise ValueError).
Proof.
  intros Ht Hn Hl Hu Hj Hr Hv.
  assert (Heq : local_sunrise X d city
                = ('(hh, mm, ss) ← split_hour h;
                   sunrise_utc ← mkdatetime y m dd hh mm ss (Some UTC);
                   astimezone X sunrise_utc tzi)).
  { unfold local_sunrise.
    rewrite Ht, bind_Ok, Hn, bind_Ok, Hl, bind_Ok, Hu, bind_Ok, Hj, bind_Ok, Hr, bind_Ok.
    rewrite Hv, bind_Ok. reflexivity. }
  rewrite Heq. split; [|split; [|split; [|split]]].
  - intros ->. reflexivity.
  - intros s ->. reflexivity.
  - intros hh mm ss Hs Hbig. rewrite Hs, bind_Ok. cbn beta iota.
    unfold mkdatetime. rewrite Hbig. reflexivity.
  - intros hh mm ss Hs Hfit Hbad. rewrite Hs, bind_Ok. cbn beta iota.
    unfold mkdatetime. rewrite Hfit.
    destruct (_ && _) eqn:Hc; [|reflexivity].
    exfalso. apply Hbad.
    repeat (apply andb_true_iff in Hc as [Hc ?]). lia.
  - intros hh mm ss Hs Hfit Hbad. rewrite Hs, bind_Ok. cbn beta iota.
    unfold mkdatetime. rewrite Hfit, Hbad. reflexivity.
Qed.

Lemma local_sunrise_bad_hour_witness :
  let X := Toy.at_hour (PyFloat.of_int 24) in
  let h := PyFloat.of_int 24 in
  (h = SpecFloat.S754_nan ->
   local_sunrise X Generator.START_DATE Toy.mysuru = Raise ValueError)
  /\ (forall s, h = SpecFloat.S754_infinity s ->
        local_sunrise X Generator.START_DATE Toy.mysuru = Raise OverflowError)
  /\ (forall hh mm ss, split_hour h = Ok (hh, mm, ss) ->
        forallb fits_c_int [2026; 1; 1; hh; mm; ss] = false ->
        local_sunrise X Generator.START_DATE Toy.mysuru = Raise OverflowError)
  /\ (forall hh mm ss, split_hour h = Ok (hh, mm, ss) ->
        forallb fits_c_int [2026; 1; 1; hh; mm; ss] = true ->
        ~ (0 <= hh <= 23 /\ 0 <= mm <= 59 /\ 0 <= ss <= 59) ->
        local_sunrise X Generator.START_DATE Toy.mysuru = Raise ValueError)
  /\ (forall hh mm ss, split_hour h = Ok (hh, mm, ss) ->
        forallb fits_c_int [2026; 1; 1; hh; mm; ss] = true ->
        Calendar.valid_ymd 2026 1 1 = false ->
        local_sunrise X Generator.START_DATE Toy.mysuru = Raise ValueError).
Proof.
  apply (local_sunrise_bad_hour (Toy.at_hour (PyFloat.of_int 24)) Generator.START_DATE
           Toy.mysuru (Zone "Asia/Kolkata")
           {| dt_year := 2026; dt_month := 1; dt_day := 1;
              dt_hour := 0; dt_minute := 0; dt_second := 0; dt_tzinfo := None |}
           {| dt_year := 2026; dt_month := 1; dt_day := 1;
              dt_hour := 0; dt_minute := 0; dt_second := 0; dt_tzinfo := None |}
           {| dt_year := 2026; dt_month := 1; dt_day := 1;
              dt_hour := 0; dt_minute := 0; dt_second := 0; dt_tzinfo := None |}
           (PyFloat.of_int 739617) (PyFloat.of_int 739617));
    vm_compute; reflexivity.
Defined.

(** An hour of 24, a NaN, an infinite hour, half an hour before midnight,
    and an hour of [2 ^ 31], which no C [int] holds. *)
Lemma local_sunrise_bad_hour_examples :
  local_sunrise (Toy.at_hour (PyFloat.of_int 24)) Generator.START_DATE Toy.mysuru
  = Raise ValueError
  /\ local_sunrise (Toy.at_hour SpecFloat.S754_nan) Generator.START_DATE Toy.mysuru
     = Raise ValueError
  /\ local_sunrise (Toy.at_hour (SpecFloat.S754_infinity false)) Generator.START_DATE
       Toy.mysuru = Raise OverflowError
  /\ local_sunrise (Toy.at_hour (PyFloat.of_decimal (-5) 1)) Generator.START_DATE Toy.mysuru
     = Raise ValueError
  /\ split_hour (PyFloat.of_int (2 ^ 31)) = Ok (2 ^ 31, 0, 0)
  /\ local_sunrise (Toy.at_hour (PyFloat.of_int (2 ^ 31))) Generator.START_DATE Toy.mysuru
     = Raise OverflowError.
Proof. vm_compute. repeat split. Qed.

(** ** The generator's table, from the scans *)

Lemma generator_city_events (X : Externals) (cs : list (string * City))
    (city_events : list (string * list Generator.MoonEvent)) :
  omap (fun nc : string * City =>
          obind (Generator.generate_moon_days X nc.2)
                (fun events => Some (Ok (nc.1, events)))) cs
  = Some (Ok city_events) ->
  Forall2 (fun (nc : string * City) (ne : string * list Generator.MoonEvent) =>
             ne.1 = nc.1 /\ Generator.generate_moon_days X nc.2 = Some (Ok ne.2))
          cs city_events.
Proof.
  intros H. apply omap_Ok in H. eapply Forall2_impl; [exact H|].
  intros nc ne Hne. cbv beta in Hne.
  destruct (Generator.generate_moon_days X nc.2) as [[events|e]|];
    cbn [obind] in Hne; [|discriminate Hne|discriminate Hne].
  injection Hne as <-. split; reflexivity.
Qed.

Lemma cities_NoDup : NoDup (fst <$> CITIES).
Proof. apply (bool_decide_unpack _). vm_compute. exact I. Qed.

(** The table can be written for the lists that the scans return. *)
Lemma csv_table_of_scans (X : Externals)
    (city_events : list (string * list Generator.MoonEvent)) :
  Forall2 (fun (nc : string * City) (ne : string * list Generator.MoonEvent) =>
             ne.1 = nc.1 /\ Generator.generate_moon_days X nc.2 = Some (Ok ne.2))
          CITIES city_events ->
  exists table, Generator.csv_table city_events = Ok table.
Proof.
  intros Hall. apply csv_table_Ok_iff.
  assert (Hkeys : fst <$> city_events = fst <$> CITIES).
  { clear -Hall. induction Hall as [|nc ne cs ces [Hn _] _ IH]; [reflexivity|].
    rewrite !fmap_cons. now rewrite Hn, IH. }
  assert (HC : CITIES = ("Mysuru"%string, Toy.mysuru) :: drop 1 CITIES)
    by (vm_compute; reflexivity).
  assert (Hin : ("Mysuru"%string, Toy.mysuru) ∈ CITIES)
    by (rewrite HC; constructor).
  clear HC.
  destruct (dict_get_Forall2
              (fun (c : City) (evs : list Generator.MoonEvent) =>
                 Generator.generate_moon_days X c = Some (Ok evs))
              _ _ cities_NoDup Hall _ _ Hin) as (ref_events & Hget & Hscan).
  exists ref_events. split; [exact Hget|]. split.
  - intros e He. apply list_elem_of_lookup in He as [i Hi].
    unfold Generator.generate_moon_days in Hscan.
    now destruct (scanned_entry X _ _ _ _ i e Hscan ltac:(lia) Hi) as (_ & _ & _ & _ & _ & Hk).
  - intros _ city Hcity. rewrite Hkeys, <- (take_drop 1 (fst <$> CITIES)).
    apply elem_of_app. now right.
Qed.

(** X16. The generator writes its comparison table exactly when the scan
    returns a list for every city of [CITIES]: on the lists of the scans
    the table is always built, no city being missing and no kind unknown,
    so that an exception of [generate_csv] is one that
    [generate_moon_days] raised for some city. *)
Theorem generate_csv_succeeds_iff (X : Externals) :
  ((exists table, Generator.generate_csv X = Some (Ok table))
   <-> forall nc, nc ∈ CITIES ->
         exists events, Generator.generate_moon_days X nc.2 = Some (Ok events))
  /\ (forall e, Generator.generate_csv X = Some (Raise e) ->
        exists nc, nc ∈ CITIES /\ Generator.generate_moon_days X nc.2 = Some (Raise e)).
Proof.
  unfold Generator.generate_csv. split; [split|].
  - intros [table H].
    destruct (omap _ CITIES) as [[city_events|e]|] eqn:Hmap;
      cbn [obind] in H; [|discriminate H|discriminate H].
    apply generator_city_events in Hmap.
    intros nc Hnc. apply list_elem_of_lookup in Hnc as [i Hi].
    destruct (Forall2_lookup_l _ _ _ _ _ Hmap Hi) as (ne & _ & _ & Hne).
    exists ne.2. exact Hne.
  - intros Hall.
    assert (Hex : exists city_events : list (string * list Generator.MoonEvent),
              omap (fun nc : string * City =>
                      obind (Generator.generate_moon_days X nc.2)
                            (fun events => Some (Ok (nc.1, events)))) CITIES
              = Some (Ok city_events)).
    { apply omap_total, Forall_forall. intros nc Hnc.
      destruct (Hall nc Hnc) as [events Hev]. rewrite Hev. cbn [obind]. eauto. }
    destruct Hex as [city_events Hmap]. rewrite Hmap. cbn [obind].
    apply generator_city_events in Hmap.
    destruct (csv_table_of_scans X city_events Hmap) as [table ->]. eauto.
  - intros e H.
    destruct (omap _ CITIES) as [[city_events|e']|] eqn:Hmap;
      cbn [obind] in H; [| |discriminate H].
    + exfalso. apply generator_city_events in Hmap.
      destruct (csv_table_of_scans X city_events Hmap) as [table Ht].
      rewrite Ht in H. discriminate H.
    + injection H as ->. apply omap_Raise in Hmap as (nc & Hnc & Hr).
      exists nc. split; [exact Hnc|].
      destruct (Generator.generate_moon_days X nc.2) as [[events|e']|];
        cbn [obind] in Hr; [discriminate Hr|congruence|discriminate Hr].
Qed.

(** ** The tithis passed over *)

(** X17. The list of skipped tithis that [detect_event] builds between a
    sunrise at tithi [t0] and the next at tithi [t1]: it has one entry for
    each step of the cycle of 30 strictly between the two, every entry is
    a tithi of 1..30, and neither [t0] nor [t1] is in it, so that a day
    is never a kshaya on account of the tithi of either sunrise. *)
Theorem skipped_excludes_ends (t0 t1 : Z) :
  1 <= t0 <= 30 -> 1 <= t1 <= 30 ->
  Z.of_nat (length (Generator.skipped t0 ((t1 - t0) mod 30)))
  = Z.max 0 ((t1 - t0) mod 30 - 1)
  /\ (forall x, x ∈ Generator.skipped t0 ((t1 - t0) mod 30) -> 1 <= x <= 30)
  /\ (t0 ∉ Generator.skipped t0 ((t1 - t0) mod 30))
  /\ (t1 ∉ Generator.skipped t0 ((t1 - t0) mod 30))
  /\ (forall i x, Generator.skipped t0 ((t1 - t0) mod 30) !! i = Some x ->
        x = (t0 + Z.of_nat i) mod 30 + 1).
Proof.
  intros H0 H1. split; [|split; [|split; [|split]]].
  - unfold Generator.skipped. rewrite length_fmap, length_seqZ. lia.
  - intros x Hx. apply skipped_between_spec in Hx as [Hx _]. exact Hx.
  - intros Hx. apply skipped_between_spec in Hx as [_ Hx].
    rewrite Z.sub_diag, Z.mod_0_l in Hx by lia. lia.
  - intros Hx. apply skipped_between_spec in Hx as [_ Hx]. lia.
  - intros i x Hi. unfold Generator.skipped in Hi.
    rewrite list_lookup_fmap in Hi.
    destruct (seqZ 1 _ !! i) as [k|] eqn:Hk; [|discriminate].
    apply lookup_seqZ in Hk as [-> _]. injection Hi as <-.
    f_equal. f_equal. lia.
Qed.

Lemma skipped_excludes_ends_witness :
  Z.of_nat (length (Generator.skipped 14 ((1 - 14) mod 30)))
  = Z.max 0 ((1 - 14) mod 30 - 1)
  /\ (forall x, x ∈ Generator.skipped 14 ((1 - 14) mod 30) -> 1 <= x <= 30)
  /\ (14 ∉ Generator.skipped 14 ((1 - 14) mod 30))
  /\ (1 ∉ Generator.skipped 14 ((1 - 14) mod 30))
  /\ (forall i x, Generator.skipped 14 ((1 - 14) mod 30) !! i = Some x ->
        x = (14 + Z.of_nat i) mod 30 + 1).
Proof. apply (skipped_excludes_ends 14 1); lia. Defined.

Lemma skipped_example :
  Generator.skipped 14 ((1 - 14) mod 30)
  = [15; 16; 17; 18; 19; 20; 21; 22; 23; 24; 25; 26; 27; 28; 29; 30].
Proof. vm_compute. reflexivity. Qed.

(** C10.  The cells of the other cities in the table of the one-year
    script.  When [generate_csv] returns its table, the rows after the
    header are those of the moon days of Mysuru, in order; the row of the
    master's day [d] is the ISO date of [d] and then one cell for each
    other city, in the order of [CITIES]; the cell [s] of a city is worked
    out from the moon days of that city alone, probed at [d], [d - 1],
    [d + 1], [d - 2] and [d + 2] in this order, the first hit deciding: it
    is blank when [d] is a moon day of the city, the ISO date of the first
    hit otherwise, and "NaN" when the city has no moon day within two days
    of [d]. *)
Theorem year_cells_spec (X : Externals) (table : list (list string)) :
  YearTable.generate_csv X = Some (Ok table) ->
  exists master master_days rows,
    dict_get "Mysuru" CITIES = Ok master
    /\ YearTable.moon_days_for_city X master = Some (Ok master_days)
    /\ table = (fst <$> CITIES) :: rows
    /\ Forall2 (fun d row => exists cells,
         row = isoformat d :: cells
         /\ Forall2 (fun (nc : string * City) s => exists days,
              YearTable.moon_days_for_city X nc.2 = Some (Ok days)
              /\ (d ∈ days -> s = ""%string)
              /\ (d ∉ days -> d - 1 ∈ days -> s = isoformat (d - 1))
              /\ (d ∉ days -> d - 1 ∉ days -> d + 1 ∈ days -> s = isoformat (d + 1))
              /\ (d ∉ days -> d - 1 ∉ days -> d + 1 ∉ days -> d - 2 ∈ days ->
                  s = isoformat (d - 2))
              /\ (d ∉ days -> d - 1 ∉ days -> d + 1 ∉ days -> d - 2 ∉ days ->
                  d + 2 ∈ days -> s = isoformat (d + 2))
              /\ (d ∉ days -> d - 1 ∉ days -> d + 1 ∉ days -> d - 2 ∉ days ->
                  d + 2 ∉ days -> s = "NaN"%string)
              /\ (s = ""%string <-> d ∈ days)
              /\ (s = "NaN"%string <-> forall k, -2 <= k <= 2 -> d + k ∉ days))
            (drop 1 CITIES) cells)
         master_days rows.
Proof.
  rewrite year_generate_csv_eq. intros H.
  destruct (YearTable.moon_days_for_city X Toy.mysuru) as [[master_days|e]|] eqn:Hmaster;
    cbn [obind] in H; [|discriminate H|discriminate H].
  destruct (omap _ (drop 1 CITIES)) as [[city_days|e]|] eqn:Hmap;
    cbn [obind] in H; [|discriminate H|discriminate H].
  destruct (rmap _ master_days) as [rows|e] eqn:Hrows; cbn [obind] in H;
    [|discriminate H].
  injection H as <-.
  exists Toy.mysuru, master_days, rows.
  split; [vm_compute; reflexivity|]. split; [exact Hmaster|].
  split; [reflexivity|].
  apply year_city_days in Hmap. apply rmap_Ok in Hrows.
  pose proof (moon_days_for_city_range X _ _ Hmaster) as Hrange.
  eapply Forall2_impl_elem; [exact Hrows|]. intros d row Hd Hrow.
  apply Hrange in Hd.
  apply year_csv_row_spec in Hrow as (cells & -> & Hcells).
  exists cells. split; [reflexivity|].
  apply Forall2_fmap_l in Hcells.
  eapply Forall2_impl_elem; [exact Hcells|].
  intros [name c] s Hin (days' & Hget & Hcell). simpl in Hget, Hcell |- *.
  destruct (dict_get_Forall2
              (fun (c : City) (s : gset Z) =>
                 exists days, YearTable.moon_days_for_city X c = Some (Ok days)
                              /\ s = list_to_set days)
              _ _ other_cities_NoDup Hmap name c Hin)
    as (b & Hb & days & Hdays & ->).
  rewrite Hb in Hget. injection Hget as <-.
  exists days. split; [exact Hdays|].
  destruct (cell_spec (list_to_set days) d) as (s' & Hs' & Hcases);
    [lia|unfold Calendar._MAXORDINAL; lia|].
  rewrite Hs' in Hcell. injection Hcell as ->.
  assert (Hmem : forall x : Z, x ∈ (list_to_set days : gset Z) <-> x ∈ days)
    by (intros x; apply elem_of_list_to_set).
  setoid_rewrite Hmem in Hcases. exact Hcases.
Qed.

Lemma year_cells_spec_witness :
  exists master master_days rows,
    dict_get "Mysuru" CITIES = Ok master
    /\ YearTable.moon_days_for_city Toy.staggered master = Some (Ok master_days)
    /\ Toy.staggered_table = (fst <$> CITIES) :: rows
    /\ Forall2 (fun d row => exists cells,
         row = isoformat d :: cells
         /\ Forall2 (fun (nc : string * City) s => exists days,
              YearTable.moon_days_for_city Toy.staggered nc.2 = Some (Ok days)
              /\ (d ∈ days -> s = ""%string)
              /\ (d ∉ days -> d - 1 ∈ days -> s = isoformat (d - 1))
              /\ (d ∉ days -> d - 1 ∉ days -> d + 1 ∈ days -> s = isoformat (d + 1))
              /\ (d ∉ days -> d - 1 ∉ days -> d + 1 ∉ days -> d - 2 ∈ days ->
                  s = isoformat (d - 2))
              /\ (d ∉ days -> d - 1 ∉ days -> d + 1 ∉ days -> d - 2 ∉ days ->
                  d + 2 ∈ days -> s = isoformat (d + 2))
              /\ (d ∉ days -> d - 1 ∉ days -> d + 1 ∉ days -> d - 2 ∉ days ->
                  d + 2 ∉ days -> s = "NaN"%string)
              /\ (s = ""%string <-> d ∈ days)
              /\ (s = "NaN"%string <-> forall k, -2 <= k <= 2 -> d + k ∉ days))
            (drop 1 CITIES) cells)
         master_days rows.
Proof.
  apply (year_cells_spec Toy.staggered Toy.staggered_table).
  vm_compute. reflexivity.
Defined.

(** The first row of that table: the master's day 2026-01-17, the day
    before for the western cities, no moon day near for Saint-Petersburg. *)
Lemma staggered_table_row :
  Toy.staggered_table !! 1%nat
  = Some [ "2026-01-17"; "2026-01-16"; "NaN"; ""; "2026-01-16"; "";
           "2026-01-16"; "2026-01-16"; ""; "" ]%string.
Proof. vm_compute. reflexivity. Qed.

(** ** Blank cells of the comparison table *)








(** The two sets of events of the witness differ, their tables do not:
    Moscow lacks an event of index 1 in the one and has it on the
    master's day in the other; Kyiv's kshaya of index 2 is dated nine days
    apart. *)
Lemma paired_events_differ :
  (dict_get "Moscow" (Toy.paired_events false) ≫= fun evs => Ok (evs !! 1%nat)) = Ok None
  /\ (dict_get "Moscow" (Toy.paired_events true)
        ≫= fun evs => Ok (Generator.date <$> evs !! 1%nat)) = Ok (Some 739647)
  /\ (dict_get "Kyiv" (Toy.paired_events false)
        ≫= fun evs => Ok (Generator.date <$> evs !! 2%nat)) = Ok (Some 739661)
  /\ (dict_get "Kyiv" (Toy.paired_events true)
        ≫= fun evs => Ok (Generator.date <$> evs !! 2%nat)) = Ok (Some 739670)
  /\ Generator.csv_table (Toy.paired_events false) = Generator.csv_table (Toy.paired_events true)
  /\ drop 1 Toy.paired_table
     = [ ["AMAVASYA"; "17 Jan 2026"; ""; ""; ""; ""; ""; ""; ""; ""; ""];
         ["PURNIMA"; "31 Jan 2026"; ""; ""; ""; ""; ""; ""; ""; ""; ""];
         ["AMAVASYA"; "14 Feb 2026"; ""; ""; ""; ""; ""; ""; Generator.KSHAYA_MARK; ""; ""]
       ]%string.
Proof. vm_compute. repeat split. Qed.
